(** * Quantum Alpha India: accounts, subscriptions, sessions and packages

    A shallow embedding of the data layer ([lib/db-auth]), the server
    actions and the admin login route of the application, over the MySQL
    schema of [cloudpanel schema] and [database/admin_schema.sql].

    Tables are lists of rows in storage order.  A statement either returns
    or throws; what it wrote before throwing stays written (the code opens
    no transaction). *)

From Stdlib Require Import ZArith List String Ascii Bool Lia.
Import ListNotations.
Local Open Scope string_scope.
Local Open Scope list_scope.

(** ** JavaScript outcomes *)

(** What a [throw] carries: an [Error] built by the code with its message,
    or the error object of the MySQL driver with its [code] and the name of
    the key or column that was violated. *)
Inductive Exn : Type :=
| JsError (message : string)
| MysqlError (code : string) (key : string).

Definition ER_DUP_ENTRY : string := "ER_DUP_ENTRY".
Definition ER_NO_REFERENCED_ROW_2 : string := "ER_NO_REFERENCED_ROW_2".
Definition ER_BAD_NULL_ERROR : string := "ER_BAD_NULL_ERROR".
Definition ER_DATA_TOO_LONG : string := "ER_DATA_TOO_LONG".

(** [error.code], [undefined] on a plain [Error]. *)
Definition exn_code (e : Exn) : option string :=
  match e with
  | JsError _ => None
  | MysqlError c _ => Some c
  end.

Inductive Outcome (A : Type) : Type :=
| Returned (a : A)
| Thrown (e : Exn).
Arguments Returned {A} a.
Arguments Thrown {A} e.

(** ** Text

    A string holds the UTF-8 bytes of its text.  A byte 10xxxxxx continues
    the character that an earlier byte began; every other byte begins a
    character. *)
Definition is_continuation (c : ascii) : bool :=
  let n := nat_of_ascii c in Nat.leb 128 n && Nat.ltb n 192.

(** [CHAR_LENGTH]: the number of characters, which is what the width of a
    VARCHAR column counts under utf8mb4. *)
Fixpoint char_length (s : string) : nat :=
  match s with
  | EmptyString => 0
  | String c rest => (if is_continuation c then 0 else 1) + char_length rest
  end.

(** The first [n] characters of [s], and what follows them. *)
Fixpoint keep_chars (n : nat) (s : string) : string :=
  match s with
  | EmptyString => EmptyString
  | String c rest =>
      if is_continuation c then String c (keep_chars n rest)
      else match n with
           | O => EmptyString
           | S m => String c (keep_chars m rest)
           end
  end.

Fixpoint skip_chars (n : nat) (s : string) : string :=
  match s with
  | EmptyString => EmptyString
  | String c rest =>
      if is_continuation c then skip_chars n rest
      else match n with
           | O => s
           | S m => skip_chars m rest
           end
  end.

Fixpoint all_spaces (s : string) : bool :=
  match s with
  | EmptyString => true
  | String c rest => Ascii.eqb c " " && all_spaces rest
  end.

(** What a VARCHAR([n]) column keeps of a value under the strict SQL mode,
    which is the default of the server: a value of more than [n]
    characters is refused ([None]), unless all that exceeds the width is
    spaces, which are cut off. *)
Definition varchar (n : nat) (s : string) : option string :=
  if all_spaces (skip_chars n s) then Some (keep_chars n s) else None.

(** A bind value that may be NULL, for a VARCHAR([n]) column. *)
Definition varchar_or_null (n : nat) (v : option string) : option (option string) :=
  match v with
  | Some s => option_map Some (varchar n s)
  | None => Some None
  end.

(** ** String comparison inside the database

    Every table is declared [COLLATE=utf8mb4_unicode_ci], so [=] on a
    VARCHAR column and the unique indexes compare with that collation, not
    byte by byte.  The collation is taken as an arbitrary equivalence on
    strings; comparisons made by the JavaScript code ([===], [!==]) stay
    exact. *)
Class Collation : Type := {
  coll_eqb : string -> string -> bool;
  coll_refl : forall s, coll_eqb s s = true;
  coll_sym : forall s t, coll_eqb s t = coll_eqb t s;
  coll_trans : forall s t u,
      coll_eqb s t = true -> coll_eqb t u = true -> coll_eqb s u = true
}.

(** A bind value: [None] is JavaScript [undefined] or [null], which reaches
    the server as SQL NULL and is equal to nothing. *)
Definition SqlStr : Type := option string.

Definition sql_eqb `{Collation} (column : string) (param : SqlStr) : bool :=
  match param with
  | Some s => coll_eqb column s
  | None => false
  end.

(** ** Schema *)

Inductive Plan : Type := Starter | Pro | Expert.
Inductive Role : Type := RoleUser | RoleAdmin | RoleSuperadmin.
(** [users.status] is ENUM('Active','Cancelled'); [admins.status] adds
    'Suspended'. *)
Inductive AccountStatus : Type := AccountActive | AccountCancelled | AccountSuspended.
Inductive SubscriptionStatus : Type := Active | Cancelled | Inactive.

Definition Plan_eqb (a b : Plan) : bool :=
  match a, b with
  | Starter, Starter | Pro, Pro | Expert, Expert => true
  | _, _ => false
  end.

Definition SubscriptionStatus_eqb (a b : SubscriptionStatus) : bool :=
  match a, b with
  | Active, Active | Cancelled, Cancelled | Inactive, Inactive => true
  | _, _ => false
  end.

Definition Plan_name (p : Plan) : string :=
  match p with
  | Starter => "Starter"
  | Pro => "Pro"
  | Expert => "Expert"
  end.

Definition Role_name (r : Role) : string :=
  match r with
  | RoleUser => "user"
  | RoleAdmin => "admin"
  | RoleSuperadmin => "superadmin"
  end.

(** Rows carry the columns that some statement of the code reads or writes
    by name.  The bookkeeping columns [created_at] and [updated_at] of
    [users], [admins], [subscriptions], [user_sessions] and [audit_logs],
    which the server fills in and no modelled statement reads, are left
    out.  Timestamps are seconds since the epoch. *)
Record UserRow : Type := {
  user_id : string;
  user_email : string;
  user_password_hash : string;
  user_name : string;
  user_role : Role;
  user_plan : Plan;
  user_status : AccountStatus;
  user_last_login : option Z
}.

(** A row of the separate [admins] table; it has no [plan]. *)
Record AdminRow : Type := {
  admin_id : string;
  admin_email : string;
  admin_password_hash : string;
  admin_name : string;
  admin_role : Role;
  admin_status : AccountStatus;
  admin_last_login : option Z
}.

Record SubscriptionRow : Type := {
  sub_id : string;
  sub_user_id : string;
  sub_plan : Plan;
  sub_status : SubscriptionStatus;
  sub_renewal_date : option string;
  sub_start_date : Z
}.

Record SessionRow : Type := {
  session_id : string;
  session_user_id : string;
  session_token : string;
  session_user_agent : option string;
  session_ip_address : option string;
  session_expires_at : option Z
}.

Record AuditRow : Type := {
  audit_id : string;
  audit_user_id : option string;
  audit_action : string;
  audit_entity_type : option string;
  audit_entity_id : option string;
  audit_changes : option string;
  audit_ip_address : option string
}.

Record PackageRow : Type := {
  package_id : string;
  package_name : string;
  package_description : option string;
  package_price : Z;
  package_currency : string;
  package_features : option string;
  package_active : bool;
  package_display_order : Z;
  package_created_by : option string;
  package_created_at : Z;
  package_updated_at : Z
}.

Record Db : Type := {
  users : list UserRow;
  admins : list AdminRow;
  subscriptions : list SubscriptionRow;
  user_sessions : list SessionRow;
  audit_logs : list AuditRow;
  packages : list PackageRow
}.

Definition empty_db : Db :=
  {| users := []; admins := []; subscriptions := []; user_sessions := [];
     audit_logs := []; packages := [] |}.

Definition with_users (t : list UserRow) (d : Db) : Db :=
  {| users := t; admins := admins d; subscriptions := subscriptions d;
     user_sessions := user_sessions d; audit_logs := audit_logs d;
     packages := packages d |}.

Definition with_admins (t : list AdminRow) (d : Db) : Db :=
  {| users := users d; admins := t; subscriptions := subscriptions d;
     user_sessions := user_sessions d; audit_logs := audit_logs d;
     packages := packages d |}.

Definition with_subscriptions (t : list SubscriptionRow) (d : Db) : Db :=
  {| users := users d; admins := admins d; subscriptions := t;
     user_sessions := user_sessions d; audit_logs := audit_logs d;
     packages := packages d |}.

Definition with_audit_logs (t : list AuditRow) (d : Db) : Db :=
  {| users := users d; admins := admins d; subscriptions := subscriptions d;
     user_sessions := user_sessions d; audit_logs := t;
     packages := packages d |}.

Definition with_packages (t : list PackageRow) (d : Db) : Db :=
  {| users := users d; admins := admins d; subscriptions := subscriptions d;
     user_sessions := user_sessions d; audit_logs := audit_logs d;
     packages := t |}.

(** ** The world a request runs in

    [w_now] is the clock in milliseconds since the epoch ([new Date()],
    and [NOW()] after truncation to the second); it stands still during
    one request.  [w_rand] is the source of randomness: [randomUUID()]
    and the salt of bcrypt draw its values one after the other. *)
Record World : Type := {
  w_db : Db;
  w_now : Z;
  w_rand : nat -> string;
  w_next : nat
}.

Definition with_db (d : Db) (w : World) : World :=
  {| w_db := d; w_now := w_now w; w_rand := w_rand w; w_next := w_next w |}.

Definition M (A : Type) : Type := World -> Outcome A * World.

Definition ret {A} (a : A) : M A := fun w => (Returned a, w).

Definition bind {A B} (m : M A) (k : A -> M B) : M B :=
  fun w =>
    match m w with
    | (Returned a, w') => k a w'
    | (Thrown e, w') => (Thrown e, w')
    end.

Definition throw {A} (e : Exn) : M A := fun w => (Thrown e, w).

(** [try { body } catch (error) { handler }] *)
Definition try_catch {A} (body : M A) (handler : Exn -> M A) : M A :=
  fun w =>
    match body w with
    | (Returned a, w') => (Returned a, w')
    | (Thrown e, w') => handler e w'
    end.

Declare Scope js_scope.
Delimit Scope js_scope with js.
Notation "x <- c ;; k" := (bind c (fun x => k))
  (at level 61, c at next level, right associativity) : js_scope.
Notation "c ;;; k" := (bind c (fun _ => k))
  (at level 61, right associativity) : js_scope.
Local Open Scope js_scope.

Definition get_db : M Db := fun w => (Returned (w_db w), w).
Definition put_db (d : Db) : M unit := fun w => (Returned tt, with_db d w).

(** [new Date()] as a time value, in milliseconds. *)
Definition Date_now : M Z := fun w => (Returned (w_now w), w).

(** [NOW()] on the server, in seconds. *)
Definition NOW : M Z := fun w => (Returned (w_now w / 1000)%Z, w).

Definition random_draw : M string :=
  fun w => (Returned (w_rand w (w_next w)),
            {| w_db := w_db w; w_now := w_now w; w_rand := w_rand w;
               w_next := S (w_next w) |}).

(** [randomUUID()] of [crypto]. *)
Definition randomUUID : M string := random_draw.

(** ** bcryptjs

    [hash] salts the password with fresh randomness; [compare] reads the
    salt back from the hash.  Both are primitives of the library. *)
Class Bcrypt : Type := {
  bcrypt_hash : string -> string -> nat -> string;
  bcrypt_compare : string -> string -> bool
}.

(** ** The JWT helper ([lib/jwt])

    [verifyJWT] resolves to the payload, resolves to [null] or throws,
    depending on the token and the time; [createJWT] signs a payload. *)
Record JwtPayload : Type := {
  jwt_userId : string;
  jwt_email : string;
  jwt_role : string
}.

Class JwtLib : Type := {
  verifyJWT_at : Z -> string -> Outcome (option JwtPayload);
  createJWT_at : Z -> JwtPayload -> string
}.

Definition verifyJWT `{JwtLib} (token : string) : M (option JwtPayload) :=
  fun w => (verifyJWT_at (w_now w) token, w).

Definition createJWT `{JwtLib} (p : JwtPayload) : M string :=
  fun w => (Returned (createJWT_at (w_now w) p), w).

(** ** Keys and constraints *)

Section Keys.
Variable K : Type.
Variable eqb : K -> K -> bool.

(** No two entries of [ks] are equal: the condition a PRIMARY KEY or a
    UNIQUE KEY keeps on the column values of a table. *)
Fixpoint distinct (ks : list K) : bool :=
  match ks with
  | [] => true
  | k :: rest => negb (existsb (eqb k) rest) && distinct rest
  end.
End Keys.

Arguments distinct {K} eqb ks.

(** The value of UNIQUE KEY unique_active_subscription (user_id, status). *)
Definition sub_key (r : SubscriptionRow) : string * SubscriptionStatus :=
  (sub_user_id r, sub_status r).

Definition sub_key_eqb `{Collation} (a b : string * SubscriptionStatus) : bool :=
  coll_eqb (fst a) (fst b) && SubscriptionStatus_eqb (snd a) (snd b).


(** ** JavaScript [Date]

    The time value of a [Date] is a number of milliseconds since the
    epoch; the calendar fields are the abstract operations of ECMA-262
    (section "Time Values and Time Range"), written on [Z]. *)
Module JsDate.
Local Open Scope Z_scope.

Definition msPerDay : Z := 86400000.
Definition msPerHour : Z := 3600000.
Definition msPerMinute : Z := 60000.
Definition msPerSecond : Z := 1000.

Definition Day (t : Z) : Z := t / msPerDay.
Definition TimeWithinDay (t : Z) : Z := t mod msPerDay.

Definition isLeapYear (y : Z) : bool :=
  if negb (y mod 4 =? 0) then false
  else if negb (y mod 100 =? 0) then true
  else if negb (y mod 400 =? 0) then false
  else true.

Definition DaysInYear (y : Z) : Z := if isLeapYear y then 366 else 365.

Definition DayFromYear (y : Z) : Z :=
  365 * (y - 1970) + (y - 1969) / 4 - (y - 1901) / 100 + (y - 1601) / 400.

Definition TimeFromYear (y : Z) : Z := msPerDay * DayFromYear y.

(** The year a day number falls in: the largest [y] with
    [DayFromYear y <= d].  The mean year of 146097/400 days gives it up to
    one year, and the two comparisons settle it. *)
Definition YearFromDay (d : Z) : Z :=
  let y0 := 1970 + (d * 400) / 146097 in
  if d <? DayFromYear y0 then y0 - 1
  else if DayFromYear (y0 + 1) <=? d then y0 + 1
  else y0.

Definition YearFromTime (t : Z) : Z := YearFromDay (Day t).

Definition InLeapYear (t : Z) : Z :=
  if isLeapYear (YearFromTime t) then 1 else 0.

Definition DayWithinYear (t : Z) : Z := Day t - DayFromYear (YearFromTime t).

Definition MonthFromTime (t : Z) : Z :=
  let d := DayWithinYear t in
  let leap := InLeapYear t in
  if d <? 31 then 0
  else if d <? 59 + leap then 1
  else if d <? 90 + leap then 2
  else if d <? 120 + leap then 3
  else if d <? 151 + leap then 4
  else if d <? 181 + leap then 5
  else if d <? 212 + leap then 6
  else if d <? 243 + leap then 7
  else if d <? 273 + leap then 8
  else if d <? 304 + leap then 9
  else if d <? 334 + leap then 10
  else 11.

Definition DateFromTime (t : Z) : Z :=
  let d := DayWithinYear t in
  let leap := InLeapYear t in
  match MonthFromTime t with
  | 0 => d + 1
  | 1 => d - 30
  | 2 => d - 58 - leap
  | 3 => d - 89 - leap
  | 4 => d - 119 - leap
  | 5 => d - 150 - leap
  | 6 => d - 180 - leap
  | 7 => d - 211 - leap
  | 8 => d - 242 - leap
  | 9 => d - 272 - leap
  | 10 => d - 303 - leap
  | _ => d - 333 - leap
  end.

Definition HourFromTime (t : Z) : Z := (t / msPerHour) mod 24.
Definition MinFromTime (t : Z) : Z := (t / msPerMinute) mod 60.
Definition SecFromTime (t : Z) : Z := (t / msPerSecond) mod 60.
Definition msFromTime (t : Z) : Z := t mod msPerSecond.

(** Days of the year before the first of month [m] (0 = January). *)
Definition daysBeforeMonth (leap : Z) (m : Z) : Z :=
  match m with
  | 0 => 0
  | 1 => 31
  | 2 => 59 + leap
  | 3 => 90 + leap
  | 4 => 120 + leap
  | 5 => 151 + leap
  | 6 => 181 + leap
  | 7 => 212 + leap
  | 8 => 243 + leap
  | 9 => 273 + leap
  | 10 => 304 + leap
  | _ => 334 + leap
  end.

Definition DaysInMonth (y m : Z) : Z :=
  match m with
  | 1 => if isLeapYear y then 29 else 28
  | 3 | 5 | 8 | 10 => 30
  | _ => 31
  end.

(** [MakeDay(year, month, date)]: months past December carry into the
    year, and the date is counted on from the first of the month, also past
    the month's end. *)
Definition MakeDay (year month date : Z) : Z :=
  let ym := year + month / 12 in
  let mn := month mod 12 in
  let first := DayFromYear ym + daysBeforeMonth (if isLeapYear ym then 1 else 0) mn in
  first + date - 1.

Definition MakeDate (day time : Z) : Z := day * msPerDay + time.

(** [TimeClip]: [None] is NaN, an invalid date. *)
Definition TimeClip (t : Z) : option Z :=
  if Z.abs t <=? 8640000000000000 then Some t else None.

(** The local time zone of the host: [LocalTZA t isUTC] is the offset in
    milliseconds at [t], read as a UTC time value or as a local one. *)
Class HostTimeZone : Type := {
  LocalTZA : Z -> bool -> Z
}.

(** [Date.parse] behind [new Date(text)]: what it accepts beyond the ISO
    format is left to the host; [None] is an invalid date. *)
Class DateParser : Type := {
  Date_parse : string -> option Z
}.

Definition LocalTime `{HostTimeZone} (t : Z) : Z := t + LocalTZA t true.
Definition UTC `{HostTimeZone} (t : Z) : Z := t - LocalTZA t false.

(** [date.getMonth()] *)
Definition getMonth `{HostTimeZone} (tv : Z) : Z := MonthFromTime (LocalTime tv).

(** [date.setMonth(month)]: the new time value of the date. *)
Definition setMonth `{HostTimeZone} (tv : Z) (month : Z) : option Z :=
  let t := LocalTime tv in
  let newDate := MakeDate (MakeDay (YearFromTime t) month (DateFromTime t))
                          (TimeWithinDay t) in
  TimeClip (UTC newDate).

(** *** [toISOString] *)

Definition digit (n : Z) : ascii := ascii_of_nat (48 + Z.to_nat (n mod 10)).

Definition pad2 (n : Z) : string := String (digit (n / 10)) (String (digit n) "").
Definition pad3 (n : Z) : string := String (digit (n / 100)) (pad2 n).
Definition pad4 (n : Z) : string := String (digit (n / 1000)) (pad3 n).
Definition pad6 (n : Z) : string :=
  String (digit (n / 100000)) (String (digit (n / 10000)) (pad4 n)).

(** Years 0 to 9999 are written with four digits, the others with a sign
    and six digits. *)
Definition isoYear (y : Z) : string :=
  if (0 <=? y) && (y <=? 9999) then pad4 y
  else String (if y <? 0 then "-"%char else "+"%char) (pad6 (Z.abs y)).

(** YYYY-MM-DDTHH:mm:ss.sssZ, of the UTC fields of a valid time value. *)
Definition isoString (t : Z) : string :=
  (isoYear (YearFromTime t) ++ "-" ++ pad2 (MonthFromTime t + 1) ++ "-"
   ++ pad2 (DateFromTime t) ++ "T" ++ pad2 (HourFromTime t) ++ ":"
   ++ pad2 (MinFromTime t) ++ ":" ++ pad2 (SecFromTime t) ++ "."
   ++ pad3 (msFromTime t) ++ "Z")%string.

(** [date.toISOString()]: a RangeError on an invalid date. *)
Definition toISOString (tv : option Z) : Outcome string :=
  match tv with
  | Some t => Returned (isoString t)
  | None => Thrown (JsError "Invalid time value")
  end.

End JsDate.

(** ** JavaScript strings *)
Module JsString.

(** [s.length]: the number of UTF-16 code units of the text.  A character
    beyond U+FFFF, which has four bytes in UTF-8, takes two units; every
    other character takes one. *)
Fixpoint length (s : string) : nat :=
  match s with
  | EmptyString => 0
  | String c rest =>
      (if is_continuation c then 0
       else if Nat.leb 240 (nat_of_ascii c) then 2 else 1) + length rest
  end.

(** [s.slice(0, n)] *)
Definition slice0 (n : nat) (s : string) : string := substring 0 n s.

(** [s.replace(c, by)] for a pattern of one character: the first
    occurrence only. *)
Fixpoint replace (c : ascii) (by_ : string) (s : string) : string :=
  match s with
  | EmptyString => EmptyString
  | String a rest =>
      if Ascii.eqb a c then by_ ++ rest else String a (replace c by_ rest)
  end.

(** Decimal digits of a natural number, most significant first; [fuel]
    bounds the number of digits. *)
Fixpoint digits_of_nat (fuel n : nat) (acc : string) : string :=
  let acc' := String (ascii_of_nat (48 + Nat.modulo n 10)) acc in
  match fuel with
  | O => acc'
  | S fuel' => if Nat.eqb (Nat.div n 10) 0 then acc'
               else digits_of_nat fuel' (Nat.div n 10) acc'
  end.

(** [String(n)] for a non-negative integer, as a template literal prints
    it. *)
Definition of_nat (n : nat) : string := digits_of_nat n n "".

End JsString.

(** ** JSON

    [JSON.parse] and [JSON.stringify] after ECMA-404.  A number keeps the
    text of its literal.  The parser reads the text once, character by
    character, and then the tokens one by one with an explicit stack, so
    it ends on every input; [None] is the SyntaxError. *)
Module JSON.

#[local] Set Warnings "-register-all".

Inductive json : Type :=
| JNull
| JBool (b : bool)
| JNum (literal : string)
| JStr (s : string)
| JArr (elements : list json)
| JObj (members : list (string * json)).

Inductive token : Type :=
| TLBrace | TRBrace | TLBracket | TRBracket | TColon | TComma
| TStr (s : string) | TNum (literal : string) | TWord (w : string).

(** The double quote. *)
Definition dquote : ascii := ascii_of_nat 34.

Definition is_ws (c : ascii) : bool :=
  let n := nat_of_ascii c in
  Nat.eqb n 32 || Nat.eqb n 9 || Nat.eqb n 10 || Nat.eqb n 13.

Definition is_digit (c : ascii) : bool :=
  let n := nat_of_ascii c in Nat.leb 48 n && Nat.leb n 57.

Definition is_lower (c : ascii) : bool :=
  let n := nat_of_ascii c in Nat.leb 97 n && Nat.leb n 122.

Definition is_num_char (c : ascii) : bool :=
  is_digit c || Ascii.eqb c "-" || Ascii.eqb c "+" || Ascii.eqb c "."
  || Ascii.eqb c "e" || Ascii.eqb c "E".

Definition hex_value (c : ascii) : option nat :=
  let n := nat_of_ascii c in
  if Nat.leb 48 n && Nat.leb n 57 then Some (n - 48)
  else if Nat.leb 65 n && Nat.leb n 70 then Some (n - 55)
  else if Nat.leb 97 n && Nat.leb n 102 then Some (n - 87)
  else None.

(** The bytes of one UTF-16 code unit in UTF-8 (a surrogate half is
    written on its own). *)
Definition utf8_of_code_unit (cu : nat) : string :=
  if Nat.ltb cu 128 then String (ascii_of_nat cu) ""
  else if Nat.ltb cu 2048 then
    String (ascii_of_nat (192 + cu / 64))
      (String (ascii_of_nat (128 + cu mod 64)) "")
  else
    String (ascii_of_nat (224 + cu / 4096))
      (String (ascii_of_nat (128 + (cu / 64) mod 64))
         (String (ascii_of_nat (128 + cu mod 64)) "")).

(** *** Number literals

    An optional minus sign; then a single 0, or a digit from 1 to 9 and
    any digits; then optionally a point and one digit or more; then
    optionally e or E, an optional sign and one digit or more. *)

Fixpoint skip_digits (s : string) : string :=
  match s with
  | String c r => if is_digit c then skip_digits r else s
  | EmptyString => EmptyString
  end.

Definition starts_with_digit (s : string) : bool :=
  match s with
  | String c _ => is_digit c
  | EmptyString => false
  end.

Definition valid_exponent (s : string) : bool :=
  match s with
  | EmptyString => true
  | String c r =>
      if Ascii.eqb c "e" || Ascii.eqb c "E" then
        let r' := match r with
                  | String sign r2 =>
                      if Ascii.eqb sign "+" || Ascii.eqb sign "-" then r2 else r
                  | EmptyString => r
                  end in
        starts_with_digit r' && String.eqb (skip_digits r') ""
      else false
  end.

Definition valid_fraction (s : string) : bool :=
  match s with
  | String "."%char r => starts_with_digit r && valid_exponent (skip_digits r)
  | _ => valid_exponent s
  end.

Definition valid_number (s : string) : bool :=
  let s1 := match s with
            | String "-"%char r => r
            | _ => s
            end in
  match s1 with
  | String "0"%char r => valid_fraction r
  | String c r => is_digit c && valid_fraction (skip_digits r)
  | EmptyString => false
  end.

(** *** Tokens *)

Inductive LexMode : Type :=
| LStart
| LString (acc : string)
| LEscape (acc : string)
| LUnicode (acc : string) (todo : nat) (cu : nat)
| LNumber (acc : string)
| LWord (acc : string).

Definition snoc (s : string) (c : ascii) : string := (s ++ String c "")%string.

(** One character read between tokens. *)
Definition lex_start (c : ascii) (out : list token) : option (LexMode * list token) :=
  if is_ws c then Some (LStart, out)
  else if Ascii.eqb c dquote then Some (LString "", out)
  else if Ascii.eqb c "{" then Some (LStart, out ++ [TLBrace])
  else if Ascii.eqb c "}" then Some (LStart, out ++ [TRBrace])
  else if Ascii.eqb c "[" then Some (LStart, out ++ [TLBracket])
  else if Ascii.eqb c "]" then Some (LStart, out ++ [TRBracket])
  else if Ascii.eqb c ":" then Some (LStart, out ++ [TColon])
  else if Ascii.eqb c "," then Some (LStart, out ++ [TComma])
  else if is_digit c || Ascii.eqb c "-" then Some (LNumber (String c ""), out)
  else if is_lower c then Some (LWord (String c ""), out)
  else None.

Definition close_number (acc : string) (out : list token) : option (list token) :=
  if valid_number acc then Some (out ++ [TNum acc]) else None.

Definition close_word (acc : string) (out : list token) : option (list token) :=
  if String.eqb acc "null" || String.eqb acc "true" || String.eqb acc "false"
  then Some (out ++ [TWord acc]) else None.

Definition unescape (c : ascii) : option ascii :=
  if Ascii.eqb c dquote then Some dquote
  else if Ascii.eqb c "\" then Some "\"%char
  else if Ascii.eqb c "/" then Some "/"%char
  else if Ascii.eqb c "b" then Some (ascii_of_nat 8)
  else if Ascii.eqb c "f" then Some (ascii_of_nat 12)
  else if Ascii.eqb c "n" then Some (ascii_of_nat 10)
  else if Ascii.eqb c "r" then Some (ascii_of_nat 13)
  else if Ascii.eqb c "t" then Some (ascii_of_nat 9)
  else None.

Fixpoint lex (mode : LexMode) (s : string) (out : list token) : option (list token) :=
  match s with
  | EmptyString =>
      match mode with
      | LStart => Some out
      | LNumber acc => close_number acc out
      | LWord acc => close_word acc out
      | _ => None
      end
  | String c r =>
      match mode with
      | LStart =>
          match lex_start c out with
          | Some (mode', out') => lex mode' r out'
          | None => None
          end
      | LString acc =>
          if Ascii.eqb c dquote then lex LStart r (out ++ [TStr acc])
          else if Ascii.eqb c "\" then lex (LEscape acc) r out
          else if Nat.ltb (nat_of_ascii c) 32 then None
          else lex (LString (snoc acc c)) r out
      | LEscape acc =>
          if Ascii.eqb c "u" then lex (LUnicode acc 4 0) r out
          else match unescape c with
               | Some c' => lex (LString (snoc acc c')) r out
               | None => None
               end
      | LUnicode acc todo cu =>
          match hex_value c with
          | Some h =>
              let cu' := 16 * cu + h in
              match todo with
              | 1 => lex (LString (acc ++ utf8_of_code_unit cu')) r out
              | _ => lex (LUnicode acc (pred todo) cu') r out
              end
          | None => None
          end
      | LNumber acc =>
          if is_num_char c then lex (LNumber (snoc acc c)) r out
          else match close_number acc out with
               | Some out1 =>
                   match lex_start c out1 with
                   | Some (mode', out') => lex mode' r out'
                   | None => None
                   end
               | None => None
               end
      | LWord acc =>
          if is_lower c then lex (LWord (snoc acc c)) r out
          else match close_word acc out with
               | Some out1 =>
                   match lex_start c out1 with
                   | Some (mode', out') => lex mode' r out'
                   | None => None
                   end
               | None => None
               end
      end
  end.

(** *** Values *)

(** An open array or object, waiting for the value being read. *)
Inductive Frame : Type :=
| InArr (done : list json)
| InObj (done : list (string * json)) (key : string).

Inductive Phase : Type :=
| PValue
| PArrFirst
| PArrAfter (done : list json)
| PObjFirst
| PObjAfter (done : list (string * json))
| PKey (done : list (string * json))
| PColon (done : list (string * json)) (key : string)
| PDone (v : json).

(** A value is complete: it goes into the innermost open container. *)
Definition deliver (v : json) (stack : list Frame) : Phase * list Frame :=
  match stack with
  | [] => (PDone v, [])
  | InArr done :: st => (PArrAfter (done ++ [v]), st)
  | InObj done k :: st => (PObjAfter (done ++ [(k, v)]), st)
  end.

Definition word_value (w : string) : json :=
  if String.eqb w "null" then JNull
  else if String.eqb w "true" then JBool true
  else JBool false.

Definition value_start (t : token) (stack : list Frame)
  : option (Phase * list Frame) :=
  match t with
  | TStr s => Some (deliver (JStr s) stack)
  | TNum n => Some (deliver (JNum n) stack)
  | TWord w => Some (deliver (word_value w) stack)
  | TLBracket => Some (PArrFirst, stack)
  | TLBrace => Some (PObjFirst, stack)
  | _ => None
  end.

Definition parse_step (st : Phase * list Frame) (t : token)
  : option (Phase * list Frame) :=
  let (phase, stack) := st in
  match phase with
  | PValue => value_start t stack
  | PArrFirst =>
      match t with
      | TRBracket => Some (deliver (JArr []) stack)
      | _ => value_start t (InArr [] :: stack)
      end
  | PArrAfter done =>
      match t with
      | TComma => Some (PValue, InArr done :: stack)
      | TRBracket => Some (deliver (JArr done) stack)
      | _ => None
      end
  | PObjFirst =>
      match t with
      | TRBrace => Some (deliver (JObj []) stack)
      | TStr k => Some (PColon [] k, stack)
      | _ => None
      end
  | PObjAfter done =>
      match t with
      | TComma => Some (PKey done, stack)
      | TRBrace => Some (deliver (JObj done) stack)
      | _ => None
      end
  | PKey done =>
      match t with
      | TStr k => Some (PColon done k, stack)
      | _ => None
      end
  | PColon done k =>
      match t with
      | TColon => Some (PValue, InObj done k :: stack)
      | _ => None
      end
  | PDone _ => None
  end.

Fixpoint parse_tokens (st : Phase * list Frame) (ts : list token) : option json :=
  match ts with
  | [] => match st with
          | (PDone v, []) => Some v
          | _ => None
          end
  | t :: rest =>
      match parse_step st t with
      | Some st' => parse_tokens st' rest
      | None => None
      end
  end.

(** [JSON.parse(text)] *)
Definition parse (text : string) : option json :=
  match lex LStart text [] with
  | Some ts => parse_tokens (PValue, []) ts
  | None => None
  end.

(** *** [JSON.stringify] *)

Definition hex_digit (n : nat) : ascii :=
  if Nat.ltb n 10 then ascii_of_nat (48 + n) else ascii_of_nat (87 + n).

Definition escape_char (c : ascii) : string :=
  let n := nat_of_ascii c in
  if Ascii.eqb c dquote then String "\" (String dquote "")
  else if Ascii.eqb c "\" then "\\"
  else if Nat.eqb n 8 then "\b"
  else if Nat.eqb n 12 then "\f"
  else if Nat.eqb n 10 then "\n"
  else if Nat.eqb n 13 then "\r"
  else if Nat.eqb n 9 then "\t"
  else if Nat.ltb n 32 then
    String "\" (String "u" (String "0" (String "0"
      (String (hex_digit (n / 16)) (String (hex_digit (n mod 16)) "")))))
  else String c "".

Fixpoint escape (s : string) : string :=
  match s with
  | EmptyString => EmptyString
  | String c r => (escape_char c ++ escape r)%string
  end.

Definition quote (s : string) : string :=
  String dquote (escape s ++ String dquote "").

Fixpoint join (sep : string) (parts : list string) : string :=
  match parts with
  | [] => ""
  | [p] => p
  | p :: rest => (p ++ sep ++ join sep rest)%string
  end.

Fixpoint stringify (v : json) : string :=
  match v with
  | JNull => "null"
  | JBool true => "true"
  | JBool false => "false"
  | JNum n => n
  | JStr s => quote s
  | JArr vs => ("[" ++ join "," (map stringify vs) ++ "]")%string
  | JObj ms =>
      ("{" ++ join "," (map (fun m => (quote (fst m) ++ ":" ++ stringify (snd m))%string) ms)
       ++ "}")%string
  end.

(** A [string[]] as a JSON value. *)
Definition of_strings (l : list string) : json := JArr (map JStr l).

End JSON.
(** ** lib/db-auth *)

(** The public profile ([User] of lib/schema): it has no field for the
    password hash. *)
Record User : Type := {
  id : string;
  email : string;
  name : string;
  role : Role;
  plan : Plan;
  status : AccountStatus
}.

(** [Subscription] of lib/schema, as SELECT id, plan, status, renewal_date
    returns it. *)
Record Subscription : Type := {
  subscription_id : string;
  subscription_plan : Plan;
  subscription_status : SubscriptionStatus;
  renewal_date : option string
}.

Record CreateUserData : Type := {
  cu_email : string;
  cu_password : string;
  cu_name : string;
  cu_plan : option Plan
}.

(** [Partial<Pick<User, 'name' | 'email' | 'plan' | 'status'>>]: [None] is
    a field left [undefined]. *)
Record UserPatch : Type := {
  patch_name : option string;
  patch_email : option string;
  patch_plan : option Plan;
  patch_status : option AccountStatus
}.

(** One [column = ?] of an UPDATE users statement with its bound value. *)
Inductive UserAssign : Type :=
| SetName (v : string)
| SetEmail (v : string)
| SetPlan (v : Plan)
| SetStatus (v : AccountStatus)
| SetPasswordHash (v : string)
| SetLastLogin (v : Z).

Definition assign_user (r : UserRow) (a : UserAssign) : UserRow :=
  match a with
  | SetName v =>
      {| user_id := user_id r; user_email := user_email r;
         user_password_hash := user_password_hash r; user_name := v;
         user_role := user_role r; user_plan := user_plan r;
         user_status := user_status r; user_last_login := user_last_login r |}
  | SetEmail v =>
      {| user_id := user_id r; user_email := v;
         user_password_hash := user_password_hash r; user_name := user_name r;
         user_role := user_role r; user_plan := user_plan r;
         user_status := user_status r; user_last_login := user_last_login r |}
  | SetPlan v =>
      {| user_id := user_id r; user_email := user_email r;
         user_password_hash := user_password_hash r; user_name := user_name r;
         user_role := user_role r; user_plan := v;
         user_status := user_status r; user_last_login := user_last_login r |}
  | SetStatus v =>
      {| user_id := user_id r; user_email := user_email r;
         user_password_hash := user_password_hash r; user_name := user_name r;
         user_role := user_role r; user_plan := user_plan r;
         user_status := v; user_last_login := user_last_login r |}
  | SetPasswordHash v =>
      {| user_id := user_id r; user_email := user_email r;
         user_password_hash := v; user_name := user_name r;
         user_role := user_role r; user_plan := user_plan r;
         user_status := user_status r; user_last_login := user_last_login r |}
  | SetLastLogin v =>
      {| user_id := user_id r; user_email := user_email r;
         user_password_hash := user_password_hash r; user_name := user_name r;
         user_role := user_role r; user_plan := user_plan r;
         user_status := user_status r; user_last_login := Some v |}
  end.

Definition user_public (r : UserRow) : User :=
  {| id := user_id r; email := user_email r; name := user_name r;
     role := user_role r; plan := user_plan r; status := user_status r |}.

(** [results.length > 0 ? results[0] : null] *)
Definition first_or_null {A} (results : list A) : option A :=
  match results with
  | [] => None
  | x :: _ => Some x
  end.

Module DbAuth.
Section WithPlatform.
Context `{Collation} `{Bcrypt} `{JsDate.HostTimeZone} `{JsDate.DateParser}.

Definition BCRYPT_ROUNDS : nat := 10.

Definition hashPassword (password : string) : M string :=
  salt <- random_draw ;;
  ret (bcrypt_hash password salt BCRYPT_ROUNDS).

Definition verifyPassword (password passwordHash : string) : M bool :=
  ret (bcrypt_compare password passwordHash).

(** *** Statements on [users]

    INSERT INTO users: [id] is the PRIMARY KEY and [email] is UNIQUE.
    The values are taken to fit their columns. *)
Definition insert_users (r : UserRow) : M unit :=
  fun w =>
    let t := users (w_db w) in
    if existsb (coll_eqb (user_id r)) (map user_id t)
    then (Thrown (MysqlError ER_DUP_ENTRY "PRIMARY"), w)
    else if existsb (coll_eqb (user_email r)) (map user_email t)
    then (Thrown (MysqlError ER_DUP_ENTRY "email"), w)
    else (Returned tt, with_db (with_users (t ++ [r]) (w_db w)) w).

(** UPDATE users SET ... WHERE id = ?: the statement is refused as a
    whole when it would leave two rows with one email. *)
Definition update_users (sets : list UserAssign) (id_param : SqlStr) : M unit :=
  fun w =>
    let t := users (w_db w) in
    let t' := map (fun r => if sql_eqb (user_id r) id_param
                            then fold_left assign_user sets r else r) t in
    if distinct coll_eqb (map user_email t')
    then (Returned tt, with_db (with_users t' (w_db w)) w)
    else (Thrown (MysqlError ER_DUP_ENTRY "email"), w).

Definition select_users_by_email (e : string) : M (list UserRow) :=
  d <- get_db ;;
  ret (filter (fun r => coll_eqb (user_email r) e) (users d)).

Definition select_users_by_id (i : SqlStr) : M (list UserRow) :=
  d <- get_db ;;
  ret (filter (fun r => sql_eqb (user_id r) i) (users d)).

(** *** User operations *)

Definition createUser (data : CreateUserData) : M User :=
  id <- randomUUID ;;
  passwordHash <- hashPassword (cu_password data) ;;
  let role := RoleUser in
  let plan := match cu_plan data with Some p => p | None => Starter end in
  try_catch
    (insert_users
       {| user_id := id; user_email := cu_email data;
          user_password_hash := passwordHash; user_name := cu_name data;
          user_role := role; user_plan := plan;
          user_status := AccountActive; user_last_login := None |} ;;;
     ret {| id := id; email := cu_email data; name := cu_name data;
            role := role; plan := plan; status := AccountActive |})
    (fun error =>
       match exn_code error with
       | Some c => if String.eqb c ER_DUP_ENTRY
                   then throw (JsError "Email already exists")
                   else throw error
       | None => throw error
       end).


Definition getUserById (id : SqlStr) : M (option User) :=
  results <- select_users_by_id id ;;
  ret (first_or_null (map user_public results)).


Definition push_if {A B} (field : option A) (assign : A -> B)
           (updates : list B) : list B :=
  match field with
  | Some v => updates ++ [assign v]
  | None => updates
  end.

Definition updateUser (id : SqlStr) (data : UserPatch) : M unit :=
  let updates := [] in
  let updates := push_if (patch_name data) SetName updates in
  let updates := push_if (patch_email data) SetEmail updates in
  let updates := push_if (patch_plan data) SetPlan updates in
  let updates := push_if (patch_status data) SetStatus updates in
  if Nat.eqb (List.length updates) 0 then ret tt
  else update_users updates id.

Definition updateLastLogin (id : string) : M unit :=
  now <- NOW ;;
  update_users [SetLastLogin now] (Some id).

(** *** Password update *)

Definition updatePassword (userId : string) (newPassword : string) : M unit :=
  if String.eqb newPassword "" || Nat.ltb (JsString.length newPassword) 6
  then throw (JsError "Password must be at least 6 characters")
  else
    passwordHash <- hashPassword newPassword ;;
    update_users [SetPasswordHash passwordHash] (Some userId).


(** *** Statements on [subscriptions] *)

Inductive SubscriptionAssign : Type :=
| SetSubscriptionPlan (v : Plan)
| SetSubscriptionStatus (v : SubscriptionStatus)
| SetRenewalDate (v : string).

Definition assign_subscription (r : SubscriptionRow) (a : SubscriptionAssign)
  : SubscriptionRow :=
  match a with
  | SetSubscriptionPlan v =>
      {| sub_id := sub_id r; sub_user_id := sub_user_id r; sub_plan := v;
         sub_status := sub_status r; sub_renewal_date := sub_renewal_date r;
         sub_start_date := sub_start_date r |}
  | SetSubscriptionStatus v =>
      {| sub_id := sub_id r; sub_user_id := sub_user_id r; sub_plan := sub_plan r;
         sub_status := v; sub_renewal_date := sub_renewal_date r;
         sub_start_date := sub_start_date r |}
  | SetRenewalDate v =>
      {| sub_id := sub_id r; sub_user_id := sub_user_id r; sub_plan := sub_plan r;
         sub_status := sub_status r; sub_renewal_date := Some v;
         sub_start_date := sub_start_date r |}
  end.

(** INSERT INTO subscriptions (id, user_id, plan, status, renewal_date,
    start_date).  [user_id] is NOT NULL and references [users(id)];
    [id] is the PRIMARY KEY; UNIQUE KEY unique_active_subscription
    covers (user_id, status).  The order of the checks only decides
    which error is reported when several constraints fail at once.  The
    column [renewal_date] holds the text as it was sent; how the server
    reads it as a TIMESTAMP is outside the model. *)
Definition insert_subscriptions (id : string) (userId : SqlStr) (plan : Plan)
           (status : SubscriptionStatus) (renewal : string) : M unit :=
  fun w =>
    let t := subscriptions (w_db w) in
    match userId with
    | None => (Thrown (MysqlError ER_BAD_NULL_ERROR "user_id"), w)
    | Some uid =>
        let r := {| sub_id := id; sub_user_id := uid; sub_plan := plan;
                    sub_status := status; sub_renewal_date := Some renewal;
                    sub_start_date := (w_now w / 1000)%Z |} in
        if existsb (coll_eqb id) (map sub_id t)
        then (Thrown (MysqlError ER_DUP_ENTRY "PRIMARY"), w)
        else if existsb (sub_key_eqb (sub_key r)) (map sub_key t)
        then (Thrown (MysqlError ER_DUP_ENTRY "unique_active_subscription"), w)
        else if negb (existsb (coll_eqb uid) (map user_id (users (w_db w))))
        then (Thrown (MysqlError ER_NO_REFERENCED_ROW_2 "subscriptions_ibfk_1"), w)
        else (Returned tt, with_db (with_subscriptions (t ++ [r]) (w_db w)) w)
    end.

(** UPDATE subscriptions SET ... WHERE id = ?: refused as a whole when
    two rows would share (user_id, status). *)
Definition update_subscriptions (sets : list SubscriptionAssign) (id : string)
  : M unit :=
  fun w =>
    let t := subscriptions (w_db w) in
    let t' := map (fun r => if coll_eqb (sub_id r) id
                            then fold_left assign_subscription sets r else r) t in
    if distinct sub_key_eqb (map sub_key t')
    then (Returned tt, with_db (with_subscriptions t' (w_db w)) w)
    else (Thrown (MysqlError ER_DUP_ENTRY "unique_active_subscription"), w).

Definition subscription_of_row (r : SubscriptionRow) : Subscription :=
  {| subscription_id := sub_id r; subscription_plan := sub_plan r;
     subscription_status := sub_status r; renewal_date := sub_renewal_date r |}.

(** *** Subscription operations *)

(** SELECT ... WHERE user_id = ? AND status = 'Active' LIMIT 1 *)
Definition getSubscription (userId : SqlStr) : M (option Subscription) :=
  d <- get_db ;;
  let results :=
    firstn 1 (filter (fun r => sql_eqb (sub_user_id r) userId
                               && SubscriptionStatus_eqb (sub_status r) Active)
                     (subscriptions d)) in
  ret (first_or_null (map subscription_of_row results)).

Definition lift {A} (o : Outcome A) : M A := fun w => (o, w).

(** helper to convert JS date to MySQL DATETIME string (no timezone) *)
Definition toSqlDatetime (date : option Z) : Outcome string :=
  match JsDate.toISOString date with
  | Returned iso => Returned (JsString.replace "T" " " (JsString.slice0 19 iso))
  | Thrown e => Thrown e
  end.

Definition createSubscription (userId : SqlStr) (plan : Plan) : M Subscription :=
  id <- randomUUID ;;
  now <- Date_now ;;
  let renewalDate := JsDate.setMonth now (JsDate.getMonth now + 1) in
  renewalText <- lift (toSqlDatetime renewalDate) ;;
  insert_subscriptions id userId plan Active renewalText ;;;
  iso <- lift (JsDate.toISOString renewalDate) ;;
  ret {| subscription_id := id; subscription_plan := plan;
         subscription_status := Active; renewal_date := Some iso |}.

(** [Partial<Pick<Subscription, 'plan' | 'status' | 'renewal_date'>>] *)
Record SubscriptionPatch : Type := {
  patch_sub_plan : option Plan;
  patch_sub_status : option SubscriptionStatus;
  patch_renewal_date : option string
}.

Definition updateSubscription (subscriptionId : string) (data : SubscriptionPatch)
  : M unit :=
  let updates := [] in
  let updates := push_if (patch_sub_plan data) SetSubscriptionPlan updates in
  let updates := push_if (patch_sub_status data) SetSubscriptionStatus updates in
  match
    match patch_renewal_date data with
    | Some text =>
        match toSqlDatetime (JsDate.Date_parse text) with
        | Returned v => Returned (updates ++ [SetRenewalDate v])
        | Thrown e => Thrown e
        end
    | None => Returned updates
    end
  with
  | Thrown e => throw e
  | Returned updates =>
      if Nat.eqb (List.length updates) 0 then ret tt
      else update_subscriptions updates subscriptionId
  end.

Definition cancelSubscription (subscriptionId : string) : M unit :=
  update_subscriptions [SetSubscriptionStatus Cancelled] subscriptionId.

(** DELETE FROM users WHERE id = ?, with what the foreign keys do to the
    other tables: the subscriptions and sessions of the user go with the
    row (ON DELETE CASCADE) and the audit entries lose their reference
    (ON DELETE SET NULL). *)
Definition deleteUser (id : string) : M unit :=
  d <- get_db ;;
  let gone := fun uid => existsb (fun u => coll_eqb (user_id u) id && coll_eqb (user_id u) uid)
                                 (users d) in
  put_db
    {| users := filter (fun u => negb (coll_eqb (user_id u) id)) (users d);
       admins := admins d;
       subscriptions := filter (fun s => negb (gone (sub_user_id s))) (subscriptions d);
       user_sessions := filter (fun s => negb (gone (session_user_id s))) (user_sessions d);
       audit_logs :=
         map (fun a =>
                match audit_user_id a with
                | Some uid =>
                    if gone uid then
                      {| audit_id := audit_id a; audit_user_id := None;
                         audit_action := audit_action a;
                         audit_entity_type := audit_entity_type a;
                         audit_entity_id := audit_entity_id a;
                         audit_changes := audit_changes a;
                         audit_ip_address := audit_ip_address a |}
                    else a
                | None => a
                end) (audit_logs d);
       packages := packages d |}.

(** *** Session operations *)

Record SessionInfo : Type := {
  info_id : string;
  info_user_id : string;
  info_expires_at : option Z
}.

(** [expires_at > NOW()]: a NULL [expires_at] compares as unknown and
    the row is not selected. *)
Definition not_expired (now : Z) (r : SessionRow) : bool :=
  match session_expires_at r with
  | Some e => Z.ltb now e
  | None => false
  end.

(** SELECT id, user_id, expires_at FROM user_sessions
    WHERE session_token = ? AND expires_at > NOW() *)
Definition getSessionByToken (sessionToken : string) : M (option SessionInfo) :=
  d <- get_db ;;
  now <- NOW ;;
  let results :=
    map (fun r => {| info_id := session_id r; info_user_id := session_user_id r;
                     info_expires_at := session_expires_at r |})
        (filter (fun r => coll_eqb (session_token r) sessionToken && not_expired now r)
                (user_sessions d)) in
  ret (first_or_null results).

Definition with_user_sessions (t : list SessionRow) (d : Db) : Db :=
  {| users := users d; admins := admins d; subscriptions := subscriptions d;
     user_sessions := t; audit_logs := audit_logs d; packages := packages d |}.

Definition deleteSession (sessionId : string) : M unit :=
  d <- get_db ;;
  put_db (with_user_sessions
            (filter (fun r => negb (coll_eqb (session_id r) sessionId))
                    (user_sessions d)) d).

(** DELETE FROM user_sessions WHERE expires_at <= NOW() *)
Definition deleteExpiredSessions : M unit :=
  d <- get_db ;;
  now <- NOW ;;
  put_db (with_user_sessions
            (filter (fun r => match session_expires_at r with
                              | Some e => negb (Z.leb e now)
                              | None => true
                              end)
                    (user_sessions d)) d).

(** *** Audit logging *)

Record AuditData : Type := {
  ad_userId : option string;
  ad_action : string;
  ad_entityType : option string;
  ad_entityId : option string;
  ad_changes : option JSON.json;
  ad_ipAddress : option string
}.

(** [value || null] on an optional string: the empty string is falsy. *)
Definition or_null (v : option string) : option string :=
  match v with
  | Some s => if String.eqb s "" then None else Some s
  | None => None
  end.

(** INSERT INTO audit_logs: [ip_address] is VARCHAR(45), [id] is the
    PRIMARY KEY and a [user_id] that is not NULL references [users(id)].
    The address is the one value that reaches this statement as a caller
    sent it (the login route passes a request header on); the ids, the
    constants of the code and the values read back from a column are
    taken to fit their columns. *)
Definition insert_audit_logs (r : AuditRow) : M unit :=
  fun w =>
    match varchar_or_null 45 (audit_ip_address r) with
    | None => (Thrown (MysqlError ER_DATA_TOO_LONG "ip_address"), w)
    | Some ip_address =>
        let t := audit_logs (w_db w) in
        if existsb (coll_eqb (audit_id r)) (map audit_id t)
        then (Thrown (MysqlError ER_DUP_ENTRY "PRIMARY"), w)
        else if match audit_user_id r with
                | Some uid =>
                    negb (existsb (coll_eqb uid) (map user_id (users (w_db w))))
                | None => false
                end
        then (Thrown (MysqlError ER_NO_REFERENCED_ROW_2 "audit_logs_ibfk_1"), w)
        else (Returned tt,
              with_db (with_audit_logs
                         (t ++ [{| audit_id := audit_id r;
                                   audit_user_id := audit_user_id r;
                                   audit_action := audit_action r;
                                   audit_entity_type := audit_entity_type r;
                                   audit_entity_id := audit_entity_id r;
                                   audit_changes := audit_changes r;
                                   audit_ip_address := ip_address |}])
                         (w_db w)) w)
    end.

Definition logAuditAction (data : AuditData) : M unit :=
  id <- randomUUID ;;
  userIdToInsert <-
    match or_null (ad_userId data) with
    | Some userId =>
        try_catch
          (existing <- select_users_by_id (Some userId) ;;
           if Nat.ltb 0 (List.length existing) then ret (Some userId)
           else ret None)
          (fun _ => ret None)
    | None => ret None
    end ;;
  insert_audit_logs
    {| audit_id := id;
       audit_user_id := userIdToInsert;
       audit_action := ad_action data;
       audit_entity_type := or_null (ad_entityType data);
       audit_entity_id := or_null (ad_entityId data);
       audit_changes := option_map JSON.stringify (ad_changes data);
       audit_ip_address := or_null (ad_ipAddress data) |}.

(** *** Package operations *)

(** A time as the code sees it: the [Date] of a TIMESTAMP column read
    back from the server, or the ISO text the code writes itself. *)
Inductive TimeField : Type :=
| FromColumn (seconds : Z)
| IsoText (text : string).

(** [Package] of lib/schema.  [pkg_features] is whatever [JSON.parse]
    gave, or [None] when the field is [undefined]. *)
Record Package : Type := {
  pkg_id : string;
  pkg_name : string;
  pkg_description : option string;
  pkg_price : Z;
  pkg_currency : string;
  pkg_features : option JSON.json;
  pkg_active : bool;
  pkg_display_order : Z;
  pkg_created_by : option string;
  pkg_created_at : TimeField;
  pkg_updated_at : TimeField
}.

Record CreatePackageData : Type := {
  cp_name : string;
  cp_description : option string;
  cp_price : Z;
  cp_currency : option string;
  cp_features : option (list string);
  cp_display_order : option Z;
  cp_created_by : option string
}.

(** Modelled from the spec: the DDL of the [packages] table is not among
    the sources; the data model gives it the key [id] and a unique
    [name], and the server stamps [created_at] and [updated_at]. *)
Definition insert_packages (r : PackageRow) : M unit :=
  fun w =>
    let t := packages (w_db w) in
    if existsb (coll_eqb (package_id r)) (map package_id t)
    then (Thrown (MysqlError ER_DUP_ENTRY "PRIMARY"), w)
    else if existsb (coll_eqb (package_name r)) (map package_name t)
    then (Thrown (MysqlError ER_DUP_ENTRY "name"), w)
    else (Returned tt, with_db (with_packages (t ++ [r]) (w_db w)) w).

Definition createPackage (data : CreatePackageData) : M Package :=
  id <- randomUUID ;;
  let currency := match or_null (cp_currency data) with
                  | Some c => c
                  | None => "USD"
                  end in
  let displayOrder := match cp_display_order data with
                      | Some n => n
                      | None => 0%Z
                      end in
  let features := option_map (fun l => JSON.stringify (JSON.of_strings l))
                             (cp_features data) in
  now <- NOW ;;
  try_catch
    (insert_packages
       {| package_id := id; package_name := cp_name data;
          package_description := or_null (cp_description data);
          package_price := cp_price data; package_currency := currency;
          package_features := features; package_active := true;
          package_display_order := displayOrder;
          package_created_by := or_null (cp_created_by data);
          package_created_at := now; package_updated_at := now |} ;;;
     created <- Date_now ;;
     ret {| pkg_id := id; pkg_name := cp_name data;
            pkg_description := cp_description data;
            pkg_price := cp_price data; pkg_currency := currency;
            pkg_features := option_map JSON.of_strings (cp_features data);
            pkg_active := true; pkg_display_order := displayOrder;
            pkg_created_by := cp_created_by data;
            pkg_created_at := IsoText (JsDate.isoString created);
            pkg_updated_at := IsoText (JsDate.isoString created) |})
    (fun error =>
       match exn_code error with
       | Some c =>
           if String.eqb c ER_DUP_ENTRY
           then throw (JsError ("Package " ++ String JSON.dquote (cp_name data)
                                ++ String JSON.dquote " already exists"))
           else throw error
       | None => throw error
       end).

(** The block that [getAllPackages], [getPackageById] and
    [getPackageByName] each carry:
    [let features = []; if (pkg.features) { try { features =
    JSON.parse(pkg.features) } catch (e) { features = [pkg.features] } }] *)
Definition read_features (stored : option string) : JSON.json :=
  match or_null stored with
  | Some text =>
      match JSON.parse text with
      | Some v => v
      | None => JSON.JArr [JSON.JStr text]
      end
  | None => JSON.JArr []
  end.

(** [{ ...pkg, features }] *)
Definition package_of_row (r : PackageRow) : Package :=
  {| pkg_id := package_id r; pkg_name := package_name r;
     pkg_description := package_description r;
     pkg_price := package_price r; pkg_currency := package_currency r;
     pkg_features := Some (read_features (package_features r));
     pkg_active := package_active r;
     pkg_display_order := package_display_order r;
     pkg_created_by := package_created_by r;
     pkg_created_at := FromColumn (package_created_at r);
     pkg_updated_at := FromColumn (package_updated_at r) |}.

(** ORDER BY display_order ASC, created_at DESC: rows that tie keep
    their storage order. *)
Definition listed_before (a b : PackageRow) : bool :=
  Z.ltb (package_display_order a) (package_display_order b)
  || (Z.eqb (package_display_order a) (package_display_order b)
      && Z.leb (package_created_at b) (package_created_at a)).

Fixpoint order_insert (x : PackageRow) (l : list PackageRow) : list PackageRow :=
  match l with
  | [] => [x]
  | y :: rest => if listed_before x y then x :: y :: rest
                 else y :: order_insert x rest
  end.

Definition order_by_display (l : list PackageRow) : list PackageRow :=
  fold_right order_insert [] l.

Definition getAllPackages (activeOnly : bool) : M (list Package) :=
  d <- get_db ;;
  let selected := if activeOnly then filter package_active (packages d)
                  else packages d in
  let results := order_by_display selected in
  ret (map package_of_row results).

Definition getPackageById (id : string) : M (option Package) :=
  d <- get_db ;;
  let results := filter (fun r => coll_eqb (package_id r) id) (packages d) in
  match results with
  | [] => ret None
  | pkg :: _ => ret (Some (package_of_row pkg))
  end.

Definition getPackageByName (name : string) : M (option Package) :=
  d <- get_db ;;
  let results := filter (fun r => coll_eqb (package_name r) name) (packages d) in
  match results with
  | [] => ret None
  | pkg :: _ => ret (Some (package_of_row pkg))
  end.

(** One [column = ?] of an UPDATE packages statement with its bound
    value. *)
Inductive PackageAssign : Type :=
| SetPackageName (v : string)
| SetPackageDescription (v : option string)
| SetPackagePrice (v : Z)
| SetPackageCurrency (v : string)
| SetPackageFeatures (v : string)
| SetPackageActive (v : bool)
| SetPackageDisplayOrder (v : Z)
| SetPackageUpdatedAt (v : Z).

Definition assign_package (r : PackageRow) (a : PackageAssign) : PackageRow :=
  {| package_id := package_id r;
     package_name := match a with SetPackageName v => v | _ => package_name r end;
     package_description :=
       match a with SetPackageDescription v => v | _ => package_description r end;
     package_price := match a with SetPackagePrice v => v | _ => package_price r end;
     package_currency :=
       match a with SetPackageCurrency v => v | _ => package_currency r end;
     package_features :=
       match a with SetPackageFeatures v => Some v | _ => package_features r end;
     package_active := match a with SetPackageActive v => v | _ => package_active r end;
     package_display_order :=
       match a with SetPackageDisplayOrder v => v | _ => package_display_order r end;
     package_created_by := package_created_by r;
     package_created_at := package_created_at r;
     package_updated_at :=
       match a with SetPackageUpdatedAt v => v | _ => package_updated_at r end |}.

(** UPDATE packages SET ... WHERE id = ?.  Modelled from the spec: the
    unique [name] of the data model refuses the statement as a whole when
    two rows would carry one name. *)
Definition update_packages (sets : list PackageAssign) (id : string) : M unit :=
  fun w =>
    let t := packages (w_db w) in
    let t' := map (fun r => if coll_eqb (package_id r) id
                            then fold_left assign_package sets r else r) t in
    if distinct coll_eqb (map package_name t')
    then (Returned tt, with_db (with_packages t' (w_db w)) w)
    else (Thrown (MysqlError ER_DUP_ENTRY "name"), w).

(** The [data] of [updatePackage]: [None] is a field left [undefined]. *)
Record PackagePatch : Type := {
  pp_name : option string;
  pp_description : option string;
  pp_price : option Z;
  pp_currency : option string;
  pp_features : option (list string);
  pp_active : option bool;
  pp_display_order : option Z
}.

Definition updatePackage (id : string) (data : PackagePatch) : M (option Package) :=
  let updates := [] in
  let updates := push_if (pp_name data) SetPackageName updates in
  let updates := push_if (pp_description data)
                         (fun v => SetPackageDescription (or_null (Some v))) updates in
  let updates := push_if (pp_price data) SetPackagePrice updates in
  let updates := push_if (pp_currency data) SetPackageCurrency updates in
  let updates := push_if (pp_features data)
                         (fun l => SetPackageFeatures (JSON.stringify (JSON.of_strings l)))
                         updates in
  let updates := push_if (pp_active data) SetPackageActive updates in
  let updates := push_if (pp_display_order data) SetPackageDisplayOrder updates in
  if Nat.eqb (List.length updates) 0 then getPackageById id
  else
    now <- NOW ;;
    let updates := updates ++ [SetPackageUpdatedAt now] in
    try_catch
      (update_packages updates id ;;;
       getPackageById id)
      (fun error =>
         match exn_code error with
         | Some c => if String.eqb c ER_DUP_ENTRY
                     then throw (JsError "A package with this name already exists")
                     else throw error
         | None => throw error
         end).

Definition deletePackage (id : string) : M unit :=
  d <- get_db ;;
  put_db (with_packages
            (filter (fun r => negb (coll_eqb (package_id r) id)) (packages d)) d).

Definition updatePackageDisplayOrder (id : string) (order : Z) : M unit :=
  now <- NOW ;;
  update_packages [SetPackageDisplayOrder order; SetPackageUpdatedAt now] id.

(** *** Admin operations *)

(** What [getAdminById] returns: the fields of [User] that an admin
    record has; [plan] stays [undefined]. *)
Record AdminProfile : Type := {
  ap_id : string;
  ap_email : string;
  ap_name : string;
  ap_role : Role;
  ap_status : AccountStatus
}.

Definition getAdminById (id : string) : M (option AdminProfile) :=
  d <- get_db ;;
  let results := filter (fun r => coll_eqb (admin_id r) id) (admins d) in
  match results with
  | [] => ret None
  | admin :: _ =>
      ret (Some {| ap_id := admin_id admin; ap_email := admin_email admin;
                   ap_name := admin_name admin; ap_role := admin_role admin;
                   ap_status := admin_status admin |})
  end.

(** [updateUserPassword]: no check on the new password. *)
Definition updateUserPassword (id : string) (newPassword : string) : M unit :=
  passwordHash <- hashPassword newPassword ;;
  update_users [SetPasswordHash passwordHash] (Some id).

(** *** Creating a session *)

(** INSERT INTO user_sessions: [id] is the PRIMARY KEY, [session_token]
    is UNIQUE and [user_id] references [users(id)]. *)
Definition insert_user_sessions (r : SessionRow) : M unit :=
  fun w =>
    let t := user_sessions (w_db w) in
    if existsb (coll_eqb (session_id r)) (map session_id t)
    then (Thrown (MysqlError ER_DUP_ENTRY "PRIMARY"), w)
    else if existsb (coll_eqb (session_token r)) (map session_token t)
    then (Thrown (MysqlError ER_DUP_ENTRY "session_token"), w)
    else if negb (existsb (coll_eqb (session_user_id r)) (map user_id (users (w_db w))))
    then (Thrown (MysqlError ER_NO_REFERENCED_ROW_2 "user_sessions_ibfk_1"), w)
    else (Returned tt, with_db (with_user_sessions (t ++ [r]) (w_db w)) w).

(** [expiresAt] is the instant of the [Date] as the TIMESTAMP column
    keeps it, in seconds; how the driver writes a [Date] is outside the
    model.  A [userAgent] or an [ipAddress] that the caller leaves out
    is bound as NULL here; what [executeInsert] of db.ts does with
    [undefined] is not among the sources. *)
Definition createSession (userId sessionToken : string) (expiresAt : Z)
           (userAgent ipAddress : option string) : M string :=
  id <- randomUUID ;;
  insert_user_sessions
    {| session_id := id; session_user_id := userId;
       session_token := sessionToken; session_user_agent := userAgent;
       session_ip_address := ipAddress; session_expires_at := Some expiresAt |} ;;;
  ret id.

End WithPlatform.
End DbAuth.

(** ** Server actions *)
Module Actions.
Section WithPlatform.
Context `{Collation} `{Bcrypt} `{JwtLib} `{JsDate.HostTimeZone} `{JsDate.DateParser}.

(** Helper to get the current user's ID from the JWT token.  When
    [verifyJWT] resolves to [null] the function runs off its end and
    the caller receives [undefined]. *)
Definition getCurrentUserId (token : string) : M SqlStr :=
  if String.eqb token "" then throw (JsError "No token provided")
  else
    try_catch
      (payload <- verifyJWT token ;;
       match payload with
       | Some p => ret (Some (jwt_userId p))
       | None => ret None
       end)
      (fun _ => throw (JsError "Invalid token")).

(** Helper to verify admin role: accepts both admin and superadmin. *)
Definition verifyAdminRole (token : string) : M string :=
  if String.eqb token "" then throw (JsError "No token provided")
  else
    returned <-
      try_catch
        (payload <- verifyJWT token ;;
         match payload with
         | Some p =>
             if String.eqb (jwt_role p) "admin" || String.eqb (jwt_role p) "superadmin"
             then ret (Some (jwt_userId p))
             else ret None
         | None => ret None
         end)
        (fun _ => throw (JsError "Invalid token")) ;;
    match returned with
    | Some userId => ret userId
    | None => throw (JsError "Unauthorized or insufficient permissions")
    end.

Definition no_patch : UserPatch :=
  {| patch_name := None; patch_email := None; patch_plan := None;
     patch_status := None |}.

Definition plan_patch (p : Plan) : UserPatch :=
  {| patch_name := None; patch_email := None; patch_plan := Some p;
     patch_status := None |}.


Definition activateSubscription (token : string) (planName : Plan) : M Subscription :=
  userId <- getCurrentUserId token ;;
  subscription <- DbAuth.createSubscription userId planName ;;
  DbAuth.updateUser userId (plan_patch planName) ;;;
  DbAuth.logAuditAction
    {| DbAuth.ad_userId := userId;
       DbAuth.ad_action := "subscription_activated";
       DbAuth.ad_entityType := Some "subscription";
       DbAuth.ad_entityId := Some (subscription_id subscription);
       DbAuth.ad_changes := Some (JSON.JObj [("plan", JSON.JStr (Plan_name planName))]);
       DbAuth.ad_ipAddress := None |} ;;;
  ret subscription.

Definition cancelSubscription (token : string) (subscriptionId : string) : M unit :=
  userId <- getCurrentUserId token ;;
  subscription <- DbAuth.getSubscription userId ;;
  if match subscription with
     | None => true
     | Some s => negb (String.eqb (subscription_id s) subscriptionId)
     end
  then throw (JsError "Subscription not found or access denied")
  else
    DbAuth.updateSubscription subscriptionId
      {| DbAuth.patch_sub_plan := None;
         DbAuth.patch_sub_status := Some Cancelled;
         DbAuth.patch_renewal_date := None |} ;;;
    DbAuth.updateUser userId (plan_patch Starter) ;;;
    DbAuth.logAuditAction
      {| DbAuth.ad_userId := userId;
         DbAuth.ad_action := "subscription_cancelled";
         DbAuth.ad_entityType := Some "subscription";
         DbAuth.ad_entityId := Some subscriptionId;
         DbAuth.ad_changes := Some (JSON.JObj [("status", JSON.JStr "Cancelled")]);
         DbAuth.ad_ipAddress := None |}.

Record AddUserData : Type := {
  au_name : string;
  au_email : string;
  au_password : option string;
  au_plan : option Plan
}.

Definition addUser (token : string) (data : AddUserData) : M User :=
  verifyAdminRole token ;;;
  match DbAuth.or_null (au_password data) with
  | None => throw (JsError "Password is required to create a new user.")
  | Some password =>
      user <- DbAuth.createUser
                {| cu_email := au_email data; cu_password := password;
                   cu_name := au_name data; cu_plan := au_plan data |} ;;
      DbAuth.logAuditAction
        {| DbAuth.ad_userId := None;
           DbAuth.ad_action := "user_created";
           DbAuth.ad_entityType := Some "user";
           DbAuth.ad_entityId := Some (id user);
           DbAuth.ad_changes :=
             Some (JSON.JObj [("email", JSON.JStr (au_email data));
                              ("name", JSON.JStr (au_name data))]);
           DbAuth.ad_ipAddress := None |} ;;;
      ret user
  end.

Definition deleteUserAction (token : string) (userId : string) : M unit :=
  verifyAdminRole token ;;;
  DbAuth.deleteUser userId ;;;
  DbAuth.logAuditAction
    {| DbAuth.ad_userId := None;
       DbAuth.ad_action := "user_deleted";
       DbAuth.ad_entityType := Some "user";
       DbAuth.ad_entityId := Some userId;
       DbAuth.ad_changes := Some (JSON.JObj [("deleted", JSON.JBool true)]);
       DbAuth.ad_ipAddress := None |}.

Record ActionResult : Type := {
  success : bool;
  message : string
}.

Definition changeAdminPassword (token : string) (newPassword : string)
  : M ActionResult :=
  userId <- verifyAdminRole token ;;
  DbAuth.updatePassword userId newPassword ;;;
  DbAuth.logAuditAction
    {| DbAuth.ad_userId := Some userId;
       DbAuth.ad_action := "admin_password_changed";
       DbAuth.ad_entityType := Some "user";
       DbAuth.ad_entityId := Some userId;
       DbAuth.ad_changes := Some (JSON.JObj [("password_updated", JSON.JBool true)]);
       DbAuth.ad_ipAddress := None |} ;;;
  ret {| success := true; message := "Password changed successfully" |}.

Definition AccountStatus_name (s : AccountStatus) : string :=
  match s with
  | AccountActive => "Active"
  | AccountCancelled => "Cancelled"
  | AccountSuspended => "Suspended"
  end.

(** The patch as the JSON object the audit entry keeps: the fields that
    are present, in the order name, email, plan, status. *)
Definition json_of_patch (data : UserPatch) : JSON.json :=
  JSON.JObj
    (DbAuth.push_if (patch_status data)
       (fun v => ("status", JSON.JStr (AccountStatus_name v)))
       (DbAuth.push_if (patch_plan data) (fun v => ("plan", JSON.JStr (Plan_name v)))
          (DbAuth.push_if (patch_email data) (fun v => ("email", JSON.JStr v))
             (DbAuth.push_if (patch_name data) (fun v => ("name", JSON.JStr v)) [])))).

Definition updateUserAction (token : string) (userId : string) (data : UserPatch)
  : M unit :=
  verifyAdminRole token ;;;
  DbAuth.updateUser (Some userId) data ;;;
  DbAuth.logAuditAction
    {| DbAuth.ad_userId := None;
       DbAuth.ad_action := "user_updated";
       DbAuth.ad_entityType := Some "user";
       DbAuth.ad_entityId := Some userId;
       DbAuth.ad_changes := Some (json_of_patch data);
       DbAuth.ad_ipAddress := None |}.

(** *** Default packages seeding *)

Definition defaultPackages : list DbAuth.CreatePackageData :=
  [ {| DbAuth.cp_name := "Desktop Software";
       DbAuth.cp_description :=
         Some "Manage Yourself - Desktop Software for DIY traders with Community Access";
       DbAuth.cp_price := 4999%Z;
       DbAuth.cp_currency := Some "₹";
       DbAuth.cp_features :=
         Some ["Desktop Software"; "DIY"; "Community Access"; "Manage Yourself";
               "Local Execution"];
       DbAuth.cp_display_order := Some 0%Z;
       DbAuth.cp_created_by := None |};
    {| DbAuth.cp_name := "Auto Server";
       DbAuth.cp_description :=
         Some "Fully Automated Server based execution for hands-free trading";
       DbAuth.cp_price := 5999%Z;
       DbAuth.cp_currency := Some "₹";
       DbAuth.cp_features :=
         Some ["Fully Automated"; "Server based Execution"; "Priority Support";
               "24/7 Monitoring"; "Execution Management"];
       DbAuth.cp_display_order := Some 1%Z;
       DbAuth.cp_created_by := None |};
    {| DbAuth.cp_name := "Hybrid Plan";
       DbAuth.cp_description :=
         Some "Combination of Desktop Software and Server Execution";
       DbAuth.cp_price := 7999%Z;
       DbAuth.cp_currency := Some "₹";
       DbAuth.cp_features :=
         Some ["Desktop Software"; "Server Execution"; "Advanced Analytics";
               "Priority Support"; "API Access"; "Custom Strategies"];
       DbAuth.cp_display_order := Some 2%Z;
       DbAuth.cp_created_by := None |} ].

(** [for (const pkgData of defaultPackages) { createdPackages.push(await
    createPackage(...)) }] *)
Fixpoint create_each (todo : list DbAuth.CreatePackageData)
         (createdPackages : list DbAuth.Package) : M (list DbAuth.Package) :=
  match todo with
  | [] => ret createdPackages
  | pkgData :: rest =>
      pkg <- DbAuth.createPackage pkgData ;;
      create_each rest (createdPackages ++ [pkg])
  end.

Record SeedResult : Type := {
  seed_success : bool;
  seed_message : string;
  seed_packages : list DbAuth.Package
}.

Definition seedDefaultPackagesAction (token : string) : M SeedResult :=
  userId <- verifyAdminRole token ;;
  existingPackages <- DbAuth.getAllPackages false ;;
  if Nat.ltb 0 (List.length existingPackages)
  then throw (JsError ("Database already has "
                       ++ JsString.of_nat (List.length existingPackages)
                       ++ " package(s). Delete existing packages first to re-seed."))
  else
    createdPackages <- create_each defaultPackages [] ;;
    DbAuth.logAuditAction
      {| DbAuth.ad_userId := Some userId;
         DbAuth.ad_action := "packages_seeded";
         DbAuth.ad_entityType := Some "package";
         DbAuth.ad_entityId := None;
         DbAuth.ad_changes :=
           Some (JSON.JObj
                   [("count", JSON.JNum (JsString.of_nat (List.length createdPackages)));
                    ("packages",
                     JSON.of_strings (map DbAuth.pkg_name createdPackages))]);
         DbAuth.ad_ipAddress := None |} ;;;
    ret {| seed_success := true;
           seed_message := "Successfully created "
                           ++ JsString.of_nat (List.length createdPackages)
                           ++ " default packages";
           seed_packages := createdPackages |}.

(** Helper to get user role from token; like [getCurrentUserId], it runs
    off its end when [verifyJWT] resolves to [null]. *)
Definition getUserRole (token : string) : M (option string) :=
  if String.eqb token "" then throw (JsError "No token provided")
  else
    try_catch
      (payload <- verifyJWT token ;;
       match payload with
       | Some p => ret (Some (jwt_role p))
       | None => ret None
       end)
      (fun _ => throw (JsError "Invalid token")).

(** Of [userData] only the id is read. *)
Definition createUserInDb (userData_id : string) : M User :=
  user <- DbAuth.getUserById (Some userData_id) ;;
  match user with
  | None => throw (JsError "User not found")
  | Some u => ret u
  end.

(** *** Package management *)

Definition getPackagesAction : M (list DbAuth.Package) :=
  DbAuth.getAllPackages false.

Definition getActivePackagesAction : M (list DbAuth.Package) :=
  DbAuth.getAllPackages true.

(** A JavaScript integer as [JSON.stringify] and template literals
    print it. *)
Definition number_text (n : Z) : string :=
  if (n <? 0)%Z then "-" ++ JsString.of_nat (Z.to_nat (- n))
  else JsString.of_nat (Z.to_nat n).

(** [{ ...data, created_by: null }] *)
Definition without_creator (data : DbAuth.CreatePackageData) : DbAuth.CreatePackageData :=
  {| DbAuth.cp_name := DbAuth.cp_name data;
     DbAuth.cp_description := DbAuth.cp_description data;
     DbAuth.cp_price := DbAuth.cp_price data;
     DbAuth.cp_currency := DbAuth.cp_currency data;
     DbAuth.cp_features := DbAuth.cp_features data;
     DbAuth.cp_display_order := DbAuth.cp_display_order data;
     DbAuth.cp_created_by := None |}.

Definition createPackageAction (token : string) (data : DbAuth.CreatePackageData)
  : M DbAuth.Package :=
  userId <- verifyAdminRole token ;;
  pkg <- DbAuth.createPackage (without_creator data) ;;
  DbAuth.logAuditAction
    {| DbAuth.ad_userId := Some userId;
       DbAuth.ad_action := "package_created";
       DbAuth.ad_entityType := Some "package";
       DbAuth.ad_entityId := Some (DbAuth.pkg_id pkg);
       DbAuth.ad_changes :=
         Some (JSON.JObj [("name", JSON.JStr (DbAuth.pkg_name pkg));
                          ("price", JSON.JNum (number_text (DbAuth.pkg_price pkg)))]);
       DbAuth.ad_ipAddress := None |} ;;;
  ret pkg.

(** The patch as the JSON object the audit entry keeps: the fields that
    are present, in the order name, description, price, currency,
    features, active, display_order. *)
Definition json_of_package_patch (data : DbAuth.PackagePatch) : JSON.json :=
  let members := [] in
  let members := DbAuth.push_if (DbAuth.pp_name data)
                   (fun v => ("name", JSON.JStr v)) members in
  let members := DbAuth.push_if (DbAuth.pp_description data)
                   (fun v => ("description", JSON.JStr v)) members in
  let members := DbAuth.push_if (DbAuth.pp_price data)
                   (fun v => ("price", JSON.JNum (number_text v))) members in
  let members := DbAuth.push_if (DbAuth.pp_currency data)
                   (fun v => ("currency", JSON.JStr v)) members in
  let members := DbAuth.push_if (DbAuth.pp_features data)
                   (fun v => ("features", JSON.of_strings v)) members in
  let members := DbAuth.push_if (DbAuth.pp_active data)
                   (fun v => ("active", JSON.JBool v)) members in
  let members := DbAuth.push_if (DbAuth.pp_display_order data)
                   (fun v => ("display_order", JSON.JNum (number_text v))) members in
  JSON.JObj members.

Definition updatePackageAction (token : string) (packageId : string)
           (data : DbAuth.PackagePatch) : M DbAuth.Package :=
  userId <- verifyAdminRole token ;;
  pkg <- DbAuth.updatePackage packageId data ;;
  match pkg with
  | None => throw (JsError "Package not found")
  | Some pkg =>
      DbAuth.logAuditAction
        {| DbAuth.ad_userId := Some userId;
           DbAuth.ad_action := "package_updated";
           DbAuth.ad_entityType := Some "package";
           DbAuth.ad_entityId := Some packageId;
           DbAuth.ad_changes := Some (json_of_package_patch data);
           DbAuth.ad_ipAddress := None |} ;;;
      ret pkg
  end.

Definition deletePackageAction (token : string) (packageId : string) : M unit :=
  userId <- verifyAdminRole token ;;
  pkg <- DbAuth.getPackageById packageId ;;
  match pkg with
  | None => throw (JsError "Package not found")
  | Some pkg =>
      DbAuth.deletePackage packageId ;;;
      DbAuth.logAuditAction
        {| DbAuth.ad_userId := Some userId;
           DbAuth.ad_action := "package_deleted";
           DbAuth.ad_entityType := Some "package";
           DbAuth.ad_entityId := Some packageId;
           DbAuth.ad_changes := Some (JSON.JObj [("name", JSON.JStr (DbAuth.pkg_name pkg))]);
           DbAuth.ad_ipAddress := None |}
  end.

End WithPlatform.
End Actions.

(** ** scripts/seed-packages.js *)
Module SeedScript.
Section WithPlatform.
Context `{Collation}.

Record SeedPackage : Type := {
  sp_name : string;
  sp_description : string;
  sp_price : Z;
  sp_currency : string;
  sp_features : list string;
  sp_display_order : Z;
  sp_active : bool
}.

Definition defaultPackages : list SeedPackage :=
  [ {| sp_name := "Desktop Software";
       sp_description :=
         "Manage Yourself - Desktop Software for DIY traders with Community Access";
       sp_price := 4999%Z; sp_currency := "₹";
       sp_features := ["Desktop Software"; "DIY"; "Community Access";
                       "Manage Yourself"; "Local Execution"];
       sp_display_order := 0%Z; sp_active := true |};
    {| sp_name := "Auto Server";
       sp_description :=
         "Fully Automated Server based execution for hands-free trading";
       sp_price := 5999%Z; sp_currency := "₹";
       sp_features := ["Fully Automated"; "Server based Execution";
                       "Priority Support"; "24/7 Monitoring";
                       "Execution Management"];
       sp_display_order := 1%Z; sp_active := true |};
    {| sp_name := "Hybrid Plan";
       sp_description := "Combination of Desktop Software and Server Execution";
       sp_price := 7999%Z; sp_currency := "₹";
       sp_features := ["Desktop Software"; "Server Execution";
                       "Advanced Analytics"; "Priority Support"; "API Access";
                       "Custom Strategies"];
       sp_display_order := 2%Z; sp_active := true |} ].

(** INSERT INTO packages (id, ...) VALUES (UUID(), ...): the server
    draws the id. *)
Definition insert_package (pkg : SeedPackage) : M unit :=
  id <- random_draw ;;
  now <- NOW ;;
  DbAuth.insert_packages
    {| package_id := id; package_name := sp_name pkg;
       package_description := Some (sp_description pkg);
       package_price := sp_price pkg; package_currency := sp_currency pkg;
       package_features := Some (JSON.stringify (JSON.of_strings (sp_features pkg)));
       package_active := sp_active pkg;
       package_display_order := sp_display_order pkg;
       package_created_by := None;
       package_created_at := now; package_updated_at := now |}.

Fixpoint insert_each (todo : list SeedPackage) : M unit :=
  match todo with
  | [] => ret tt
  | pkg :: rest => insert_package pkg ;;; insert_each rest
  end.

(** How the process ends: the function returns, or the [catch] block
    calls [process.exit(1)]. *)
Inductive ScriptEnd : Type := Finished | Exit (code : nat).

Definition seedPackages : M ScriptEnd :=
  try_catch
    (d <- get_db ;;
     let count := List.length (packages d) in
     if Nat.ltb 0 count then ret Finished
     else insert_each defaultPackages ;;; ret Finished)
    (fun _ => ret (Exit 1)).

End WithPlatform.
End SeedScript.

(** ** Admin login API route *)
Module AdminLogin.
Section WithPlatform.
Context `{Collation} `{Bcrypt} `{JwtLib}.

(** A field of the JSON body as the route meets it.  The body is not
    validated, so the field may hold a value of any type; of a value that
    is not a string the route reads only whether it is truthy. *)
Inductive BodyValue : Type :=
| Undefined
| Text (s : string)
| NotText (truthy : bool).

(** [!!v] *)
Definition truthy (v : BodyValue) : bool :=
  match v with
  | Undefined => false
  | Text s => negb (String.eqb s "")
  | NotText b => b
  end.

(** What the route reads of the request: the two fields of the JSON body
    and the x-forwarded-for header.  The email is a string when it is
    there: how the driver binds a value of another type is decided in
    lib/db, which is not among the sources. *)
Record Request : Type := {
  body_email : option string;
  body_password : BodyValue;
  x_forwarded_for : option string
}.

Record LoginUser : Type := {
  lu_id : string;
  lu_email : string;
  lu_password_hash : string;
  lu_name : string;
  lu_role : Role;
  lu_plan : option Plan;
  lu_status : AccountStatus
}.

Inductive Body : Type :=
| ErrorBody (error : string)
| LoginBody (user_id user_email user_name : string) (user_role : Role)
            (user_plan : option Plan) (user_status : AccountStatus)
            (token : string).

(** [NextResponse.json(body, { status })] *)
Record Response : Type := {
  response_status : nat;
  response_body : Body
}.

Definition json_response (b : Body) (status : nat) : M Response :=
  ret {| response_status := status; response_body := b |}.

Definition of_admin (r : AdminRow) : LoginUser :=
  {| lu_id := admin_id r; lu_email := admin_email r;
     lu_password_hash := admin_password_hash r; lu_name := admin_name r;
     lu_role := admin_role r; lu_plan := None; lu_status := admin_status r |}.

Definition of_user (r : UserRow) : LoginUser :=
  {| lu_id := user_id r; lu_email := user_email r;
     lu_password_hash := user_password_hash r; lu_name := user_name r;
     lu_role := user_role r; lu_plan := Some (user_plan r);
     lu_status := user_status r |}.

Definition select_admins_by_email (e : string) : M (list AdminRow) :=
  d <- get_db ;;
  ret (filter (fun r => coll_eqb (admin_email r) e) (admins d)).

(** UPDATE admins SET last_login = NOW() WHERE id = ? *)
Definition touch_admin (id : string) : M unit :=
  d <- get_db ;;
  now <- NOW ;;
  put_db (with_admins
            (map (fun r => if coll_eqb (admin_id r) id
                           then {| admin_id := admin_id r; admin_email := admin_email r;
                                   admin_password_hash := admin_password_hash r;
                                   admin_name := admin_name r;
                                   admin_role := admin_role r;
                                   admin_status := admin_status r;
                                   admin_last_login := Some now |}
                           else r)
                 (admins d)) d).

Definition client_ip (request : Request) : option string :=
  match DbAuth.or_null (x_forwarded_for request) with
  | Some ip => Some ip
  | None => Some "unknown"
  end.

(** [verifyPassword(password, user.password_hash)] on the field of the
    body: [compare] of bcryptjs rejects a password that is not a string
    (the message names the types of the two arguments; the route discards
    it). *)
Definition verify_body_password (password : BodyValue) (passwordHash : string)
  : M bool :=
  match password with
  | Text s => DbAuth.verifyPassword s passwordHash
  | _ => throw (JsError "Illegal arguments")
  end.

Definition audit (userId : option string) (action : string) (user : LoginUser)
           (request : Request) : M unit :=
  DbAuth.logAuditAction
    {| DbAuth.ad_userId := userId;
       DbAuth.ad_action := action;
       DbAuth.ad_entityType := Some "user";
       DbAuth.ad_entityId := Some (lu_id user);
       DbAuth.ad_changes := None;
       DbAuth.ad_ipAddress := client_ip request |}.

Definition POST (request : Request) : M Response :=
  try_catch
    (match DbAuth.or_null (body_email request),
           truthy (body_password request) with
     | Some email, true =>
         (* Try separate admins table first, then fall back to users. *)
         adminResults <- select_admins_by_email email ;;
         userResults <-
           match adminResults with
           | [] => DbAuth.select_users_by_email email
           | _ => ret []
           end ;;
         match match adminResults with
               | a :: _ => Some (of_admin a)
               | [] => option_map of_user (first_or_null userResults)
               end
         with
         | None => json_response (ErrorBody "Invalid email or password") 401
         | Some user =>
             passwordMatches <- verify_body_password (body_password request)
                                                     (lu_password_hash user) ;;
             if negb passwordMatches then
               audit None "admin_login_failed" user request ;;;
               json_response (ErrorBody "Invalid email or password") 401
             else
               let roleVal := Role_name (lu_role user) in
               if negb (String.eqb roleVal "admin" || String.eqb roleVal "superadmin")
               then
                 audit (Some (lu_id user)) "admin_login_forbidden" user request ;;;
                 json_response (ErrorBody "Not authorized as admin") 403
               else
                 match lu_status user with
                 | AccountCancelled =>
                     json_response (ErrorBody "Account has been cancelled") 403
                 | _ =>
                     try_catch
                       (if Nat.ltb 0 (List.length adminResults)
                        then touch_admin (lu_id user)
                        else DbAuth.updateLastLogin (lu_id user))
                       (fun _ => ret tt) ;;;
                     token <- createJWT
                                {| jwt_userId := lu_id user; jwt_email := lu_email user;
                                   jwt_role := Role_name (lu_role user) |} ;;
                     audit (Some (lu_id user)) "admin_login" user request ;;;
                     json_response
                       (LoginBody (lu_id user) (lu_email user) (lu_name user)
                                  (lu_role user) (lu_plan user) (lu_status user) token)
                       200
                 end
         end
     | _, _ => json_response (ErrorBody "Email and password are required") 400
     end)
    (fun _ => json_response (ErrorBody "Internal server error") 500).

End WithPlatform.
End AdminLogin.

(** ** Token verification API routes *)

(** [s.slice(n)] and [s.substring(n)] for [n] within the string. *)
Definition slice_from (n : nat) (s : string) : string :=
  substring n (String.length s - n) s.

(** The route that answers with the user of a token. *)
Module VerifyRoute.
Section WithPlatform.
Context `{Collation} `{JwtLib}.

(** What the route reads of the request: the authorization header. *)
Record Request : Type := {
  authorization : option string
}.

Inductive Body : Type :=
| ErrorBody (error : string)
| UserBody (user : User).

Record Response : Type := {
  response_status : nat;
  response_body : Body
}.

Definition json_response (b : Body) (status : nat) : M Response :=
  ret {| response_status := status; response_body := b |}.

Definition GET (request : Request) : M Response :=
  try_catch
    (let auth := match DbAuth.or_null (authorization request) with
                 | Some a => a
                 | None => ""
                 end in
     let token := if String.prefix "Bearer " auth then Some (slice_from 7 auth)
                  else None in
     match DbAuth.or_null token with
     | None => json_response (ErrorBody "No token provided") 401
     | Some token =>
         payload <- verifyJWT token ;;
         match payload with
         | None => json_response (ErrorBody "Invalid token") 401
         | Some p =>
             user <- DbAuth.getUserById (Some (jwt_userId p)) ;;
             match user with
             | None => json_response (ErrorBody "User not found") 404
             | Some u => json_response (UserBody u) 200
             end
         end
     end)
    (fun _ => json_response (ErrorBody "Internal server error") 500).

End WithPlatform.
End VerifyRoute.

(** Verify token / get current user: the user with the Active
    subscription. *)
Module CurrentUserRoute.
Section WithPlatform.
Context `{Collation} `{JwtLib}.

Record Request : Type := {
  authorization : option string
}.

(** [{ user: { ...user, subscription: subscription || undefined } }] *)
Inductive Body : Type :=
| ErrorBody (error : string)
| UserBody (user : User) (subscription : option Subscription).

Record Response : Type := {
  response_status : nat;
  response_body : Body
}.

Definition json_response (b : Body) (status : nat) : M Response :=
  ret {| response_status := status; response_body := b |}.

Definition GET (request : Request) : M Response :=
  try_catch
    (match DbAuth.or_null (authorization request) with
     | None => json_response (ErrorBody "Unauthorized") 401
     | Some authHeader =>
         if negb (String.prefix "Bearer " authHeader)
         then json_response (ErrorBody "Unauthorized") 401
         else
           let token := slice_from 7 authHeader in
           payload <- verifyJWT token ;;
           match payload with
           | None => json_response (ErrorBody "Invalid or expired token") 401
           | Some p =>
               user <- DbAuth.getUserById (Some (jwt_userId p)) ;;
               match user with
               | None => json_response (ErrorBody "User not found") 404
               | Some u =>
                   subscription <- DbAuth.getSubscription (Some (id u)) ;;
                   json_response (UserBody u subscription) 200
               end
           end
     end)
    (fun _ => json_response (ErrorBody "Internal server error") 500).

End WithPlatform.
End CurrentUserRoute.

(** ** scripts/create-admin.js *)
Module CreateAdminScript.
Section WithPlatform.
Context `{Collation} `{Bcrypt}.

(** The environment variables the script reads besides the connection
    parameters; [None] is a variable that is not set. *)
Record Env : Type := {
  ADMIN_EMAIL : option string;
  ADMIN_PASSWORD : option string;
  ADMIN_NAME : option string;
  ADMIN_USE_SEPARATE : option string
}.

(** INSERT INTO admins: [id] is the PRIMARY KEY and [email] is UNIQUE. *)
Definition insert_admins (r : AdminRow) : M unit :=
  fun w =>
    let t := admins (w_db w) in
    if existsb (coll_eqb (admin_id r)) (map admin_id t)
    then (Thrown (MysqlError ER_DUP_ENTRY "PRIMARY"), w)
    else if existsb (coll_eqb (admin_email r)) (map admin_email t)
    then (Thrown (MysqlError ER_DUP_ENTRY "email"), w)
    else (Returned tt, with_db (with_admins (t ++ [r]) (w_db w)) w).

(** [process.env.ADMIN_USE_SEPARATE === '1' || ... === 'true'] *)
Definition useSeparate (env : Env) : bool :=
  match ADMIN_USE_SEPARATE env with
  | Some v => String.eqb v "1" || String.eqb v "true"
  | None => false
  end.

(** A failed INSERT is caught and logged, and the script ends as after
    a success; without email or password it exits with code 1 before
    it connects. *)
Definition main (env : Env) : M SeedScript.ScriptEnd :=
  let adminName := match DbAuth.or_null (ADMIN_NAME env) with
                   | Some n => n
                   | None => "Admin"
                   end in
  match DbAuth.or_null (ADMIN_EMAIL env), DbAuth.or_null (ADMIN_PASSWORD env) with
  | Some adminEmail, Some adminPassword =>
      try_catch
        (id <- randomUUID ;;
         salt <- random_draw ;;
         let passwordHash := bcrypt_hash adminPassword salt 10 in
         (if useSeparate env then
            insert_admins
              {| admin_id := id; admin_email := adminEmail;
                 admin_password_hash := passwordHash; admin_name := adminName;
                 admin_role := RoleSuperadmin; admin_status := AccountActive;
                 admin_last_login := None |}
          else
            DbAuth.insert_users
              {| user_id := id; user_email := adminEmail;
                 user_password_hash := passwordHash; user_name := adminName;
                 user_role := RoleAdmin; user_plan := Pro;
                 user_status := AccountActive; user_last_login := None |}) ;;;
         ret SeedScript.Finished)
        (fun _ => ret SeedScript.Finished)
  | _, _ => ret (SeedScript.Exit 1)
  end.

End WithPlatform.
End CreateAdminScript.

(** ** Constraints of the schema, as conditions on a table *)

Section Constraints.
Context `{Collation}.

(** [users]: PRIMARY KEY (id), UNIQUE (email). *)
Definition users_ok (t : list UserRow) : bool :=
  distinct coll_eqb (map user_id t) && distinct coll_eqb (map user_email t).

(** [subscriptions]: PRIMARY KEY (id), UNIQUE KEY
    unique_active_subscription (user_id, status). *)
Definition subscriptions_ok (t : list SubscriptionRow) : bool :=
  distinct coll_eqb (map sub_id t) && distinct sub_key_eqb (map sub_key t).

(** [user_sessions]: session_token UNIQUE. *)
Definition sessions_ok (t : list SessionRow) : bool :=
  distinct coll_eqb (map session_token t).

(** The Active rows of user [u]. *)
Definition active_rows (u : string) (t : list SubscriptionRow) : list SubscriptionRow :=
  filter (fun r => coll_eqb (sub_user_id r) u
                   && SubscriptionStatus_eqb (sub_status r) Active) t.


Definition email_taken (e : string) (t : list UserRow) : bool :=
  existsb (coll_eqb e) (map user_email t).

Definition id_taken (i : string) (ids : list string) : bool :=
  existsb (coll_eqb i) ids.
End Constraints.

(** ** What the operations send to the server *)

Section Rows.
Context `{Collation} `{Bcrypt}.

(** The world after [n] draws from the source of randomness. *)
Definition after_draws (n : nat) (w : World) : World :=
  {| w_db := w_db w; w_now := w_now w; w_rand := w_rand w;
     w_next := n + w_next w |}.

(** The row that [createUser] sends to the server. *)
Definition new_user_row (w : World) (data : CreateUserData) : UserRow :=
  {| user_id := w_rand w (w_next w);
     user_email := cu_email data;
     user_password_hash :=
       bcrypt_hash (cu_password data) (w_rand w (S (w_next w))) DbAuth.BCRYPT_ROUNDS;
     user_name := cu_name data;
     user_role := RoleUser;
     user_plan := match cu_plan data with Some p => p | None => Starter end;
     user_status := AccountActive;
     user_last_login := None |}.

(** The row that [createPackage] sends to the server under id [i] at
    server time [now]. *)
Definition new_package_row (i : string) (now : Z) (data : DbAuth.CreatePackageData)
  : PackageRow :=
  {| package_id := i; package_name := DbAuth.cp_name data;
     package_description := DbAuth.or_null (DbAuth.cp_description data);
     package_price := DbAuth.cp_price data;
     package_currency := match DbAuth.or_null (DbAuth.cp_currency data) with
                         | Some c => c
                         | None => "USD"
                         end;
     package_features :=
       option_map (fun l => JSON.stringify (JSON.of_strings l)) (DbAuth.cp_features data);
     package_active := true;
     package_display_order := match DbAuth.cp_display_order data with
                              | Some n => n
                              | None => 0%Z
                              end;
     package_created_by := DbAuth.or_null (DbAuth.cp_created_by data);
     package_created_at := now; package_updated_at := now |}.

(** The [Package] that [createPackage] returns for it. *)
Definition new_package (i : string) (created : Z) (data : DbAuth.CreatePackageData)
  : DbAuth.Package :=
  {| DbAuth.pkg_id := i; DbAuth.pkg_name := DbAuth.cp_name data;
     DbAuth.pkg_description := DbAuth.cp_description data;
     DbAuth.pkg_price := DbAuth.cp_price data;
     DbAuth.pkg_currency := match DbAuth.or_null (DbAuth.cp_currency data) with
                            | Some c => c
                            | None => "USD"
                            end;
     DbAuth.pkg_features := option_map JSON.of_strings (DbAuth.cp_features data);
     DbAuth.pkg_active := true;
     DbAuth.pkg_display_order := match DbAuth.cp_display_order data with
                                 | Some n => n
                                 | None => 0%Z
                                 end;
     DbAuth.pkg_created_by := DbAuth.cp_created_by data;
     DbAuth.pkg_created_at := DbAuth.IsoText (JsDate.isoString created);
     DbAuth.pkg_updated_at := DbAuth.IsoText (JsDate.isoString created) |}.

(** The row that the seed script sends for a default package. *)
Definition seed_script_row (i : string) (now : Z) (pkg : SeedScript.SeedPackage)
  : PackageRow :=
  {| package_id := i; package_name := SeedScript.sp_name pkg;
     package_description := Some (SeedScript.sp_description pkg);
     package_price := SeedScript.sp_price pkg;
     package_currency := SeedScript.sp_currency pkg;
     package_features :=
       Some (JSON.stringify (JSON.of_strings (SeedScript.sp_features pkg)));
     package_active := SeedScript.sp_active pkg;
     package_display_order := SeedScript.sp_display_order pkg;
     package_created_by := None;
     package_created_at := now; package_updated_at := now |}.

(** The address fits the column [ip_address]: it is NULL, or it has 45
    characters at most. *)
Definition address_fits (v : option string) : bool :=
  match DbAuth.or_null v with
  | Some s => Nat.leb (char_length s) 45
  | None => true
  end.

(** The audit entry that [logAuditAction] sends under id [i]; the user
    reference is kept only when the user is in [users]. *)
Definition new_audit_row (i : string) (d : Db) (data : DbAuth.AuditData) : AuditRow :=
  {| audit_id := i;
     audit_user_id :=
       match DbAuth.or_null (DbAuth.ad_userId data) with
       | Some u => if existsb (fun r => coll_eqb (user_id r) u) (users d)
                   then Some u else None
       | None => None
       end;
     audit_action := DbAuth.ad_action data;
     audit_entity_type := DbAuth.or_null (DbAuth.ad_entityType data);
     audit_entity_id := DbAuth.or_null (DbAuth.ad_entityId data);
     audit_changes := option_map JSON.stringify (DbAuth.ad_changes data);
     audit_ip_address := DbAuth.or_null (DbAuth.ad_ipAddress data) |}.

(** [createSubscription] with the three steps on the date taken as
    parameters: the renewal date of a creation time, its DATETIME text and
    its ISO text.  The statements it sends do not depend on how the date
    is computed. *)
Definition createSubscription_with
           (renewal : Z -> option Z)
           (sqlText isoText : option Z -> Outcome string)
           (userId : SqlStr) (plan : Plan) : M Subscription :=
  (id <- randomUUID ;;
   now <- Date_now ;;
   let renewalDate := renewal now in
   renewalText <- DbAuth.lift (sqlText renewalDate) ;;
   DbAuth.insert_subscriptions id userId plan Active renewalText ;;;
   iso <- DbAuth.lift (isoText renewalDate) ;;
   ret {| subscription_id := id; subscription_plan := plan;
          subscription_status := Active; renewal_date := Some iso |})%js.

End Rows.

(** ** Which account a login attempt is about *)

Section Lookup.
Context `{Collation}.

(** The account the admin login route finds for an email: the first match
    in [admins], else the first match in [users]. *)
Definition login_account (d : Db) (e : string) : option AdminLogin.LoginUser :=
  match filter (fun r => coll_eqb (admin_email r) e) (admins d) with
  | a :: _ => Some (AdminLogin.of_admin a)
  | [] => option_map AdminLogin.of_user
            (first_or_null (filter (fun r => coll_eqb (user_email r) e) (users d)))
  end.

End Lookup.

(** ** The life of the database

    Every operation that the application exports, as one call, and the
    worlds that calls can lead to from an installation whose
    [subscriptions] table is still empty.  Between two calls the clock and
    the source of randomness may change in any way. *)

Section Life.
Context `{Collation} `{Bcrypt} `{JwtLib} `{JsDate.HostTimeZone} `{JsDate.DateParser}.

Inductive Call : Type :=
| CallActivateSubscription (token : string) (planName : Plan)
| CallCancelSubscription (token : string) (subscriptionId : string)
| CallAddUser (token : string) (data : Actions.AddUserData)
| CallUpdateUserAction (token : string) (userId : string) (data : UserPatch)
| CallDeleteUserAction (token : string) (userId : string)
| CallChangeAdminPassword (token : string) (newPassword : string)
| CallSeedDefaultPackages (token : string)
| CallAdminLogin (request : AdminLogin.Request)
| CallSeedScript
| CallCreateUser (data : CreateUserData)
| CallUpdateUser (id : SqlStr) (data : UserPatch)
| CallUpdatePassword (userId : string) (newPassword : string)
| CallDeleteUser (id : string)
| CallCreateSubscription (userId : SqlStr) (plan : Plan)
| CallUpdateSubscription (subscriptionId : string) (data : DbAuth.SubscriptionPatch)
| CallDbCancelSubscription (subscriptionId : string)
| CallDeleteSession (sessionId : string)
| CallDeleteExpiredSessions
| CallLogAuditAction (data : DbAuth.AuditData)
| CallCreatePackage (data : DbAuth.CreatePackageData).

(** The world a call leaves behind, whether it returned or threw. *)
Definition perform (c : Call) (w : World) : World :=
  match c with
  | CallActivateSubscription token planName =>
      snd (Actions.activateSubscription token planName w)
  | CallCancelSubscription token subscriptionId =>
      snd (Actions.cancelSubscription token subscriptionId w)
  | CallAddUser token data => snd (Actions.addUser token data w)
  | CallUpdateUserAction token userId data =>
      snd (Actions.updateUserAction token userId data w)
  | CallDeleteUserAction token userId => snd (Actions.deleteUserAction token userId w)
  | CallChangeAdminPassword token newPassword =>
      snd (Actions.changeAdminPassword token newPassword w)
  | CallSeedDefaultPackages token => snd (Actions.seedDefaultPackagesAction token w)
  | CallAdminLogin request => snd (AdminLogin.POST request w)
  | CallSeedScript => snd (SeedScript.seedPackages w)
  | CallCreateUser data => snd (DbAuth.createUser data w)
  | CallUpdateUser id data => snd (DbAuth.updateUser id data w)
  | CallUpdatePassword userId newPassword =>
      snd (DbAuth.updatePassword userId newPassword w)
  | CallDeleteUser id => snd (DbAuth.deleteUser id w)
  | CallCreateSubscription userId plan => snd (DbAuth.createSubscription userId plan w)
  | CallUpdateSubscription subscriptionId data =>
      snd (DbAuth.updateSubscription subscriptionId data w)
  | CallDbCancelSubscription subscriptionId =>
      snd (DbAuth.cancelSubscription subscriptionId w)
  | CallDeleteSession sessionId => snd (DbAuth.deleteSession sessionId w)
  | CallDeleteExpiredSessions => snd (DbAuth.deleteExpiredSessions w)
  | CallLogAuditAction data => snd (DbAuth.logAuditAction data w)
  | CallCreatePackage data => snd (DbAuth.createPackage data w)
  end.

Inductive reachable : World -> Prop :=
| reach_install (w : World) :
    subscriptions (w_db w) = [] -> reachable w
| reach_call (w : World) (c : Call) :
    reachable w -> reachable (perform c w)
| reach_environment (w : World) (now : Z) (rand : nat -> string) (next : nat) :
    reachable w ->
    reachable {| w_db := w_db w; w_now := now; w_rand := rand; w_next := next |}.

(** A condition on the database that an operation keeps, however it
    ends. *)
Definition preserves {A} (P : Db -> Prop) (m : M A) : Prop :=
  forall w, P (w_db w) -> P (w_db (snd (m w))).

(** UNIQUE KEY unique_active_subscription holds. *)
Definition unique_active_subscription (d : Db) : Prop :=
  distinct sub_key_eqb (map sub_key (subscriptions d)) = true.

End Life.

(** A subscription row after UPDATE ... SET status = 'Cancelled'. *)
Definition cancelled (r : SubscriptionRow) : SubscriptionRow :=
  DbAuth.assign_subscription r (DbAuth.SetSubscriptionStatus Cancelled).

(** [AdminLogin]'s response to a failed login. *)
Definition invalid_credentials : AdminLogin.Response :=
  {| AdminLogin.response_status := 401;
     AdminLogin.response_body := AdminLogin.ErrorBody "Invalid email or password" |}.

(** [AdminLogin]'s response to an error that its [catch] meets. *)
Definition internal_server_error : AdminLogin.Response :=
  {| AdminLogin.response_status := 500;
     AdminLogin.response_body := AdminLogin.ErrorBody "Internal server error" |}.

(** A login attempt: the email, the password field as it was sent, and
    the x-forwarded-for header. *)
Definition login_attempt (e : string) (password : AdminLogin.BodyValue)
           (forwarded : option string) : AdminLogin.Request :=
  {| AdminLogin.body_email := Some e; AdminLogin.body_password := password;
     AdminLogin.x_forwarded_for := forwarded |}.

(** ** Renewal dates, in the words of the specification *)

(** The calendar month after month [m] (0 = January) of year [y]. *)
Definition following_month (y m : Z) : Z * Z :=
  if (m =? 11)%Z then ((y + 1)%Z, 0%Z) else (y, (m + 1)%Z).

(** "Creation time + 1 calendar month" on a local time value: the same
    day of the month and the same time of day in the following calendar
    month, and the last day of that month when the month is too short to
    have that day. *)
Definition plus_one_calendar_month (t : Z) : Z :=
  let (y', m') := following_month (JsDate.YearFromTime t) (JsDate.MonthFromTime t) in
  JsDate.MakeDate
    (JsDate.MakeDay y' m' (Z.min (JsDate.DateFromTime t) (JsDate.DaysInMonth y' m')))
    (JsDate.TimeWithinDay t).

(** A time value written as YYYY-MM-DD HH:MM:SS from its UTC fields: the
    DATETIME text, without a zone designator. *)
Definition sql_datetime_text (t : Z) : string :=
  JsDate.pad4 (JsDate.YearFromTime t) ++ "-" ++ JsDate.pad2 (JsDate.MonthFromTime t + 1)
  ++ "-" ++ JsDate.pad2 (JsDate.DateFromTime t) ++ " "
  ++ JsDate.pad2 (JsDate.HourFromTime t) ++ ":" ++ JsDate.pad2 (JsDate.MinFromTime t)
  ++ ":" ++ JsDate.pad2 (JsDate.SecFromTime t).

(** ** Collations to run examples with *)

(** Byte-wise comparison ([utf8mb4_bin]). *)
Definition binary : Collation :=
  {| coll_eqb := String.eqb;
     coll_refl := String.eqb_refl;
     coll_sym := String.eqb_sym;
     coll_trans := fun s t u Hst Htu =>
       proj2 (String.eqb_eq s u)
             (eq_trans (proj1 (String.eqb_eq s t) Hst) (proj1 (String.eqb_eq t u) Htu)) |}.

Definition lower_ascii (c : ascii) : ascii :=
  let n := nat_of_ascii c in
  if Nat.leb 65 n && Nat.leb n 90 then ascii_of_nat (n + 32) else c.

Fixpoint lower (s : string) : string :=
  match s with
  | EmptyString => EmptyString
  | String c r => String (lower_ascii c) (lower r)
  end.

(** Comparison that ignores the case of ASCII letters, as a
    case-insensitive collation does on them. *)
Definition ascii_ci : Collation :=
  {| coll_eqb := fun s t => String.eqb (lower s) (lower t);
     coll_refl := fun s => String.eqb_refl (lower s);
     coll_sym := fun s t => String.eqb_sym (lower s) (lower t);
     coll_trans := fun s t u Hst Htu =>
       proj2 (String.eqb_eq (lower s) (lower u))
             (eq_trans (proj1 (String.eqb_eq (lower s) (lower t)) Hst)
                       (proj1 (String.eqb_eq (lower t) (lower u)) Htu)) |}.

(** ** Stand-ins for the platform, to run the model on examples *)
Module Example.

(** A toy hash that keeps salt and password readable. *)
Definition plain_bcrypt : Bcrypt :=
  {| bcrypt_hash := fun password salt _ => (salt ++ "$" ++ password)%string;
     bcrypt_compare := fun password h =>
       existsb (fun k => String.eqb (substring k (String.length password + 1) h)
                                    ("$" ++ password)%string
                         && Nat.eqb (k + String.length password + 1) (String.length h))
               (seq 0 (String.length h)) |}.

Definition utc : JsDate.HostTimeZone := {| JsDate.LocalTZA := fun _ _ => 0%Z |}.

(** India Standard Time, five and a half hours ahead of UTC. *)
Definition ist : JsDate.HostTimeZone := {| JsDate.LocalTZA := fun _ _ => 19800000%Z |}.

Definition no_parser : JsDate.DateParser := {| JsDate.Date_parse := fun _ => None |}.

(** Tokens of three principals; every other text is an invalid token. *)
Definition tokens : JwtLib :=
  {| verifyJWT_at := fun _ token =>
       if String.eqb token "token-alice" then
         Returned (Some {| jwt_userId := "u-alice"; jwt_email := "alice@x.com";
                           jwt_role := "user" |})
       else if String.eqb token "token-bob" then
         Returned (Some {| jwt_userId := "u-bob"; jwt_email := "bob@x.com";
                           jwt_role := "user" |})
       else if String.eqb token "token-root" then
         Returned (Some {| jwt_userId := "a-root"; jwt_email := "root@x.com";
                           jwt_role := "superadmin" |})
       else if String.eqb token "token-null" then Returned None
       else Thrown (JsError "JWSInvalid");
     createJWT_at := fun _ p => ("jwt." ++ jwt_userId p ++ "." ++ jwt_role p)%string |}.

Definition rand (n : nat) : string := ("r" ++ JsString.of_nat n)%string.

(** 2025-01-31T12:00:00.000Z *)
Definition jan31_noon : Z := (20119 * 86400000 + 12 * 3600000)%Z.

(** 2025-01-15T12:00:00.000Z *)
Definition jan15_noon : Z := (20103 * 86400000 + 12 * 3600000)%Z.

Definition alice : UserRow :=
  {| user_id := "u-alice"; user_email := "alice@x.com";
     user_password_hash := "s0$pw123456"; user_name := "Alice";
     user_role := RoleUser; user_plan := Starter; user_status := AccountActive;
     user_last_login := None |}.

Definition bob : UserRow :=
  {| user_id := "u-bob"; user_email := "bob@x.com";
     user_password_hash := "s1$hunter22"; user_name := "Bob";
     user_role := RoleUser; user_plan := Pro; user_status := AccountActive;
     user_last_login := None |}.

Definition world (d : Db) (now : Z) : World :=
  {| w_db := d; w_now := now; w_rand := rand; w_next := 0 |}.

Definition two_users : Db := with_users [alice; bob] empty_db.

(** The world at noon of 31 January 2025 (UTC) with Alice and Bob
    registered and no subscription yet. *)
Definition start : World := world two_users jan31_noon.

(** The world after Bob activated Pro in [start]: his subscription r0 is
    Active. *)
Definition bob_active : World :=
  Eval vm_compute in
    snd (@Actions.activateSubscription binary tokens utc "token-bob" Pro start).

(** The world after Bob activated Expert (r0), cancelled it and activated
    Pro (r3). *)
Definition bob_second : World :=
  Eval vm_compute in
    snd (@Actions.activateSubscription binary tokens utc "token-bob" Pro
           (snd (@Actions.cancelSubscription binary tokens no_parser "token-bob" "r0"
                   (snd (@Actions.activateSubscription binary tokens utc
                           "token-bob" Expert start))))).

(** A package row with the given stored features. *)
Definition package_with_features (i : string) (stored : option string) : PackageRow :=
  {| package_id := i; package_name := i; package_description := None;
     package_price := 100%Z; package_currency := "USD";
     package_features := stored; package_active := true;
     package_display_order := 0%Z; package_created_by := None;
     package_created_at := 0%Z; package_updated_at := 0%Z |}.

End Example.

(** ** The JSON text of a list of strings *)

(** The tokens of the elements after the first: a comma before each. *)
Definition more_tokens (l : list string) : list JSON.token :=
  flat_map (fun s => [JSON.TComma; JSON.TStr s]) l.

(** Their text. *)
Definition more_text (l : list string) : string :=
  fold_right (fun s rest => ("," ++ JSON.quote s ++ rest)%string) "" l.

(** [data.features] of a new package as a list: [undefined] stores NULL,
    which reads back as no feature. *)
Definition features_given (data : DbAuth.CreatePackageData) : list string :=
  match DbAuth.cp_features data with
  | Some l => l
  | None => []
  end.

(** ** The order of the catalog *)

(** ORDER BY display_order ASC, created_at DESC: [a] may stand before
    [b]. *)
Definition catalog_order (a b : PackageRow) : Prop :=
  (package_display_order a < package_display_order b)%Z
  \/ (package_display_order a = package_display_order b
      /\ (package_created_at b <= package_created_at a)%Z).

(** The rows a listing selects. *)
Definition selected_packages (activeOnly : bool) (d : Db) : list PackageRow :=
  if activeOnly then filter package_active (packages d) else packages d.

(** A package row after an update with [data] at server time [now]: the
    fields that are present are replaced, [updated_at] is stamped, and
    an empty description is stored as NULL. *)
Definition patched_package (now : Z) (data : DbAuth.PackagePatch) (r : PackageRow)
  : PackageRow :=
  {| package_id := package_id r;
     package_name := match DbAuth.pp_name data with
                     | Some v => v
                     | None => package_name r
                     end;
     package_description := match DbAuth.pp_description data with
                            | Some v => DbAuth.or_null (Some v)
                            | None => package_description r
                            end;
     package_price := match DbAuth.pp_price data with
                      | Some v => v
                      | None => package_price r
                      end;
     package_currency := match DbAuth.pp_currency data with
                         | Some v => v
                         | None => package_currency r
                         end;
     package_features := match DbAuth.pp_features data with
                         | Some l => Some (JSON.stringify (JSON.of_strings l))
                         | None => package_features r
                         end;
     package_active := match DbAuth.pp_active data with
                       | Some v => v
                       | None => package_active r
                       end;
     package_display_order := match DbAuth.pp_display_order data with
                              | Some v => v
                              | None => package_display_order r
                              end;
     package_created_by := package_created_by r;
     package_created_at := package_created_at r;
     package_updated_at := now |}.

(** A patch that names no field. *)
Definition empty_package_patch (data : DbAuth.PackagePatch) : bool :=
  match DbAuth.pp_name data, DbAuth.pp_description data, DbAuth.pp_price data,
        DbAuth.pp_currency data, DbAuth.pp_features data, DbAuth.pp_active data,
        DbAuth.pp_display_order data with
  | None, None, None, None, None, None, None => true
  | _, _, _, _, _, _, _ => false
  end.

(** [packages]: PRIMARY KEY (id) and the unique name. *)
Definition packages_ok `{Collation} (t : list PackageRow) : bool :=
  distinct coll_eqb (map package_id t) && distinct coll_eqb (map package_name t).

(** The assignments [updatePackage] collects for [data], in its order. *)
Definition package_updates (data : DbAuth.PackagePatch) : list DbAuth.PackageAssign :=
  let updates := [] in
  let updates := DbAuth.push_if (DbAuth.pp_name data) DbAuth.SetPackageName updates in
  let updates := DbAuth.push_if (DbAuth.pp_description data)
                   (fun v => DbAuth.SetPackageDescription (DbAuth.or_null (Some v)))
                   updates in
  let updates := DbAuth.push_if (DbAuth.pp_price data) DbAuth.SetPackagePrice updates in
  let updates := DbAuth.push_if (DbAuth.pp_currency data) DbAuth.SetPackageCurrency
                   updates in
  let updates := DbAuth.push_if (DbAuth.pp_features data)
                   (fun l => DbAuth.SetPackageFeatures (JSON.stringify (JSON.of_strings l)))
                   updates in
  let updates := DbAuth.push_if (DbAuth.pp_active data) DbAuth.SetPackageActive updates in
  DbAuth.push_if (DbAuth.pp_display_order data) DbAuth.SetPackageDisplayOrder updates.

(** The table after UPDATE packages ... WHERE id = ? with [data]. *)
Definition packages_after_update `{Collation} (now : Z) (id : string)
           (data : DbAuth.PackagePatch) (t : list PackageRow) : list PackageRow :=
  map (fun r => if coll_eqb (package_id r) id then patched_package now data r else r) t.

(** ** Updates of an account *)

(** The assignments [updateUser] collects for [data], in its order. *)
Definition user_updates (data : UserPatch) : list UserAssign :=
  let updates := [] in
  let updates := DbAuth.push_if (patch_name data) SetName updates in
  let updates := DbAuth.push_if (patch_email data) SetEmail updates in
  let updates := DbAuth.push_if (patch_plan data) SetPlan updates in
  DbAuth.push_if (patch_status data) SetStatus updates.

(** An account row after an update with [data]: name, email, plan and
    status are replaced where the patch names them. *)
Definition patched_user (data : UserPatch) (r : UserRow) : UserRow :=
  {| user_id := user_id r;
     user_email := match patch_email data with Some v => v | None => user_email r end;
     user_password_hash := user_password_hash r;
     user_name := match patch_name data with Some v => v | None => user_name r end;
     user_role := user_role r;
     user_plan := match patch_plan data with Some v => v | None => user_plan r end;
     user_status := match patch_status data with Some v => v | None => user_status r end;
     user_last_login := user_last_login r |}.

Definition empty_user_patch (data : UserPatch) : bool :=
  match patch_name data, patch_email data, patch_plan data, patch_status data with
  | None, None, None, None => true
  | _, _, _, _ => false
  end.

(** What of an account no update of the profile may touch. *)
Definition user_identity (r : UserRow) : string * Role * string * option Z :=
  (user_id r, user_role r, user_password_hash r, user_last_login r).

(** What an audit entry records besides the reference to the acting
    user. *)
Definition audit_record (a : AuditRow)
  : string * string * option string * option string * option string * option string :=
  (audit_id a, audit_action a, audit_entity_type a, audit_entity_id a,
   audit_changes a, audit_ip_address a).

(** ** Who may act as an admin *)

(** The payload of an admin: role admin or superadmin. *)
Definition admin_payload (p : JwtPayload) : bool :=
  String.eqb (jwt_role p) "admin" || String.eqb (jwt_role p) "superadmin".

(** What [verifyJWT] makes of a token, or [None] when there is no
    token (the empty string) or [verifyJWT] throws. *)
Definition token_payload `{JwtLib} (w : World) (token : string) : option (option JwtPayload) :=
  if String.eqb token "" then None
  else match verifyJWT_at (w_now w) token with
       | Returned payload => Some payload
       | Thrown _ => None
       end.

(** The token is one that [verifyJWT] accepts with the role of an admin. *)
Definition admin_token `{JwtLib} (w : World) (token : string) : bool :=
  match token_payload w token with
  | Some (Some p) => admin_payload p
  | _ => false
  end.

(** The three ways in which the server actions turn a caller away. *)
Definition refusal (e : Exn) : Prop :=
  e = JsError "No token provided" \/ e = JsError "Invalid token"
  \/ e = JsError "Unauthorized or insufficient permissions".

(** ** What belongs to the other users *)

(** From [d] to [d'] nothing changed for anybody but user [u]: the
    accounts and the subscriptions of the others are the same rows in the
    same order, and so are the tables that hold nothing of [u]'s. *)
Definition others_untouched `{Collation} (u : string) (d d' : Db) : Prop :=
  filter (fun r => negb (coll_eqb (user_id r) u)) (users d')
  = filter (fun r => negb (coll_eqb (user_id r) u)) (users d)
  /\ filter (fun s => negb (coll_eqb (sub_user_id s) u)) (subscriptions d')
     = filter (fun s => negb (coll_eqb (sub_user_id s) u)) (subscriptions d)
  /\ admins d' = admins d
  /\ user_sessions d' = user_sessions d
  /\ packages d' = packages d.

(** ** Requests that carry a bearer token *)

Definition bearer (token : string) : option string := Some ("Bearer " ++ token)%string.

(** The Active subscription that goes out with the profile of user
    [u]. *)
Definition active_subscription `{Collation} (u : string) (d : Db) : option Subscription :=
  option_map DbAuth.subscription_of_row (hd_error (active_rows u (subscriptions d))).

(** ** A login that succeeds *)

(** The body of the 200 response for an account and a token. *)
Definition login_body (account : AdminLogin.LoginUser) (token : string) : AdminLogin.Body :=
  AdminLogin.LoginBody (AdminLogin.lu_id account) (AdminLogin.lu_email account)
    (AdminLogin.lu_name account) (AdminLogin.lu_role account)
    (AdminLogin.lu_plan account) (AdminLogin.lu_status account) token.

(** The payload the route signs for an account. *)
Definition login_payload (account : AdminLogin.LoginUser) : JwtPayload :=
  {| jwt_userId := AdminLogin.lu_id account;
     jwt_email := AdminLogin.lu_email account;
     jwt_role := Role_name (AdminLogin.lu_role account) |}.

(** A request with the two fields of the body. *)
Definition login_request (e p : string) : AdminLogin.Request :=
  {| AdminLogin.body_email := Some e; AdminLogin.body_password := AdminLogin.Text p;
     AdminLogin.x_forwarded_for := None |}.

(** An account row without its last login. *)
Definition user_account (r : UserRow) : User * string :=
  (user_public r, user_password_hash r).

(** ** A change of password *)

(** The [users] table after UPDATE users SET password_hash = [h] WHERE
    id = [uid]. *)
Definition users_with_hash `{Collation} (uid h : string) (t : list UserRow) : list UserRow :=
  map (fun r => if coll_eqb (user_id r) uid then assign_user r (SetPasswordHash h) else r) t.

(** What [changeAdminPassword] reports. *)
Definition password_changed : Actions.ActionResult :=
  {| Actions.success := true; Actions.message := "Password changed successfully" |}.

(** ** The admin of the script *)

(** The row that [create-admin] sends to [admins]. *)
Definition script_admin_row `{Bcrypt} (w : World) (e pw name : string) : AdminRow :=
  {| admin_id := w_rand w (w_next w); admin_email := e;
     admin_password_hash := bcrypt_hash pw (w_rand w (S (w_next w))) 10;
     admin_name := name; admin_role := RoleSuperadmin;
     admin_status := AccountActive; admin_last_login := None |}.

(** The row that it sends to [users] when no separate table is asked
    for. *)
Definition script_user_row `{Bcrypt} (w : World) (e pw name : string) : UserRow :=
  {| user_id := w_rand w (w_next w); user_email := e;
     user_password_hash := bcrypt_hash pw (w_rand w (S (w_next w))) 10;
     user_name := name; user_role := RoleAdmin; user_plan := Pro;
     user_status := AccountActive; user_last_login := None |}.


(** [process.env.ADMIN_NAME || 'Admin'] *)
Definition script_admin_name (env : CreateAdminScript.Env) : string :=
  match DbAuth.or_null (CreateAdminScript.ADMIN_NAME env) with
  | Some n => n
  | None => "Admin"
  end.

(** ** Audit records that the table takes

    The values of an audit record fit their columns: [action] is
    VARCHAR(100), [entity_type] VARCHAR(50), [entity_id] VARCHAR(255) and
    [ip_address] VARCHAR(45). *)
Definition fits_or_null (n : nat) (v : option string) : bool :=
  match DbAuth.or_null v with
  | Some s => Nat.leb (char_length s) n
  | None => true
  end.

Definition audit_data_fits (data : DbAuth.AuditData) : bool :=
  Nat.leb (char_length (DbAuth.ad_action data)) 100
  && fits_or_null 50 (DbAuth.ad_entityType data)
  && fits_or_null 255 (DbAuth.ad_entityId data)
  && address_fits (DbAuth.ad_ipAddress data).

(** ** Every operation of the application

    The calls of [Call] and, with them, the operations of the data layer
    and the server actions that write to the database and are not among
    them.  The script that creates an admin is a tool of the installation
    and is not an operation of the application.  [updateSessionActivity],
    the site settings and the images of the landing page write to a column
    and to tables that [Db] does not hold. *)

Section Operations.
Context `{Collation} `{Bcrypt} `{JwtLib} `{JsDate.HostTimeZone} `{JsDate.DateParser}.

Inductive Operation : Type :=
| OfCall (c : Call)
| OpCreateSession (userId sessionToken : string) (expiresAt : Z)
                  (userAgent ipAddress : option string)
| OpUpdateUserPassword (id newPassword : string)
| OpUpdateLastLogin (id : string)
| OpUpdatePackage (id : string) (data : DbAuth.PackagePatch)
| OpDeletePackage (id : string)
| OpUpdatePackageDisplayOrder (id : string) (order : Z)
| OpCreatePackageAction (token : string) (data : DbAuth.CreatePackageData)
| OpUpdatePackageAction (token packageId : string) (data : DbAuth.PackagePatch)
| OpDeletePackageAction (token packageId : string).

(** The world an operation leaves behind, whether it returned or threw. *)
Definition run (o : Operation) (w : World) : World :=
  match o with
  | OfCall c => perform c w
  | OpCreateSession userId sessionToken expiresAt userAgent ipAddress =>
      snd (DbAuth.createSession userId sessionToken expiresAt userAgent ipAddress w)
  | OpUpdateUserPassword id newPassword =>
      snd (DbAuth.updateUserPassword id newPassword w)
  | OpUpdateLastLogin id => snd (DbAuth.updateLastLogin id w)
  | OpUpdatePackage id data => snd (DbAuth.updatePackage id data w)
  | OpDeletePackage id => snd (DbAuth.deletePackage id w)
  | OpUpdatePackageDisplayOrder id order =>
      snd (DbAuth.updatePackageDisplayOrder id order w)
  | OpCreatePackageAction token data => snd (Actions.createPackageAction token data w)
  | OpUpdatePackageAction token packageId data =>
      snd (Actions.updatePackageAction token packageId data w)
  | OpDeletePackageAction token packageId =>
      snd (Actions.deletePackageAction token packageId w)
  end.

End Operations.

(** ** Conditions that hold of the database throughout *)

Section Conditions.
Context `{Collation}.

(** Every subscription and every session belongs to an account that
    exists: the two foreign keys on [users(id)]. *)
Definition references_ok (d : Db) : Prop :=
  (forall s, In s (subscriptions d) ->
             id_taken (sub_user_id s) (map user_id (users d)) = true)
  /\ (forall s, In s (user_sessions d) ->
                id_taken (session_user_id s) (map user_id (users d)) = true).

(** The primary keys and the unique keys of [users], [subscriptions],
    [user_sessions] and [packages]. *)
Definition keys_ok (d : Db) : Prop :=
  users_ok (users d) = true
  /\ subscriptions_ok (subscriptions d) = true
  /\ distinct coll_eqb (map session_id (user_sessions d)) = true
  /\ sessions_ok (user_sessions d) = true
  /\ packages_ok (packages d) = true.

(** Every account of [d] that is not an ordinary user was one already in
    [d0], under the same id and with the same role. *)
Definition no_new_admin (d0 d : Db) : Prop :=
  forall r, In r (users d) -> user_role r <> RoleUser ->
            exists r0, In r0 (users d0) /\ user_id r0 = user_id r
                       /\ user_role r0 = user_role r.

(** The accounts of [admins] are those of [d0], up to the time of the
    last login. *)
Definition same_admins (d0 d : Db) : Prop :=
  map AdminLogin.of_admin (admins d) = map AdminLogin.of_admin (admins d0).

End Conditions.

(** ** The renewal date, as the code computes it *)

(** The local time of the renewal for a creation at local time [lt]:
    the creation time plus the length of the month it falls in. *)
Definition plus_month_length (lt : Z) : Z :=
  (lt + JsDate.DaysInMonth (JsDate.YearFromTime lt) (JsDate.MonthFromTime lt)
        * JsDate.msPerDay)%Z.

(** The instants that a TIMESTAMP column holds, in milliseconds: from
    1970-01-01 00:00:01 to 2038-01-19 03:14:07 (UTC). *)
Definition in_timestamp_range (t : Z) : Prop :=
  (1000 <= t < 2147483648000)%Z.

(** The subscription row of a new Active subscription. *)
Definition new_subscription_row (w : World) (u : string) (p : Plan) (renewal : string)
  : SubscriptionRow :=
  {| sub_id := w_rand w (w_next w); sub_user_id := u; sub_plan := p;
     sub_status := Active; sub_renewal_date := Some renewal;
     sub_start_date := (w_now w / 1000)%Z |}.

(** ** A small installation to run the model on *)
Module Sample.

(** An admin whose account is a row of [users]. *)
Definition carol : UserRow :=
  {| user_id := "u-carol"; user_email := "carol@x.com";
     user_password_hash := "s2$carol-pw1"; user_name := "Carol";
     user_role := RoleAdmin; user_plan := Pro; user_status := AccountActive;
     user_last_login := None |}.

(** A superadmin of the separate table, suspended. *)
Definition root : AdminRow :=
  {| admin_id := "a-root"; admin_email := "root@x.com";
     admin_password_hash := "s9$root-pw1"; admin_name := "Root";
     admin_role := RoleSuperadmin; admin_status := AccountSuspended;
     admin_last_login := None |}.

(** The tokens of [Example.tokens] and one for Carol. *)
Definition tokens : JwtLib :=
  {| verifyJWT_at := fun now token =>
       if String.eqb token "token-carol" then
         Returned (Some {| jwt_userId := "u-carol"; jwt_email := "carol@x.com";
                           jwt_role := "admin" |})
       else @verifyJWT_at Example.tokens now token;
     createJWT_at := @createJWT_at Example.tokens |}.

(** 2025-01-31T12:00:00Z in seconds. *)
Definition now_seconds : Z := (Example.jan31_noon / 1000)%Z.

Definition bob_subscription : SubscriptionRow :=
  {| sub_id := "s-bob"; sub_user_id := "u-bob"; sub_plan := Pro; sub_status := Active;
     sub_renewal_date := Some "2025-02-20 09:00:00"; sub_start_date := 1737363600%Z |}.

(** A session of Alice that is good for another hour and one of Bob
    that expired an hour ago. *)
Definition alice_session : SessionRow :=
  {| session_id := "s-1"; session_user_id := "u-alice"; session_token := "tok-1";
     session_user_agent := Some "Firefox"; session_ip_address := None;
     session_expires_at := Some (now_seconds + 3600)%Z |}.

Definition bob_session : SessionRow :=
  {| session_id := "s-2"; session_user_id := "u-bob"; session_token := "tok-2";
     session_user_agent := None; session_ip_address := Some "10.0.0.7";
     session_expires_at := Some (now_seconds - 3600)%Z |}.

Definition desktop : PackageRow :=
  {| package_id := "p-1"; package_name := "Desktop"; package_description := None;
     package_price := 4999%Z; package_currency := "USD";
     package_features := Some (JSON.stringify (JSON.of_strings ["DIY"; "Local Execution"]));
     package_active := true; package_display_order := 1%Z;
     package_created_by := None;
     package_created_at := 1700000000%Z; package_updated_at := 1700000000%Z |}.

Definition server : PackageRow :=
  {| package_id := "p-2"; package_name := "Server"; package_description := Some "Hosted";
     package_price := 5999%Z; package_currency := "USD";
     package_features := None;
     package_active := false; package_display_order := 0%Z;
     package_created_by := None;
     package_created_at := 1700000500%Z; package_updated_at := 1700000500%Z |}.

Definition db : Db :=
  {| users := [Example.alice; Example.bob; carol];
     admins := [root];
     subscriptions := [bob_subscription];
     user_sessions := [alice_session; bob_session];
     audit_logs := [];
     packages := [desktop; server] |}.

(** The installation at noon of 31 January 2025 (UTC). *)
Definition world : World := Example.world db Example.jan31_noon.

(** A feature list with a quote, a backslash and a line break in it. *)
Definition awkward_features : list string :=
  [String JSON.dquote "quoted"; "back\slash"; String (ascii_of_nat 10) "line"; "₹ 4999"].

End Sample.

(** * Properties *)

(** ** Keys *)

Section KeyLemmas.
Variable K : Type.
Variable eqb : K -> K -> bool.
Hypothesis eqb_sym : forall a b, eqb a b = eqb b a.

Lemma existsb_app_single (p : K -> bool) (l : list K) (x : K) :
  existsb p (l ++ [x]) = existsb p l || p x.
Proof. rewrite existsb_app. simpl. now rewrite orb_false_r. Qed.

Lemma distinct_snoc (l : list K) (x : K) :
  distinct eqb (l ++ [x]) = distinct eqb l && negb (existsb (eqb x) l).
Proof.
  induction l as [|k l IH]; simpl.
  - reflexivity.
  - rewrite IH, existsb_app_single, (eqb_sym x k).
    destruct (existsb (eqb k) l), (eqb k x), (distinct eqb l),
      (existsb (eqb x) l); reflexivity.
Qed.

Lemma distinct_tail (k : K) (l : list K) :
  distinct eqb (k :: l) = true -> distinct eqb l = true.
Proof. simpl. intros E. apply andb_prop in E. tauto. Qed.
End KeyLemmas.

Arguments existsb_app_single {K} p l x.
Arguments distinct_snoc {K} eqb eqb_sym l x.
Arguments distinct_tail {K} eqb k l _.

Lemma existsb_map {A B} (p : B -> bool) (f : A -> B) (l : list A) :
  existsb p (map f l) = existsb (fun a => p (f a)) l.
Proof. induction l as [|a l IH]; simpl; [reflexivity | now rewrite IH]. Qed.

Lemma existsb_false_filter {A} (p : A -> bool) (l : list A) :
  existsb p l = false -> filter p l = [].
Proof.
  induction l as [|a l IH]; simpl; [reflexivity|].
  destruct (p a); simpl; [discriminate | exact IH].
Qed.


Section CollationLemmas.
Context `{Collation}.

Lemma coll_eqb_congr (a b c : string) :
  coll_eqb a b = true -> coll_eqb a c = coll_eqb b c.
Proof.
  intros Hab. destruct (coll_eqb b c) eqn:Hbc.
  - now apply coll_trans with b.
  - destruct (coll_eqb a c) eqn:Hac; [|reflexivity].
    rewrite <- Hbc. symmetry. apply coll_trans with a; [|exact Hac].
    now rewrite coll_sym.
Qed.

Lemma sub_key_eqb_sym (a b : string * SubscriptionStatus) :
  sub_key_eqb a b = sub_key_eqb b a.
Proof.
  unfold sub_key_eqb. rewrite (coll_sym (fst a) (fst b)).
  destruct (snd a), (snd b); reflexivity.
Qed.

(** Under a unique key at most one row carries a given key value. *)
Lemma distinct_filter_le_1 {R} (key : R -> string) (t : list R) (k : string) :
  distinct coll_eqb (map key t) = true ->
  List.length (filter (fun r => coll_eqb (key r) k) t) <= 1.
Proof.
  induction t as [|r t IH]; simpl; intros D; [lia|].
  apply andb_prop in D. destruct D as [Hr D].
  destruct (coll_eqb (key r) k) eqn:E; simpl; [|now apply IH].
  rewrite existsb_false_filter; [simpl; lia|].
  apply negb_true_iff in Hr. rewrite existsb_map in Hr.
  rewrite <- Hr. clear IH D Hr. rewrite coll_sym in E.
  induction t as [|r' t IH]; simpl; [reflexivity|].
  rewrite IH. f_equal. rewrite (coll_sym (key r') k).
  apply (coll_eqb_congr _ _ _ E).
Qed.

End CollationLemmas.

(** ** Column widths *)

Lemma keep_chars_fits (s : string) (n : nat) :
  char_length s <= n -> keep_chars n s = s.
Proof.
  revert n. induction s as [|c s IH]; intros n; cbn [char_length keep_chars];
    [reflexivity|].
  destruct (is_continuation c); intros Hn.
  - now rewrite (IH n).
  - destruct n as [|m]; [lia|]. rewrite (IH m); [reflexivity | lia].
Qed.

Lemma skip_chars_fits (s : string) (n : nat) :
  char_length s <= n -> skip_chars n s = "".
Proof.
  revert n. induction s as [|c s IH]; intros n; cbn [char_length skip_chars];
    [reflexivity|].
  destruct (is_continuation c); intros Hn.
  - now apply IH.
  - destruct n as [|m]; [lia|]. apply IH. lia.
Qed.

(** A value within the width is stored as it is. *)
Lemma varchar_fits (s : string) (n : nat) :
  char_length s <= n -> varchar n s = Some s.
Proof.
  intros Hn. unfold varchar.
  now rewrite (skip_chars_fits s n Hn), (keep_chars_fits s n Hn).
Qed.

Lemma varchar_or_null_fits (v : option string) :
  address_fits v = true ->
  varchar_or_null 45 (DbAuth.or_null v) = Some (DbAuth.or_null v).
Proof.
  unfold address_fits. destruct (DbAuth.or_null v) as [s|]; [|reflexivity].
  intros Hs. apply Nat.leb_le in Hs. cbn [varchar_or_null].
  now rewrite (varchar_fits s 45 Hs).
Qed.

(** ** How the data layer runs *)

Section Runs.
Context `{Collation} `{Bcrypt}.

Lemma ltb_length_filter {A} (p : A -> bool) (l : list A) :
  Nat.ltb 0 (List.length (filter p l)) = existsb p l.
Proof.
  induction l as [|a l IH]; simpl; [reflexivity|].
  destruct (p a); simpl; [reflexivity | exact IH].
Qed.

Lemma existsb_key_sym {R} (key : R -> string) (k : string) (t : list R) :
  existsb (coll_eqb k) (map key t) = existsb (fun r => coll_eqb (key r) k) t.
Proof.
  rewrite existsb_map. induction t as [|r t IH]; simpl; [reflexivity|].
  now rewrite IH, coll_sym.
Qed.

(** With an address that fits its column and an id that is not yet in
    [audit_logs], [logAuditAction] appends its entry and returns. *)
Lemma logAuditAction_run (w : World) (data : DbAuth.AuditData) :
  address_fits (DbAuth.ad_ipAddress data) = true ->
  id_taken (w_rand w (w_next w)) (map audit_id (audit_logs (w_db w))) = false ->
  DbAuth.logAuditAction data w
  = (Returned tt,
     with_db (with_audit_logs
                (audit_logs (w_db w)
                 ++ [new_audit_row (w_rand w (w_next w)) (w_db w) data])
                (w_db w))
             (after_draws 1 w)).
Proof.
  intros Hip Hid. unfold id_taken in Hid.
  unfold DbAuth.logAuditAction, DbAuth.insert_audit_logs, DbAuth.select_users_by_id,
    new_audit_row, randomUUID, random_draw, try_catch, get_db, bind, ret.
  cbn [audit_ip_address audit_id audit_user_id audit_action audit_entity_type
       audit_entity_id audit_changes w_db w_rand w_next w_now fst snd].
  rewrite (varchar_or_null_fits _ Hip).
  destruct (DbAuth.or_null (DbAuth.ad_userId data)) as [u|]; simpl.
  - rewrite ltb_length_filter.
    destruct (existsb (fun r => coll_eqb (user_id r) u) (users (w_db w))) eqn:E;
      simpl; rewrite Hid; simpl.
    + rewrite existsb_key_sym, E. reflexivity.
    + reflexivity.
  - rewrite Hid. reflexivity.
Qed.

(** An address beyond the width of its column stops the entry: the
    INSERT is refused and nothing is written. *)
Lemma logAuditAction_refused (w : World) (data : DbAuth.AuditData) :
  varchar_or_null 45 (DbAuth.or_null (DbAuth.ad_ipAddress data)) = None ->
  DbAuth.logAuditAction data w
  = (Thrown (MysqlError ER_DATA_TOO_LONG "ip_address"), after_draws 1 w).
Proof.
  intros Hip.
  unfold DbAuth.logAuditAction, DbAuth.insert_audit_logs, DbAuth.select_users_by_id,
    randomUUID, random_draw, try_catch, get_db, bind, ret.
  destruct (DbAuth.or_null (DbAuth.ad_userId data)) as [u|]; simpl.
  - destruct (Nat.ltb 0 _); simpl; rewrite Hip; reflexivity.
  - rewrite Hip. reflexivity.
Qed.

(** Whatever happens, [logAuditAction] touches [audit_logs] only. *)
Lemma logAuditAction_frame (w : World) (data : DbAuth.AuditData) :
  let d' := w_db (snd (DbAuth.logAuditAction data w)) in
  users d' = users (w_db w) /\ admins d' = admins (w_db w)
  /\ subscriptions d' = subscriptions (w_db w)
  /\ user_sessions d' = user_sessions (w_db w)
  /\ packages d' = packages (w_db w).
Proof.
  unfold DbAuth.logAuditAction, DbAuth.insert_audit_logs, DbAuth.select_users_by_id,
    randomUUID, random_draw, try_catch, get_db, bind, ret.
  simpl. destruct (DbAuth.or_null (DbAuth.ad_userId data)) as [u|]; simpl.
  - destruct (Nat.ltb 0 _); simpl;
      destruct (varchar_or_null 45 _); simpl;
      repeat match goal with
             | |- context [if ?c then _ else _] => destruct c; simpl
             end; repeat split; reflexivity.
  - destruct (varchar_or_null 45 _); simpl;
      repeat match goal with
             | |- context [if ?c then _ else _] => destruct c; simpl
             end; repeat split; reflexivity.
Qed.

Lemma createPackage_run (w : World) (data : DbAuth.CreatePackageData) :
  DbAuth.createPackage data w =
  if id_taken (w_rand w (w_next w)) (map package_id (packages (w_db w)))
     || id_taken (DbAuth.cp_name data) (map package_name (packages (w_db w)))
  then (Thrown (JsError ("Package " ++ String JSON.dquote (DbAuth.cp_name data)
                         ++ String JSON.dquote " already exists")),
        after_draws 1 w)
  else (Returned (new_package (w_rand w (w_next w)) (w_now w) data),
        with_db (with_packages
                   (packages (w_db w)
                    ++ [new_package_row (w_rand w (w_next w)) (w_now w / 1000) data])
                   (w_db w))
                (after_draws 1 w)).
Proof.
  unfold DbAuth.createPackage, DbAuth.insert_packages, randomUUID, random_draw,
    NOW, Date_now, try_catch, bind, ret, throw, id_taken, new_package,
    new_package_row. simpl.
  destruct (existsb (coll_eqb (w_rand w (w_next w)))
                    (map package_id (packages (w_db w)))); simpl; [reflexivity|].
  destruct (existsb (coll_eqb (DbAuth.cp_name data))
                    (map package_name (packages (w_db w)))); reflexivity.
Qed.

End Runs.

(** ** Accounts *)

Section Accounts.
Context `{Collation} `{Bcrypt}.

Lemma createUser_run (w : World) (data : CreateUserData) :
  DbAuth.createUser data w =
  if id_taken (w_rand w (w_next w)) (map user_id (users (w_db w)))
     || email_taken (cu_email data) (users (w_db w))
  then (Thrown (JsError "Email already exists"), after_draws 2 w)
  else (Returned (user_public (new_user_row w data)),
        with_db (with_users (users (w_db w) ++ [new_user_row w data]) (w_db w))
                (after_draws 2 w)).
Proof.
  unfold DbAuth.createUser, DbAuth.hashPassword, DbAuth.insert_users, randomUUID,
    random_draw, try_catch, bind, ret, throw, id_taken, email_taken. simpl.
  destruct (existsb (coll_eqb (w_rand w (w_next w))) (map user_id (users (w_db w))));
    simpl; [reflexivity|].
  destruct (existsb (coll_eqb (cu_email data)) (map user_email (users (w_db w))));
    reflexivity.
Qed.




End Accounts.



(** ** Passwords and sessions *)

Section PasswordAndSession.
Context `{Collation} `{Bcrypt}.

Lemma map_email_update (c : UserRow -> bool) (f : UserRow -> UserRow)
      (t : list UserRow) :
  (forall r, user_email (f r) = user_email r) ->
  map user_email (map (fun r => if c r then f r else r) t) = map user_email t.
Proof.
  intros Hf. induction t as [|r t IH]; simpl; [reflexivity|]. rewrite IH. f_equal.
  destruct (c r); [apply Hf | reflexivity].
Qed.

Lemma length_pos_not_empty (s : string) : 0 < JsString.length s -> String.eqb s "" = false.
Proof. destruct s; [cbn; lia | reflexivity]. Qed.

(** C5.  [updatePassword] throws "Password must be at least 6
    characters" and leaves the world as it was when the new password has
    fewer than 6 characters (the empty one included), counted as
    [newPassword.length] counts them; with 6 characters or more it
    returns, and the rows of [users] with that id carry the bcrypt hash of
    the new password while every other row is as before. *)
Theorem updatePassword_min_length (w : World) (userId newPassword : string) :
  users_ok (users (w_db w)) = true ->
  (JsString.length newPassword < 6 ->
   DbAuth.updatePassword userId newPassword w
   = (Thrown (JsError "Password must be at least 6 characters"), w))
  /\
  (6 <= JsString.length newPassword ->
   fst (DbAuth.updatePassword userId newPassword w) = Returned tt
   /\ users (w_db (snd (DbAuth.updatePassword userId newPassword w)))
      = map (fun r => if coll_eqb (user_id r) userId
                      then assign_user r
                             (SetPasswordHash
                                (bcrypt_hash newPassword (w_rand w (w_next w))
                                             DbAuth.BCRYPT_ROUNDS))
                      else r)
            (users (w_db w))).
Proof.
  intros Hok. apply andb_prop in Hok. destruct Hok as [_ Hemail].
  unfold DbAuth.updatePassword. split; intros Hlen.
  - apply Nat.ltb_lt in Hlen. rewrite Hlen, orb_true_r. reflexivity.
  - assert (Hlt : Nat.ltb (JsString.length newPassword) 6 = false)
      by (apply Nat.ltb_ge; exact Hlen).
    assert (Hne : String.eqb newPassword "" = false)
      by (apply length_pos_not_empty; lia).
    rewrite Hlt, Hne. simpl.
    unfold DbAuth.hashPassword, DbAuth.update_users, random_draw, bind, ret. simpl.
    rewrite map_email_update by reflexivity. rewrite Hemail. simpl.
    split; reflexivity.
Qed.

(** Under the unique index on a column, two rows of the table that agree
    on it are one row. *)
Lemma distinct_key_inj {R} (key : R -> string) (t : list R) (r s : R) :
  distinct coll_eqb (map key t) = true ->
  In r t -> In s t -> coll_eqb (key r) (key s) = true -> r = s.
Proof.
  induction t as [|x t IH]; simpl; [tauto|]. intros D Hr Hs E.
  apply andb_prop in D. destruct D as [Hx D]. apply negb_true_iff in Hx.
  rewrite existsb_map in Hx.
  assert (Hnot : forall y, In y t -> coll_eqb (key x) (key y) = false).
  { intros y Hy. destruct (coll_eqb (key x) (key y)) eqn:Exy; [|reflexivity].
    rewrite <- Hx. symmetry. apply existsb_exists. now exists y. }
  destruct Hr as [<-|Hr], Hs as [<-|Hs].
  - reflexivity.
  - rewrite (Hnot _ Hs) in E. discriminate.
  - rewrite coll_sym, (Hnot _ Hr) in E. discriminate.
  - now apply IH.
Qed.

Lemma filter_all_false {A} (p : A -> bool) (l : list A) :
  (forall x, In x l -> p x = false) -> filter p l = [].
Proof.
  induction l as [|a l IH]; simpl; intros Hall; [reflexivity|].
  rewrite (Hall a (or_introl eq_refl)). apply IH. intros x Hx. apply Hall. now right.
Qed.

(** C3.  A stored session whose [expires_at] is at or before the
    server's current time is not returned by [getSessionByToken]: the
    lookup under its token gives [null] although the row is still in
    [user_sessions]; and whatever session a lookup does return expires
    strictly later than now. *)
Theorem getSessionByToken_expired (w : World) :
  (forall (s : SessionRow) (e : Z),
      sessions_ok (user_sessions (w_db w)) = true ->
      In s (user_sessions (w_db w)) ->
      session_expires_at s = Some e ->
      (e <= w_now w / 1000)%Z ->
      DbAuth.getSessionByToken (session_token s) w = (Returned None, w)
      /\ In s (user_sessions (w_db (snd (DbAuth.getSessionByToken (session_token s) w)))))
  /\
  (forall (token : string) (info : DbAuth.SessionInfo),
      fst (DbAuth.getSessionByToken token w) = Returned (Some info) ->
      exists e, DbAuth.info_expires_at info = Some e /\ (w_now w / 1000 < e)%Z).
Proof.
  split.
  - intros s e Hok Hin He Hle.
    unfold DbAuth.getSessionByToken, get_db, NOW, bind, ret. simpl.
    rewrite filter_all_false; [split; [reflexivity | exact Hin]|].
    intros r Hr. destruct (coll_eqb (session_token r) (session_token s)) eqn:E;
      [|reflexivity].
    assert (r = s) by (apply (distinct_key_inj session_token _ _ _ Hok Hr Hin E)).
    subst r. unfold DbAuth.not_expired. rewrite He. simpl. apply Z.ltb_ge. exact Hle.
  - intros token info. unfold DbAuth.getSessionByToken, get_db, NOW, bind, ret. simpl.
    destruct (filter _ (user_sessions (w_db w))) as [|r rest] eqn:F; simpl;
      [discriminate|].
    intros E. inversion E; subst info; clear E. simpl.
    assert (Hr : In r (filter (fun r0 => coll_eqb (session_token r0) token
                                         && DbAuth.not_expired (w_now w / 1000) r0)
                              (user_sessions (w_db w))))
      by (rewrite F; now left).
    apply filter_In in Hr. destruct Hr as [_ Hr]. apply andb_prop in Hr.
    destruct Hr as [_ Hr]. unfold DbAuth.not_expired in Hr.
    destruct (session_expires_at r) as [e|]; [|discriminate].
    exists e. split; [reflexivity | now apply Z.ltb_lt].
Qed.

End PasswordAndSession.

(** Alice's password: five characters are refused, also when each of
    them takes two bytes; six are stored, and so are eight. *)
Lemma updatePassword_min_length_witness :
  let w := Example.world Example.two_users 0%Z in
  (@DbAuth.updatePassword binary Example.plain_bcrypt "u-alice" "short" w
   = (Thrown (JsError "Password must be at least 6 characters"), w)
   /\ @DbAuth.updatePassword binary Example.plain_bcrypt "u-alice" "ééééé" w
      = (Thrown (JsError "Password must be at least 6 characters"), w))
  /\ (fst (@DbAuth.updatePassword binary Example.plain_bcrypt "u-alice" "éééééé" w)
      = Returned tt
      /\ map user_password_hash
           (users (w_db (snd (@DbAuth.updatePassword binary Example.plain_bcrypt
                                "u-alice" "longer-1" w))))
         = ["r0$longer-1"; "s1$hunter22"]).
Proof.
  intros w.
  destruct (@updatePassword_min_length binary Example.plain_bcrypt w "u-alice" "short"
              eq_refl) as [Hshort _].
  destruct (@updatePassword_min_length binary Example.plain_bcrypt w "u-alice" "ééééé"
              eq_refl) as [Haccented _].
  destruct (@updatePassword_min_length binary Example.plain_bcrypt w "u-alice" "éééééé"
              eq_refl) as [_ Hsix].
  destruct (@updatePassword_min_length binary Example.plain_bcrypt w "u-alice" "longer-1"
              eq_refl) as [_ Hlong].
  split; [split|split].
  - apply Hshort. vm_compute. lia.
  - apply Haccented. vm_compute. lia.
  - destruct Hsix as [E _]; [vm_compute; lia | exact E].
  - destruct Hlong as [_ E]; [vm_compute; lia|]. rewrite E. reflexivity.
Defined.

(** A session that expired at second 100, looked up at second 100. *)
Lemma getSessionByToken_expired_witness :
  let s := {| session_id := "s1"; session_user_id := "u-alice";
              session_token := "tok-1"; session_user_agent := None;
              session_ip_address := None; session_expires_at := Some 100%Z |} in
  let d := {| users := [Example.alice]; admins := []; subscriptions := [];
              user_sessions := [s]; audit_logs := []; packages := [] |} in
  let w := Example.world d 100000%Z in
  @DbAuth.getSessionByToken binary "tok-1" w = (Returned None, w)
  /\ In s (user_sessions (w_db w)).
Proof.
  intros s d w.
  destruct (proj1 (@getSessionByToken_expired binary w) s 100%Z eq_refl
              (or_introl eq_refl) eq_refl) as [E Hin].
  - vm_compute. discriminate.
  - split; [exact E | exact Hin].
Defined.

(** ** Packages *)

Section Packages.
Context `{Collation}.

Lemma order_insert_In (x y : PackageRow) (l : list PackageRow) :
  In x (DbAuth.order_insert y l) <-> x = y \/ In x l.
Proof.
  induction l as [|z l IH]; simpl.
  - intuition congruence.
  - destruct (DbAuth.listed_before y z); simpl; rewrite ?IH; intuition congruence.
Qed.

Lemma order_by_display_In (x : PackageRow) (l : list PackageRow) :
  In x (DbAuth.order_by_display l) <-> In x l.
Proof.
  induction l as [|y l IH]; simpl; [tauto|].
  rewrite order_insert_In, IH. intuition congruence.
Qed.

Lemma order_insert_length (y : PackageRow) (l : list PackageRow) :
  List.length (DbAuth.order_insert y l) = S (List.length l).
Proof.
  induction l as [|z l IH]; simpl; [reflexivity|].
  destruct (DbAuth.listed_before y z); simpl; [reflexivity | now rewrite IH].
Qed.

Lemma order_by_display_length (l : list PackageRow) :
  List.length (DbAuth.order_by_display l) = List.length l.
Proof.
  induction l as [|y l IH]; simpl; [reflexivity|].
  now rewrite order_insert_length, IH.
Qed.

(** What the reading block makes of a stored value. *)
Lemma read_features_cases (stored : option string) :
  (forall raw, stored = Some raw -> raw <> "" -> JSON.parse raw = None ->
               DbAuth.read_features stored = JSON.JArr [JSON.JStr raw])
  /\ (forall raw v, stored = Some raw -> raw <> "" -> JSON.parse raw = Some v ->
                    DbAuth.read_features stored = v)
  /\ (stored = Some "" \/ stored = None -> DbAuth.read_features stored = JSON.JArr []).
Proof.
  unfold DbAuth.read_features, DbAuth.or_null. repeat split.
  - intros raw -> Hne Hbad. destruct (String.eqb_spec raw ""); [contradiction|].
    now rewrite Hbad.
  - intros raw v -> Hne Hgood. destruct (String.eqb_spec raw ""); [contradiction|].
    now rewrite Hgood.
  - intros [->| ->]; reflexivity.
Qed.

(** C9 (amended).  [getAllPackages] and [getPackageById] always return.
    Every stored package that the query selects comes back, and when its
    stored features text is not empty and not valid JSON the feature list
    returned for it is the one-element list holding that text; an empty
    stored text (or NULL) gives the empty list. *)
Theorem malformed_features_fallback (w : World) :
  (forall activeOnly : bool,
      exists l, DbAuth.getAllPackages activeOnly w = (Returned l, w)
      /\ forall row,
          In row (packages (w_db w)) ->
          (activeOnly = true -> package_active row = true) ->
          exists p, In p l /\ DbAuth.pkg_id p = package_id row
            /\ (forall raw, package_features row = Some raw -> raw <> "" ->
                            JSON.parse raw = None ->
                            DbAuth.pkg_features p = Some (JSON.JArr [JSON.JStr raw]))
            /\ (package_features row = Some "" \/ package_features row = None ->
                DbAuth.pkg_features p = Some (JSON.JArr [])))
  /\
  (forall id : string,
      exists o, DbAuth.getPackageById id w = (Returned o, w)
      /\ ((exists row, In row (packages (w_db w)) /\ coll_eqb (package_id row) id = true)
          -> o <> None)
      /\ forall p, o = Some p ->
          exists row, In row (packages (w_db w))
            /\ coll_eqb (package_id row) id = true
            /\ DbAuth.pkg_id p = package_id row
            /\ (forall raw, package_features row = Some raw -> raw <> "" ->
                            JSON.parse raw = None ->
                            DbAuth.pkg_features p = Some (JSON.JArr [JSON.JStr raw]))
            /\ (package_features row = Some "" \/ package_features row = None ->
                DbAuth.pkg_features p = Some (JSON.JArr []))).
Proof.
  split.
  - intros activeOnly. eexists. split; [reflexivity|].
    intros row Hin Hact. exists (DbAuth.package_of_row row).
    split; [|split; [reflexivity|]].
    + apply in_map. apply order_by_display_In.
      destruct activeOnly; [|exact Hin].
      apply filter_In. split; [exact Hin | now apply Hact].
    + destruct (read_features_cases (package_features row)) as (Hbad & _ & Hempty).
      simpl. split.
      * intros raw E Hne Hp. now rewrite (Hbad raw E Hne Hp).
      * intros E. now rewrite (Hempty E).
  - intros id. unfold DbAuth.getPackageById, get_db, bind, ret. simpl.
    destruct (filter (fun r => coll_eqb (package_id r) id) (packages (w_db w)))
      as [|pkg rest] eqn:F.
    + eexists. split; [reflexivity|]. split; [|discriminate].
      intros (row & Hin & E). exfalso.
      assert (Hf : In row (filter (fun r => coll_eqb (package_id r) id)
                                  (packages (w_db w))))
        by (apply filter_In; now split).
      rewrite F in Hf. exact Hf.
    + eexists. split; [reflexivity|]. split; [discriminate|].
      intros p E. inversion E; subst p; clear E.
      assert (Hf : In pkg (filter (fun r => coll_eqb (package_id r) id)
                                  (packages (w_db w))))
        by (rewrite F; now left).
      apply filter_In in Hf. destruct Hf as [Hin Hid].
      exists pkg. split; [exact Hin|]. split; [exact Hid|]. split; [reflexivity|].
      destruct (read_features_cases (package_features pkg)) as (Hbad & _ & Hempty).
      simpl. split.
      * intros raw E Hne Hp. now rewrite (Hbad raw E Hne Hp).
      * intros E. now rewrite (Hempty E).
Qed.

End Packages.

Lemma malformed_features_fallback_witness :
  let row := Example.package_with_features "p1" (Some "Fast, cheap") in
  let w := Example.world (with_packages [row] empty_db) 0%Z in
  JSON.parse "Fast, cheap" = None
  /\ exists p, @DbAuth.getPackageById binary "p1" w = (Returned (Some p), w)
               /\ DbAuth.pkg_features p = Some (JSON.JArr [JSON.JStr "Fast, cheap"]).
Proof.
  intros row w. split; [reflexivity|].
  destruct (proj2 (@malformed_features_fallback binary w) "p1") as (o & E & Hsome & Hp).
  destruct o as [p|].
  - exists p. split; [exact E|].
    destruct (Hp p eq_refl) as (row' & Hin & _ & _ & Hbad & _).
    destruct Hin as [<-|[]].
    apply (Hbad "Fast, cheap" eq_refl); [discriminate | reflexivity].
  - exfalso. apply Hsome; [|reflexivity]. exists row. split; [now left | reflexivity].
Defined.

(** C9 as stated fails on the empty text: it is not valid JSON, yet the
    feature list returned for the package is empty, not the one-element
    list holding the stored value. *)
Lemma malformed_features_counterexample :
  let row := Example.package_with_features "p1" (Some "") in
  let w := Example.world (with_packages [row] empty_db) 0%Z in
  JSON.parse "" = None
  /\ fst (@DbAuth.getPackageById binary "p1" w)
     = Returned (Some (DbAuth.package_of_row row))
  /\ DbAuth.pkg_features (DbAuth.package_of_row row) = Some (JSON.JArr [])
  /\ DbAuth.pkg_features (DbAuth.package_of_row row) <> Some (JSON.JArr [JSON.JStr ""])
  /\ map DbAuth.pkg_features
         match fst (DbAuth.getAllPackages false w) with
         | Returned l => l
         | Thrown _ => []
         end
     = [Some (JSON.JArr [])].
Proof.
  intros row w. repeat split. discriminate.
Qed.

(** ** Seeding the default packages *)

Section Seeding.
Context `{Collation} `{JwtLib}.

Lemma getAllPackages_run (activeOnly : bool) (w : World) :
  DbAuth.getAllPackages activeOnly w
  = (Returned (map DbAuth.package_of_row
                   (DbAuth.order_by_display
                      (if activeOnly then filter package_active (packages (w_db w))
                       else packages (w_db w)))), w).
Proof. reflexivity. Qed.

(** Three keys are pairwise different, read in both directions. *)
Lemma distinct_three (a b c : string) :
  distinct coll_eqb [a; b; c] = true ->
  coll_eqb b a = false /\ coll_eqb c a = false /\ coll_eqb c b = false.
Proof.
  simpl. rewrite (coll_sym b a), (coll_sym c a), (coll_sym c b).
  destruct (coll_eqb a b), (coll_eqb a c), (coll_eqb b c); simpl;
    intros E; try discriminate; auto.
Qed.

#[local] Arguments new_package_row : simpl never.
#[local] Arguments new_package : simpl never.
#[local] Arguments new_audit_row : simpl never.
#[local] Arguments seed_script_row : simpl never.
#[local] Arguments JsString.of_nat : simpl never.

(** C7.  With an empty catalog the seeding action of an admin creates the
    three default packages and reports them; with a catalog that is not
    empty it throws "Database already has N package(s). Delete existing
    packages first to re-seed." and changes nothing.  The maintenance
    script creates the same three packages in an empty catalog and returns
    without a write when the catalog has a package already. *)
Theorem seed_default_packages (w : World) :
  (forall token admin,
      Actions.verifyAdminRole token w = (Returned admin, w) ->
      (packages (w_db w) = [] ->
       distinct coll_eqb (map DbAuth.cp_name Actions.defaultPackages) = true ->
       distinct coll_eqb (map (fun k => w_rand w (k + w_next w)) [0; 1; 2]) = true ->
       id_taken (w_rand w (3 + w_next w)) (map audit_id (audit_logs (w_db w))) = false ->
       exists res,
         fst (Actions.seedDefaultPackagesAction token w) = Returned res
         /\ Actions.seed_success res = true
         /\ Actions.seed_message res = "Successfully created 3 default packages"
         /\ map DbAuth.pkg_name (Actions.seed_packages res)
            = ["Desktop Software"; "Auto Server"; "Hybrid Plan"]
         /\ packages (w_db (snd (Actions.seedDefaultPackagesAction token w)))
            = map (fun kd => new_package_row (w_rand w (fst kd + w_next w))
                                             (w_now w / 1000) (snd kd))
                  (combine [0; 1; 2] Actions.defaultPackages))
      /\
      (packages (w_db w) <> [] ->
       Actions.seedDefaultPackagesAction token w
       = (Thrown (JsError ("Database already has "
                           ++ JsString.of_nat (List.length (packages (w_db w)))
                           ++ " package(s). Delete existing packages first to re-seed.")),
          w)))
  /\
  (packages (w_db w) = [] ->
   distinct coll_eqb (map SeedScript.sp_name SeedScript.defaultPackages) = true ->
   distinct coll_eqb (map (fun k => w_rand w (k + w_next w)) [0; 1; 2]) = true ->
   fst (SeedScript.seedPackages w) = Returned SeedScript.Finished
   /\ packages (w_db (snd (SeedScript.seedPackages w)))
      = map (fun kd => seed_script_row (w_rand w (fst kd + w_next w))
                                       (w_now w / 1000) (snd kd))
            (combine [0; 1; 2] SeedScript.defaultPackages))
  /\
  (packages (w_db w) <> [] ->
   SeedScript.seedPackages w = (Returned SeedScript.Finished, w)).
Proof.
  split; [|split].
  - intros token admin Hadmin. split.
    + intros Hempty Hnames Hids Haudit.
      apply distinct_three in Hnames. destruct Hnames as (N10 & N20 & N21).
      apply distinct_three in Hids. destruct Hids as (I10 & I20 & I21).
      simpl in I10, I20, I21, Haudit. cbn in N10, N20, N21.
      assert (E : exists res w',
                 Actions.seedDefaultPackagesAction token w = (Returned res, w')
                 /\ Actions.seed_success res = true
                 /\ Actions.seed_message res = "Successfully created 3 default packages"
                 /\ map DbAuth.pkg_name (Actions.seed_packages res)
                    = ["Desktop Software"; "Auto Server"; "Hybrid Plan"]
                 /\ packages (w_db w')
                    = map (fun kd => new_package_row (w_rand w (fst kd + w_next w))
                                                     (w_now w / 1000) (snd kd))
                          (combine [0; 1; 2] Actions.defaultPackages)).
      { unfold Actions.seedDefaultPackagesAction, bind at 1. rewrite Hadmin.
        unfold bind at 1. rewrite getAllPackages_run, Hempty. simpl.
        unfold Actions.defaultPackages, Actions.create_each, bind at 1.
        unfold bind at 1. rewrite createPackage_run, Hempty. simpl.
        unfold bind at 1. rewrite createPackage_run. unfold id_taken. simpl.
        rewrite I10, N10. simpl.
        unfold bind at 1. rewrite createPackage_run. unfold id_taken. simpl.
        rewrite I20, I21, N20, N21. simpl.
        unfold ret at 1. unfold bind at 1.
        rewrite logAuditAction_run by (first [reflexivity | simpl; exact Haudit]).
        unfold bind, ret. simpl. eexists. eexists.
        split; [reflexivity|]. repeat split. }
      destruct E as (res & w' & E & Hs & Hm & Hn & Hp).
      exists res. rewrite E. simpl. repeat split; assumption.
    + intros Hne. unfold Actions.seedDefaultPackagesAction, bind at 1.
      rewrite Hadmin. unfold bind at 1. rewrite getAllPackages_run.
      rewrite length_map, order_by_display_length.
      destruct (packages (w_db w)) as [|p rest]; [contradiction|]. reflexivity.
  - intros Hempty Hnames Hids.
    apply distinct_three in Hnames. destruct Hnames as (N10 & N20 & N21).
    apply distinct_three in Hids. destruct Hids as (I10 & I20 & I21).
    simpl in I10, I20, I21. cbn in N10, N20, N21.
    unfold SeedScript.seedPackages, SeedScript.insert_each, SeedScript.insert_package,
      SeedScript.defaultPackages, DbAuth.insert_packages, try_catch, get_db,
      random_draw, NOW, bind, ret.
    simpl. rewrite !Hempty. simpl. rewrite !Hempty. simpl. rewrite I10, N10. simpl.
    rewrite I20, I21, N20, N21.
    simpl. split; reflexivity.
  - intros Hne. unfold SeedScript.seedPackages, try_catch, get_db, bind, ret.
    destruct (packages (w_db w)) as [|p rest]; [contradiction|]. reflexivity.
Qed.

End Seeding.

(** The superadmin seeds an empty catalog, then tries again; the script
    run afterwards writes nothing. *)
Lemma seed_default_packages_witness :
  let w := Example.world Example.two_users 5000%Z in
  let w2 := snd (@Actions.seedDefaultPackagesAction binary Example.tokens "token-root" w) in
  (exists res,
      fst (@Actions.seedDefaultPackagesAction binary Example.tokens "token-root" w)
      = Returned res
      /\ Actions.seed_message res = "Successfully created 3 default packages")
  /\ map package_name (packages (w_db w2))
     = ["Desktop Software"; "Auto Server"; "Hybrid Plan"]
  /\ @Actions.seedDefaultPackagesAction binary Example.tokens "token-root" w2
     = (Thrown (JsError "Database already has 3 package(s). Delete existing packages first to re-seed."),
        w2)
  /\ @SeedScript.seedPackages binary w2 = (Returned SeedScript.Finished, w2).
Proof.
  intros w w2.
  destruct (@seed_default_packages binary Example.tokens w) as (Haction & _ & _).
  destruct (Haction "token-root" "a-root" eq_refl) as (Hempty & _).
  destruct (Hempty eq_refl eq_refl eq_refl eq_refl) as (res & E & _ & Hm & _ & Hp).
  destruct (@seed_default_packages binary Example.tokens w2) as (Haction2 & _ & Hscript).
  destruct (Haction2 "token-root" "a-root" eq_refl) as (_ & Hfull).
  split; [exists res; split; [exact E | exact Hm]|].
  split; [unfold w2; rewrite Hp; reflexivity|].
  split.
  - rewrite Hfull; [reflexivity|]. unfold w2. rewrite Hp. discriminate.
  - apply Hscript. unfold w2. rewrite Hp. discriminate.
Defined.

(** ** Admin login *)

Section Login.
Context `{Collation} `{Bcrypt} `{JwtLib}.

(** An address that fits the column still fits when the route has put
    'unknown' in the place of a missing header. *)
Lemma client_ip_fits (request : AdminLogin.Request) :
  address_fits (AdminLogin.x_forwarded_for request) = true ->
  address_fits (AdminLogin.client_ip request) = true.
Proof.
  unfold AdminLogin.client_ip, address_fits.
  destruct (DbAuth.or_null (AdminLogin.x_forwarded_for request)) as [ip|] eqn:E;
    [|reflexivity].
  intros Hfits.
  assert (Hip : DbAuth.or_null (Some ip) = Some ip).
  { unfold DbAuth.or_null in *.
    destruct (AdminLogin.x_forwarded_for request) as [s|]; [|discriminate].
    destruct (String.eqb s "") eqn:Es; [discriminate|].
    inversion E; subst ip. now rewrite Es. }
  now rewrite Hip.
Qed.

Lemma truthy_text (pw : string) : pw <> "" -> AdminLogin.truthy (AdminLogin.Text pw) = true.
Proof.
  intros Hpw. cbn [AdminLogin.truthy]. now destruct (String.eqb_spec pw "").
Qed.

(** The route under an email that no account has: 401, and nothing is
    read of the password but that it is there. *)
Lemma POST_unknown_email (w : World) (request : AdminLogin.Request) (e : string) :
  DbAuth.or_null (AdminLogin.body_email request) = Some e ->
  AdminLogin.truthy (AdminLogin.body_password request) = true ->
  login_account (w_db w) e = None ->
  AdminLogin.POST request w = (Returned invalid_credentials, w).
Proof.
  intros He Hp Hunknown. unfold login_account in Hunknown.
  unfold AdminLogin.POST. rewrite He, Hp.
  cbv [bind ret try_catch AdminLogin.select_admins_by_email
       DbAuth.select_users_by_email get_db AdminLogin.json_response].
  destruct (filter (fun r => coll_eqb (admin_email r) e) (admins (w_db w)))
    as [|a rest]; [|discriminate].
  destruct (filter (fun r => coll_eqb (user_email r) e) (users (w_db w)))
    as [|u rest]; [|discriminate]. reflexivity.
Qed.

(** The route when the password is a string that does not match, and the
    audit entry can be written. *)
Lemma POST_wrong_password (w : World) (request : AdminLogin.Request) (e pw : string)
      (account : AdminLogin.LoginUser) :
  DbAuth.or_null (AdminLogin.body_email request) = Some e ->
  AdminLogin.body_password request = AdminLogin.Text pw -> pw <> "" ->
  address_fits (AdminLogin.x_forwarded_for request) = true ->
  login_account (w_db w) e = Some account ->
  bcrypt_compare pw (AdminLogin.lu_password_hash account) = false ->
  id_taken (w_rand w (w_next w)) (map audit_id (audit_logs (w_db w))) = false ->
  fst (AdminLogin.POST request w) = Returned invalid_credentials.
Proof.
  intros He Hp Hpw Hip Hacc Hwrong Hfresh. unfold login_account in Hacc.
  apply client_ip_fits in Hip.
  unfold AdminLogin.POST. rewrite He, Hp, (truthy_text pw Hpw).
  cbv [bind ret try_catch AdminLogin.select_admins_by_email
       DbAuth.select_users_by_email get_db AdminLogin.verify_body_password
       DbAuth.verifyPassword AdminLogin.audit AdminLogin.json_response].
  destruct (filter (fun r => coll_eqb (admin_email r) e) (admins (w_db w)))
    as [|a rest] eqn:Fa.
  - rewrite Hacc, Hwrong. cbn [negb].
    now rewrite logAuditAction_run by (first [exact Hip | exact Hfresh]).
  - inversion Hacc as [Hacc']. rewrite Hacc', Hwrong. cbn [negb].
    now rewrite logAuditAction_run by (first [exact Hip | exact Hfresh]).
Qed.

(** The route when the password is not a string, under an email that an
    account has: [compare] throws and the answer is 500. *)
Lemma POST_password_not_text (w : World) (request : AdminLogin.Request) (e : string)
      (account : AdminLogin.LoginUser) :
  DbAuth.or_null (AdminLogin.body_email request) = Some e ->
  AdminLogin.body_password request = AdminLogin.NotText true ->
  login_account (w_db w) e = Some account ->
  AdminLogin.POST request w = (Returned internal_server_error, w).
Proof.
  intros He Hp Hacc. unfold login_account in Hacc.
  unfold AdminLogin.POST. rewrite He, Hp. cbn [AdminLogin.truthy].
  cbv [bind ret try_catch throw AdminLogin.select_admins_by_email
       DbAuth.select_users_by_email get_db AdminLogin.verify_body_password
       AdminLogin.json_response].
  destruct (filter (fun r => coll_eqb (admin_email r) e) (admins (w_db w)))
    as [|a rest] eqn:Fa.
  - rewrite Hacc. reflexivity.
  - reflexivity.
Qed.

End Login.

(** C4.  An unknown email and a wrong password for a known email do not
    always receive the same answer.  Nobody is registered as
    mallory@x.com and Alice is.  With a password that is not a string
    (a number in the JSON body), the attempt for Mallory is answered 401
    "Invalid email or password" and the attempt for Alice 500 "Internal
    server error".  The same happens with the wrong password "guess123"
    when the request has passed three proxies and its x-forwarded-for
    header is longer than the 45 characters of [ip_address]: only the
    attempt for Alice writes an audit entry, the INSERT is refused, and
    the answer is 500. *)
Theorem login_failure_reveals_account :
  let w := Example.world Example.two_users 0%Z in
  let chain := "203.0.113.195, 70.41.3.18, 150.172.238.178, 10.0.0.1" in
  let POST := @AdminLogin.POST binary Example.plain_bcrypt Example.tokens in
  (fst (POST (login_attempt "mallory@x.com" (AdminLogin.NotText true) None) w)
   = Returned invalid_credentials
   /\ fst (POST (login_attempt "alice@x.com" (AdminLogin.NotText true) None) w)
      = Returned internal_server_error)
  /\ (fst (POST (login_attempt "mallory@x.com" (AdminLogin.Text "guess123")
                               (Some chain)) w)
      = Returned invalid_credentials
      /\ fst (POST (login_attempt "alice@x.com" (AdminLogin.Text "guess123")
                                  (Some chain)) w)
         = Returned internal_server_error
      /\ fst (POST (login_attempt "alice@x.com" (AdminLogin.Text "guess123")
                                  (Some "203.0.113.195")) w)
         = Returned invalid_credentials).
Proof.
  intros w chain POST. repeat split; vm_compute; reflexivity.
Qed.

(** ** The unique key on subscriptions is an invariant *)

Section Invariant.
Context `{Collation} `{Bcrypt} `{JwtLib} `{JsDate.HostTimeZone} `{JsDate.DateParser}.

Abbreviation keeps := (preserves unique_active_subscription).

Lemma preserves_ret {A} (P : Db -> Prop) (a : A) : preserves P (ret a).
Proof. intros w Hw. exact Hw. Qed.

Lemma preserves_throw {A} (P : Db -> Prop) (e : Exn) : preserves P (@throw A e).
Proof. intros w Hw. exact Hw. Qed.

Lemma preserves_bind {A B} (P : Db -> Prop) (m : M A) (k : A -> M B) :
  preserves P m -> (forall a, preserves P (k a)) -> preserves P (bind m k).
Proof.
  intros Hm Hk w Hw. unfold bind. specialize (Hm w Hw).
  destruct (m w) as [[a|e] w']; simpl in *; [now apply Hk | exact Hm].
Qed.

Lemma preserves_try_catch {A} (P : Db -> Prop) (body : M A) (handler : Exn -> M A) :
  preserves P body -> (forall e, preserves P (handler e)) ->
  preserves P (try_catch body handler).
Proof.
  intros Hm Hk w Hw. unfold try_catch. specialize (Hm w Hw).
  destruct (body w) as [[a|e] w']; simpl in *; [exact Hm | now apply Hk].
Qed.

(** An operation that leaves the database alone keeps every condition. *)
Lemma preserves_reader {A} (P : Db -> Prop) (m : M A) :
  (forall w, w_db (snd (m w)) = w_db w) -> preserves P m.
Proof. intros Hm w Hw. now rewrite Hm. Qed.

(** An operation that leaves [subscriptions] alone keeps the key. *)
Lemma keeps_frame {A} (m : M A) :
  (forall w, subscriptions (w_db (snd (m w))) = subscriptions (w_db w)) -> keeps m.
Proof. intros Hm w Hw. unfold unique_active_subscription in *. now rewrite Hm. Qed.

Lemma distinct_filter {K R} (eqb : K -> K -> bool) (key : R -> K) (f : R -> bool)
      (t : list R) :
  distinct eqb (map key t) = true -> distinct eqb (map key (filter f t)) = true.
Proof.
  induction t as [|r t IH]; simpl; [reflexivity|]. intros D.
  apply andb_prop in D. destruct D as [Hr D]. destruct (f r); simpl.
  - rewrite (IH D), andb_true_r. apply negb_true_iff in Hr. apply negb_true_iff.
    rewrite existsb_map in *. destruct (existsb _ (filter f t)) eqn:E; [|reflexivity].
    apply existsb_exists in E. destruct E as (x & Hx & Ex). apply filter_In in Hx.
    rewrite <- Hr. symmetry. apply existsb_exists. exists x. tauto.
  - now apply IH.
Qed.

Lemma keeps_insert_users (r : UserRow) : keeps (DbAuth.insert_users r).
Proof.
  apply keeps_frame. intros w. unfold DbAuth.insert_users.
  repeat match goal with |- context [if ?c then _ else _] => destruct c end;
    reflexivity.
Qed.

Lemma keeps_update_users (sets : list UserAssign) (i : SqlStr) :
  keeps (DbAuth.update_users sets i).
Proof.
  apply keeps_frame. intros w. unfold DbAuth.update_users.
  repeat match goal with |- context [if ?c then _ else _] => destruct c end;
    reflexivity.
Qed.

Lemma keeps_insert_audit_logs (r : AuditRow) : keeps (DbAuth.insert_audit_logs r).
Proof.
  apply keeps_frame. intros w. unfold DbAuth.insert_audit_logs.
  destruct (varchar_or_null 45 (audit_ip_address r)); [|reflexivity].
  repeat match goal with |- context [if ?c then _ else _] => destruct c end;
    reflexivity.
Qed.

Lemma keeps_insert_packages (r : PackageRow) : keeps (DbAuth.insert_packages r).
Proof.
  apply keeps_frame. intros w. unfold DbAuth.insert_packages.
  repeat match goal with |- context [if ?c then _ else _] => destruct c end;
    reflexivity.
Qed.

Lemma keeps_insert_subscriptions (i : string) (u : SqlStr) (p : Plan)
      (s : SubscriptionStatus) (renewal : string) :
  keeps (DbAuth.insert_subscriptions i u p s renewal).
Proof.
  intros w Hw. unfold DbAuth.insert_subscriptions. destruct u as [uid|]; [|exact Hw].
  destruct (existsb (coll_eqb i) _); [exact Hw|].
  destruct (existsb (sub_key_eqb _) _) eqn:E; [exact Hw|].
  destruct (negb _); [exact Hw|]. simpl. unfold unique_active_subscription in *.
  simpl. rewrite map_app. simpl.
  rewrite (distinct_snoc sub_key_eqb sub_key_eqb_sym), Hw. simpl.
  simpl in E. now rewrite E.
Qed.

Lemma keeps_update_subscriptions (sets : list DbAuth.SubscriptionAssign) (i : string) :
  keeps (DbAuth.update_subscriptions sets i).
Proof.
  intros w Hw. unfold DbAuth.update_subscriptions.
  destruct (distinct sub_key_eqb _) eqn:E; [exact E | exact Hw].
Qed.

Lemma keeps_deleteUser (i : string) : keeps (DbAuth.deleteUser i).
Proof.
  intros w Hw. unfold DbAuth.deleteUser, get_db, put_db, bind. simpl.
  unfold unique_active_subscription in *. simpl. now apply distinct_filter.
Qed.

Lemma keeps_deleteSession (i : string) : keeps (DbAuth.deleteSession i).
Proof. apply keeps_frame. reflexivity. Qed.

Lemma keeps_deleteExpiredSessions : keeps DbAuth.deleteExpiredSessions.
Proof. apply keeps_frame. reflexivity. Qed.

Lemma keeps_touch_admin (i : string) : keeps (AdminLogin.touch_admin i).
Proof. apply keeps_frame. reflexivity. Qed.

Create HintDb keeps.

#[local] Hint Resolve keeps_insert_users keeps_update_users keeps_insert_audit_logs
  keeps_insert_packages keeps_insert_subscriptions keeps_update_subscriptions
  keeps_deleteUser keeps_deleteSession keeps_deleteExpiredSessions
  keeps_touch_admin : keeps.

(** One step through the text of an operation: a sequence, a handler, a
    branch, or a statement already known to keep the condition. *)
Ltac keep_step :=
  first
    [ solve [auto with keeps]
    | apply preserves_ret
    | apply preserves_throw
    | apply preserves_bind; [|intro]
    | apply preserves_try_catch; [|intro]
    | solve [apply preserves_reader; reflexivity]
    | match goal with
      | |- preserves _ (if ?c then _ else _) => destruct c
      | |- preserves _ (match ?x with _ => _ end) => destruct x
      end
    | progress cbv beta zeta ].

Ltac keep := repeat keep_step.

Lemma keeps_hashPassword (p : string) : keeps (DbAuth.hashPassword p).
Proof. unfold DbAuth.hashPassword. keep. Qed.
#[local] Hint Resolve keeps_hashPassword : keeps.

Lemma keeps_createUser (data : CreateUserData) : keeps (DbAuth.createUser data).
Proof. unfold DbAuth.createUser, randomUUID. keep. Qed.

Lemma keeps_updateUser (i : SqlStr) (data : UserPatch) : keeps (DbAuth.updateUser i data).
Proof. unfold DbAuth.updateUser. keep. Qed.

Lemma keeps_updateLastLogin (i : string) : keeps (DbAuth.updateLastLogin i).
Proof. unfold DbAuth.updateLastLogin. keep. Qed.

Lemma keeps_updatePassword (i p : string) : keeps (DbAuth.updatePassword i p).
Proof. unfold DbAuth.updatePassword. keep. Qed.

Lemma keeps_createSubscription (u : SqlStr) (p : Plan) :
  keeps (DbAuth.createSubscription u p).
Proof. unfold DbAuth.createSubscription, randomUUID, DbAuth.lift. keep. Qed.

Lemma keeps_updateSubscription (i : string) (data : DbAuth.SubscriptionPatch) :
  keeps (DbAuth.updateSubscription i data).
Proof. unfold DbAuth.updateSubscription. keep. Qed.

Lemma keeps_cancelSubscription (i : string) : keeps (DbAuth.cancelSubscription i).
Proof. unfold DbAuth.cancelSubscription. keep. Qed.

Lemma keeps_getSubscription (u : SqlStr) : keeps (DbAuth.getSubscription u).
Proof. apply preserves_reader. reflexivity. Qed.

Lemma keeps_logAuditAction (data : DbAuth.AuditData) : keeps (DbAuth.logAuditAction data).
Proof.
  unfold DbAuth.logAuditAction, randomUUID, DbAuth.select_users_by_id. keep.
Qed.

Lemma keeps_createPackage (data : DbAuth.CreatePackageData) :
  keeps (DbAuth.createPackage data).
Proof. unfold DbAuth.createPackage, randomUUID. keep. Qed.

#[local] Hint Resolve keeps_createUser keeps_updateUser keeps_updateLastLogin
  keeps_updatePassword keeps_createSubscription keeps_updateSubscription
  keeps_cancelSubscription keeps_getSubscription keeps_logAuditAction
  keeps_createPackage : keeps.

Lemma keeps_getCurrentUserId (token : string) : keeps (Actions.getCurrentUserId token).
Proof. unfold Actions.getCurrentUserId, verifyJWT. keep. Qed.

Lemma keeps_verifyAdminRole (token : string) : keeps (Actions.verifyAdminRole token).
Proof. unfold Actions.verifyAdminRole, verifyJWT. keep. Qed.

#[local] Hint Resolve keeps_getCurrentUserId keeps_verifyAdminRole : keeps.

Lemma keeps_create_each (todo : list DbAuth.CreatePackageData)
      (created : list DbAuth.Package) :
  keeps (Actions.create_each todo created).
Proof. revert created. induction todo as [|d todo IH]; intros created; simpl; keep. Qed.

Lemma keeps_insert_each (todo : list SeedScript.SeedPackage) :
  keeps (SeedScript.insert_each todo).
Proof.
  induction todo as [|d todo IH]; simpl; unfold SeedScript.insert_package; keep.
Qed.

#[local] Hint Resolve keeps_create_each keeps_insert_each : keeps.

(** Every call keeps the unique key. *)
Lemma perform_keeps (c : Call) (w : World) :
  unique_active_subscription (w_db w) ->
  unique_active_subscription (w_db (perform c w)).
Proof.
  revert w. destruct c; unfold perform;
    match goal with
    | |- forall w, _ -> unique_active_subscription (w_db (snd (?m w))) =>
        change (keeps m)
    end;
    try solve [auto with keeps].
  - unfold Actions.activateSubscription. keep.
  - unfold Actions.cancelSubscription. keep.
  - unfold Actions.addUser. keep.
  - unfold Actions.updateUserAction. keep.
  - unfold Actions.deleteUserAction. keep.
  - unfold Actions.changeAdminPassword. keep.
  - unfold Actions.seedDefaultPackagesAction, DbAuth.getAllPackages. keep.
  - unfold AdminLogin.POST, AdminLogin.audit, AdminLogin.json_response,
      AdminLogin.select_admins_by_email, DbAuth.select_users_by_email,
      AdminLogin.verify_body_password, DbAuth.verifyPassword, createJWT. keep.
  - unfold SeedScript.seedPackages. keep.
Qed.

(** In every reachable world the unique key holds. *)
Lemma reachable_unique_key (w : World) :
  reachable w -> unique_active_subscription (w_db w).
Proof.
  induction 1 as [w Hempty | w c _ IH | w now rand next _ IH].
  - unfold unique_active_subscription. now rewrite Hempty.
  - now apply perform_keeps.
  - exact IH.
Qed.

End Invariant.

(** ** Subscriptions *)

Section Subscriptions.
Context `{Collation} `{Bcrypt} `{JwtLib} `{JsDate.HostTimeZone} `{JsDate.DateParser}.

#[local] Opaque JsDate.setMonth JsDate.getMonth JsDate.isoString JsString.replace
  JsString.slice0.

Lemma existsb_false_all {A} (p : A -> bool) (l : list A) :
  existsb p l = false <-> (forall x, In x l -> p x = false).
Proof.
  split.
  - intros E x Hx. destruct (p x) eqn:Px; [|reflexivity].
    rewrite <- E. symmetry. apply existsb_exists. now exists x.
  - intros Hall. induction l as [|a l IH]; simpl; [reflexivity|].
    rewrite (Hall a (or_introl eq_refl)). apply IH. intros x Hx. apply Hall. now right.
Qed.

Lemma sub_key_eqb_true (a b : string * SubscriptionStatus) :
  sub_key_eqb a b = true <-> coll_eqb (fst a) (fst b) = true /\ snd a = snd b.
Proof.
  unfold sub_key_eqb. rewrite andb_true_iff.
  destruct (snd a), (snd b); simpl; intuition congruence.
Qed.

Lemma active_rows_In (u : string) (t : list SubscriptionRow) (r : SubscriptionRow) :
  In r (active_rows u t)
  <-> In r t /\ coll_eqb (sub_user_id r) u = true /\ sub_status r = Active.
Proof.
  unfold active_rows. rewrite filter_In, andb_true_iff.
  destruct (sub_status r); simpl; intuition congruence.
Qed.

(** Under the unique key a user has at most one Active row. *)
Lemma unique_key_one_active (u : string) (t : list SubscriptionRow) :
  distinct sub_key_eqb (map sub_key t) = true ->
  List.length (active_rows u t) <= 1.
Proof.
  induction t as [|r t IH]; simpl; intros D; [lia|].
  apply andb_prop in D. destruct D as [Hr D]. specialize (IH D).
  destruct (coll_eqb (sub_user_id r) u && SubscriptionStatus_eqb (sub_status r) Active)
    eqn:E; [|exact IH].
  simpl. apply andb_prop in E. destruct E as [Eu Es].
  assert (Hnone : active_rows u t = []).
  { unfold active_rows. apply filter_all_false. intros x Hx.
    apply negb_true_iff in Hr. rewrite existsb_map in Hr.
    rewrite existsb_false_all in Hr. specialize (Hr x Hx).
    destruct (coll_eqb (sub_user_id x) u && _) eqn:Ex; [|reflexivity].
    apply andb_prop in Ex. destruct Ex as [Exu Exs].
    rewrite <- Hr. symmetry. apply sub_key_eqb_true. simpl. split.
    - apply coll_trans with u; [exact Eu | now rewrite coll_sym].
    - destruct (sub_status r), (sub_status x); simpl in *; congruence. }
  rewrite Hnone. simpl. lia.
Qed.

(** [createSubscription] is [createSubscription_with] at the date
    operations of JavaScript. *)
Lemma createSubscription_as_with (u : SqlStr) (p : Plan) :
  DbAuth.createSubscription u p
  = createSubscription_with
      (fun now => JsDate.setMonth now (JsDate.getMonth now + 1))
      DbAuth.toSqlDatetime JsDate.toISOString u p.
Proof. reflexivity. Qed.

(** With an Active row of the user in the table, the INSERT is refused as
    a duplicate entry, whatever the renewal date is. *)
Lemma createSubscription_with_conflict
      (renewal : Z -> option Z) (sqlText isoText : option Z -> Outcome string)
      (w : World) (u : string) (p : Plan) (text : string) :
  sqlText (renewal (w_now w)) = Returned text ->
  active_rows u (subscriptions (w_db w)) <> [] ->
  exists key,
    createSubscription_with renewal sqlText isoText (Some u) p w
    = (Thrown (MysqlError ER_DUP_ENTRY key), after_draws 1 w).
Proof.
  intros Htext Hactive.
  unfold createSubscription_with, DbAuth.insert_subscriptions, DbAuth.lift,
    randomUUID, random_draw, Date_now, bind, ret. simpl. rewrite Htext.
  destruct (existsb (coll_eqb (w_rand w (w_next w))) _).
  - eexists. reflexivity.
  - assert (E : existsb (sub_key_eqb (u, Active)) (map sub_key (subscriptions (w_db w)))
                = true).
    { destruct (active_rows u (subscriptions (w_db w))) as [|x rest] eqn:F;
        [contradiction|].
      assert (Hx : In x (active_rows u (subscriptions (w_db w)))) by (rewrite F; now left).
      apply active_rows_In in Hx. destruct Hx as (Hin & Hu & Hs).
      rewrite existsb_map. apply existsb_exists. exists x. split; [exact Hin|].
      apply sub_key_eqb_true. simpl. split; [now rewrite coll_sym | now rewrite Hs]. }
    unfold sub_key at 1. simpl. rewrite E. eexists. reflexivity.
Qed.

Lemma toSqlDatetime_of_valid (date : option Z) (r : Z) :
  date = Some r ->
  DbAuth.toSqlDatetime date
  = Returned (JsString.replace "T" " " (JsString.slice0 19 (JsDate.isoString r))).
Proof. intros ->. reflexivity. Qed.

Lemma createSubscription_conflict (w : World) (u : string) (p : Plan) (r : Z) :
  JsDate.setMonth (w_now w) (JsDate.getMonth (w_now w) + 1) = Some r ->
  active_rows u (subscriptions (w_db w)) <> [] ->
  exists key,
    DbAuth.createSubscription (Some u) p w
    = (Thrown (MysqlError ER_DUP_ENTRY key), after_draws 1 w).
Proof.
  intros Hr Hactive. rewrite createSubscription_as_with.
  apply createSubscription_with_conflict
    with (text := JsString.replace "T" " " (JsString.slice0 19 (JsDate.isoString r)));
    [|exact Hactive].
  apply toSqlDatetime_of_valid. exact Hr.
Qed.

(** C1.  In every world the application can reach, each user has at most
    one subscription row with status Active; and activating a plan for a
    user who has an Active subscription fails with the duplicate-entry
    error of the unique key and leaves the database as it was, so no
    second Active row appears. *)
Theorem one_active_subscription :
  (forall w, reachable w ->
             forall u, List.length (active_rows u (subscriptions (w_db w))) <= 1)
  /\
  (forall w token planName u r,
      Actions.getCurrentUserId token w = (Returned (Some u), w) ->
      JsDate.setMonth (w_now w) (JsDate.getMonth (w_now w) + 1) = Some r ->
      active_rows u (subscriptions (w_db w)) <> [] ->
      (exists key, fst (Actions.activateSubscription token planName w)
                   = Thrown (MysqlError ER_DUP_ENTRY key))
      /\ w_db (snd (Actions.activateSubscription token planName w)) = w_db w).
Proof.
  split.
  - intros w Hw u. apply unique_key_one_active. now apply reachable_unique_key.
  - intros w token planName u r Hid Hr Hactive.
    destruct (createSubscription_conflict w u planName r Hr Hactive) as [key E].
    unfold Actions.activateSubscription, bind. rewrite Hid, E. cbn [fst snd].
    split; [now exists key | reflexivity].
Qed.

End Subscriptions.

(** Bob activates Pro and then asks for Expert while Pro is still
    active. *)
Lemma one_active_subscription_witness :
  let w1 := Example.bob_active in
  reachable (H := binary) (H0 := Example.plain_bcrypt) (H1 := Example.tokens)
            (H2 := Example.utc) (H3 := Example.no_parser) w1
  /\ List.length (@active_rows binary "u-bob" (subscriptions (w_db w1))) <= 1
  /\ (exists key,
         fst (@Actions.activateSubscription binary Example.tokens Example.utc
                "token-bob" Expert w1)
         = Thrown (MysqlError ER_DUP_ENTRY key))
  /\ w_db (snd (@Actions.activateSubscription binary Example.tokens Example.utc
                  "token-bob" Expert w1)) = w_db w1.
Proof.
  intros w1.
  destruct (@one_active_subscription binary Example.plain_bcrypt Example.tokens
              Example.utc Example.no_parser) as [Hinv Hconflict].
  assert (Hreach : reachable (H := binary) (H0 := Example.plain_bcrypt)
                             (H1 := Example.tokens) (H2 := Example.utc)
                             (H3 := Example.no_parser) w1).
  { change w1 with (perform (H := binary) (H0 := Example.plain_bcrypt)
                            (H1 := Example.tokens) (H2 := Example.utc)
                            (H3 := Example.no_parser)
                            (CallActivateSubscription "token-bob" Pro) Example.start).
    apply reach_call. apply reach_install. reflexivity. }
  split; [exact Hreach|]. split; [exact (Hinv w1 Hreach "u-bob")|].
  apply (Hconflict w1 "token-bob" Expert "u-bob" 1741003200000%Z).
  - reflexivity.
  - vm_compute. reflexivity.
  - intros E. vm_compute in E. discriminate.
Defined.

(** ** Cancelling a subscription *)

Section Cancel.
Context `{Collation} `{Bcrypt} `{JwtLib} `{JsDate.HostTimeZone} `{JsDate.DateParser}.

Lemma getSubscription_run (u : string) (w : World) :
  DbAuth.getSubscription (Some u) w
  = (Returned (option_map DbAuth.subscription_of_row
                          (hd_error (active_rows u (subscriptions (w_db w))))), w).
Proof.
  unfold DbAuth.getSubscription, get_db, bind, ret, active_rows. simpl.
  destruct (filter _ (subscriptions (w_db w))); reflexivity.
Qed.

(** The one Active row of a user, under the unique key. *)
Lemma active_rows_single (u : string) (t : list SubscriptionRow) (s : SubscriptionRow) :
  distinct sub_key_eqb (map sub_key t) = true ->
  In s t -> coll_eqb (sub_user_id s) u = true -> sub_status s = Active ->
  active_rows u t = [s].
Proof.
  intros D Hin Hu Hs.
  pose proof (unique_key_one_active u t D) as Hle.
  assert (Hs' : In s (active_rows u t)) by (apply active_rows_In; tauto).
  destruct (active_rows u t) as [|x [|y rest]]; simpl in *.
  - contradiction.
  - destruct Hs' as [->|[]]. reflexivity.
  - lia.
Qed.

(** Setting one row to Cancelled keeps (user_id, status) unique when no
    row of that user is Cancelled yet. *)
Lemma cancel_keeps_unique (u i : string) (t : list SubscriptionRow) :
  distinct coll_eqb (map sub_id t) = true ->
  distinct sub_key_eqb (map sub_key t) = true ->
  (forall r, In r t -> coll_eqb (sub_id r) i = true -> coll_eqb (sub_user_id r) u = true) ->
  (forall r, In r t -> coll_eqb (sub_user_id r) u = true -> sub_status r <> Cancelled) ->
  distinct sub_key_eqb
    (map sub_key (map (fun r => if coll_eqb (sub_id r) i then cancelled r else r) t))
  = true.
Proof.
  induction t as [|x t IH]; simpl; [reflexivity|]. intros Did Dkey Howner Hnone.
  apply andb_prop in Did. destruct Did as [Hxid Did].
  apply andb_prop in Dkey. destruct Dkey as [Hxkey Dkey].
  apply negb_true_iff in Hxid. apply negb_true_iff in Hxkey.
  rewrite existsb_map in Hxid. rewrite existsb_map in Hxkey.
  rewrite existsb_false_all in Hxid. rewrite existsb_false_all in Hxkey.
  rewrite IH; auto. rewrite andb_true_r. apply negb_true_iff.
  rewrite !existsb_map. apply existsb_false_all. intros r Hr.
  destruct (sub_key_eqb _ _) eqn:E; [|reflexivity]. exfalso.
  apply sub_key_eqb_true in E. destruct E as [Eu Es].
  destruct (coll_eqb (sub_id x) i) eqn:Ex, (coll_eqb (sub_id r) i) eqn:Er;
    simpl in Eu, Es.
  - (* both rows carry the id *)
    specialize (Hxid r Hr). rewrite (coll_eqb_congr _ _ _ Ex) in Hxid.
    rewrite coll_sym in Hxid. congruence.
  - (* the head is cancelled: [r] would be a Cancelled row of the user *)
    apply (Hnone r (or_intror Hr)); [|congruence].
    apply coll_trans with (sub_user_id x); [now rewrite coll_sym|].
    apply Howner; [now left | exact Ex].
  - (* [r] is cancelled: the head would be a Cancelled row of the user *)
    apply (Hnone x (or_introl eq_refl)); [|congruence].
    apply coll_trans with (sub_user_id r); [exact Eu|].
    apply Howner; [now right | exact Er].
  - (* neither changes *)
    specialize (Hxkey r Hr). assert (sub_key_eqb (sub_key x) (sub_key r) = true)
      by (apply sub_key_eqb_true; split; assumption).
    congruence.
Qed.

(** C2 (amended).  With a token of user [u]: when no row with the given
    id is an Active subscription of [u] (it belongs to someone else, is not
    Active, or does not exist), [cancelSubscription] throws "Subscription
    not found or access denied" and changes nothing; when the id is that
    of the Active subscription of [u] and [u] has no Cancelled row yet, the
    call sets that row to Cancelled and the plan of [u] to Starter. *)
Theorem cancelSubscription_owner_only
        (w : World) (token subscriptionId u : string) :
  Actions.getCurrentUserId token w = (Returned (Some u), w) ->
  ((forall s, In s (subscriptions (w_db w)) -> sub_id s = subscriptionId ->
              coll_eqb (sub_user_id s) u
              && SubscriptionStatus_eqb (sub_status s) Active = false) ->
   Actions.cancelSubscription token subscriptionId w
   = (Thrown (JsError "Subscription not found or access denied"), w))
  /\
  (forall s,
      In s (subscriptions (w_db w)) -> sub_id s = subscriptionId ->
      coll_eqb (sub_user_id s) u = true -> sub_status s = Active ->
      subscriptions_ok (subscriptions (w_db w)) = true ->
      users_ok (users (w_db w)) = true ->
      (forall r, In r (subscriptions (w_db w)) ->
                 coll_eqb (sub_user_id r) u = true -> sub_status r <> Cancelled) ->
      subscriptions (w_db (snd (Actions.cancelSubscription token subscriptionId w)))
      = map (fun r => if coll_eqb (sub_id r) subscriptionId then cancelled r else r)
            (subscriptions (w_db w))
      /\ In (cancelled s)
            (subscriptions (w_db (snd (Actions.cancelSubscription token subscriptionId w))))
      /\ users (w_db (snd (Actions.cancelSubscription token subscriptionId w)))
         = map (fun r => if coll_eqb (user_id r) u
                         then assign_user r (SetPlan Starter) else r)
               (users (w_db w))
      /\ (id_taken (w_rand w (w_next w)) (map audit_id (audit_logs (w_db w))) = false ->
          fst (Actions.cancelSubscription token subscriptionId w) = Returned tt)).
Proof.
  intros Hid. split.
  - intros Hnot. unfold Actions.cancelSubscription, bind at 1. rewrite Hid.
    unfold bind at 1. rewrite getSubscription_run.
    destruct (active_rows u (subscriptions (w_db w))) as [|x rest] eqn:F;
      [reflexivity|]. simpl.
    destruct (String.eqb_spec (sub_id x) subscriptionId) as [E|E]; [|reflexivity].
    exfalso. assert (Hx : In x (active_rows u (subscriptions (w_db w))))
      by (rewrite F; now left).
    apply active_rows_In in Hx. destruct Hx as (Hin & Hu & Hs).
    specialize (Hnot x Hin E). rewrite Hu, Hs in Hnot. discriminate.
  - intros s Hin Hsid Hu Hs Hsubs Husers Hnone.
    apply andb_prop in Hsubs. destruct Hsubs as [Did Dkey].
    apply andb_prop in Husers. destruct Husers as [_ Demail].
    assert (Hupd : distinct sub_key_eqb
                     (map sub_key
                          (map (fun r => if coll_eqb (sub_id r) subscriptionId
                                         then cancelled r else r)
                               (subscriptions (w_db w)))) = true).
    { apply cancel_keeps_unique with (u := u); auto.
      intros r Hr Er. rewrite <- Hsid in Er.
      assert (r = s) by (apply (distinct_key_inj sub_id _ _ _ Did Hr Hin Er)).
      now subst r. }
    assert (E : exists o w2,
               Actions.cancelSubscription token subscriptionId w = (o, w2)
               /\ subscriptions (w_db w2)
                  = map (fun r => if coll_eqb (sub_id r) subscriptionId
                                  then cancelled r else r)
                        (subscriptions (w_db w))
               /\ users (w_db w2)
                  = map (fun r => if coll_eqb (user_id r) u
                                  then assign_user r (SetPlan Starter) else r)
                        (users (w_db w))
               /\ (id_taken (w_rand w (w_next w)) (map audit_id (audit_logs (w_db w)))
                   = false -> o = Returned tt)).
    { unfold Actions.cancelSubscription, bind at 1. rewrite Hid.
      unfold bind at 1. rewrite getSubscription_run.
      rewrite (active_rows_single u _ s Dkey Hin Hu Hs). simpl.
      rewrite Hsid, String.eqb_refl. simpl.
      unfold DbAuth.updateSubscription, DbAuth.update_subscriptions, DbAuth.updateUser,
        DbAuth.update_users, Actions.plan_patch, DbAuth.push_if. simpl.
      unfold bind at 1. unfold cancelled in Hupd. simpl in Hupd. rewrite Hupd.
      unfold bind at 1. simpl.
      rewrite map_email_update by reflexivity. rewrite Demail.
      match goal with
      | |- context [DbAuth.logAuditAction ?d ?w1] =>
          pose proof (logAuditAction_frame w1 d) as Hframe;
          pose proof (logAuditAction_run w1 d eq_refl) as Hrun;
          destruct (DbAuth.logAuditAction d w1) as [o w2]
      end.
      simpl in Hframe, Hrun. destruct Hframe as (Fu & _ & Fs & _).
      exists o, w2. split; [reflexivity|]. split; [exact Fs|]. split; [exact Fu|].
      intros Hfresh. specialize (Hrun Hfresh). now inversion Hrun. }
    destruct E as (o & w2 & E & Fs & Fu & Ho). rewrite E. simpl.
    split; [exact Fs|]. split; [|split; [exact Fu | exact Ho]].
    rewrite Fs. apply in_map_iff. exists s. split; [|exact Hin].
    now rewrite <- Hsid, coll_refl.
Qed.

End Cancel.
(** Bob holds the Active subscription r0.  Alice cannot cancel it; Bob
    can, and his plan goes back to Starter. *)
Lemma cancelSubscription_owner_only_witness :
  let w1 := Example.bob_active in
  let cancel := @Actions.cancelSubscription binary Example.tokens Example.no_parser in
  w1 = snd (@Actions.activateSubscription binary Example.tokens Example.utc
              "token-bob" Pro Example.start)
  /\ map (fun s => (sub_id s, sub_user_id s, sub_status s)) (subscriptions (w_db w1))
     = [("r0", "u-bob", Active)]
  /\ cancel "token-alice" "r0" w1
     = (Thrown (JsError "Subscription not found or access denied"), w1)
  /\ map sub_status (subscriptions (w_db (snd (cancel "token-bob" "r0" w1))))
     = [Cancelled]
  /\ map user_plan (users (w_db (snd (cancel "token-bob" "r0" w1)))) = [Starter; Starter]
  /\ fst (cancel "token-bob" "r0" w1) = Returned tt.
Proof.
  intros w1 cancel. split; [vm_compute; reflexivity|]. split; [reflexivity|]. split.
  - apply (proj1 (@cancelSubscription_owner_only binary Example.tokens Example.no_parser
                    w1 "token-alice" "r0" "u-alice" eq_refl)).
    intros s [<-|[]] _. reflexivity.
  - destruct (proj2 (@cancelSubscription_owner_only binary Example.tokens
                       Example.no_parser w1 "token-bob" "r0" "u-bob" eq_refl)
                    (nth 0 (subscriptions (w_db w1))
                         {| sub_id := ""; sub_user_id := ""; sub_plan := Starter;
                            sub_status := Inactive; sub_renewal_date := None;
                            sub_start_date := 0%Z |})
                    (or_introl eq_refl) eq_refl eq_refl eq_refl eq_refl eq_refl)
      as (Hs & _ & Hu & Ho).
    + intros r [<-|[]] _. discriminate.
    + unfold cancel. rewrite Hs, Hu. split; [reflexivity|]. split; [reflexivity|].
      apply Ho. reflexivity.
Defined.

(** C2 as stated fails for a subscription that belongs to the requester
    but is not the Active one.  Bob activated Expert (r0), cancelled it and
    activated Pro (r3).  Asked to cancel r0, which is his, the action
    throws and his plan stays Pro. *)
Lemma cancelSubscription_counterexample :
  let w3 := Example.bob_second in
  let activate := @Actions.activateSubscription binary Example.tokens Example.utc in
  let cancel := @Actions.cancelSubscription binary Example.tokens Example.no_parser in
  w3 = snd (activate "token-bob" Pro
              (snd (cancel "token-bob" "r0"
                      (snd (activate "token-bob" Expert Example.start)))))
  /\ map (fun s => (sub_id s, sub_user_id s, sub_status s)) (subscriptions (w_db w3))
     = [("r0", "u-bob", Cancelled); ("r3", "u-bob", Active)]
  /\ map (fun r => (user_id r, user_plan r)) (users (w_db w3))
     = [("u-alice", Starter); ("u-bob", Pro)]
  /\ cancel "token-bob" "r0" w3
     = (Thrown (JsError "Subscription not found or access denied"), w3)
  /\ ~ (fst (cancel "token-bob" "r0" w3) = Returned tt
        /\ map (fun r => (user_id r, user_plan r))
               (users (w_db (snd (cancel "token-bob" "r0" w3))))
           = [("u-alice", Starter); ("u-bob", Starter)]).
Proof.
  intros w3 activate cancel.
  assert (E : cancel "token-bob" "r0" w3
              = (Thrown (JsError "Subscription not found or access denied"), w3))
    by reflexivity.
  split; [vm_compute; reflexivity|].
  split; [reflexivity|]. split; [reflexivity|]. split; [exact E|].
  rewrite E. intros [Hret _]. discriminate.
Qed.

(** The unique key covers every status, not only Active: in the same
    world, Bob's request to cancel r3, his Active subscription, is refused
    by the server because he has a Cancelled row already, and r3 stays
    Active. *)
Example second_cancellation_hits_unique_key :
  @Actions.cancelSubscription binary Example.tokens Example.no_parser
    "token-bob" "r3" Example.bob_second
  = (Thrown (MysqlError ER_DUP_ENTRY "unique_active_subscription"), Example.bob_second).
Proof. reflexivity. Qed.

(** ** The calendar of [Date] *)

Module JsDateFacts.
Import JsDate.
Local Open Scope Z_scope.

Lemma DaysInYear_cases (y : Z) : DaysInYear y = 365 \/ DaysInYear y = 366.
Proof. unfold DaysInYear. destruct (isLeapYear y); auto. Qed.

(** A year is as long as the distance between its first day and the
    next year's. *)
Lemma DayFromYear_succ (y : Z) : DayFromYear (y + 1) = DayFromYear y + DaysInYear y.
Proof.
  unfold DayFromYear, DaysInYear, isLeapYear.
  destruct (Z.eqb_spec (y mod 4) 0) as [E4|E4]; cbn [negb];
    [destruct (Z.eqb_spec (y mod 100) 0) as [E100|E100]; cbn [negb];
     [destruct (Z.eqb_spec (y mod 400) 0) as [E400|E400]; cbn [negb]|]|];
    Z.div_mod_to_equations; lia.
Qed.

Lemma DayFromYear_lt (y : Z) : DayFromYear y < DayFromYear (y + 1).
Proof. rewrite DayFromYear_succ. destruct (DaysInYear_cases y); lia. Qed.

Lemma DayFromYear_mono (y y' : Z) : y <= y' -> DayFromYear y <= DayFromYear y'.
Proof. unfold DayFromYear. intros Hle. Z.div_mod_to_equations. lia. Qed.

(** [YearFromDay] is the year of ECMA-262: the one whose days include
    [d]. *)
Lemma YearFromDay_spec (d : Z) :
  DayFromYear (YearFromDay d) <= d < DayFromYear (YearFromDay d + 1).
Proof.
  unfold YearFromDay. cbv zeta.
  destruct (Z.ltb_spec d (DayFromYear (1970 + d * 400 / 146097))) as [Hlt|Hge].
  - replace (1970 + d * 400 / 146097 - 1 + 1) with (1970 + d * 400 / 146097) by lia.
    split; [|exact Hlt]. unfold DayFromYear. Z.div_mod_to_equations. lia.
  - destruct (Z.leb_spec (DayFromYear (1970 + d * 400 / 146097 + 1)) d) as [Hle|Hgt].
    + split; [exact Hle|]. unfold DayFromYear. Z.div_mod_to_equations. lia.
    + split; [exact Hge | exact Hgt].
Qed.

Lemma YearFromDay_unique (d y : Z) :
  DayFromYear y <= d < DayFromYear (y + 1) -> YearFromDay d = y.
Proof.
  intros [Hlo Hhi]. destruct (YearFromDay_spec d) as [Hlo' Hhi'].
  destruct (Z.lt_trichotomy (YearFromDay d) y) as [Hlt|[Heq|Hgt]]; [|exact Heq|].
  - pose proof (DayFromYear_mono (YearFromDay d + 1) y). lia.
  - pose proof (DayFromYear_mono (y + 1) (YearFromDay d)). lia.
Qed.

Lemma Day_MakeDate (day time : Z) :
  0 <= time < msPerDay -> Day (MakeDate day time) = day.
Proof.
  intros Ht. unfold Day, MakeDate, msPerDay in *. Z.div_mod_to_equations. lia.
Qed.

Lemma TimeWithinDay_MakeDate (day time : Z) :
  0 <= time < msPerDay -> TimeWithinDay (MakeDate day time) = time.
Proof.
  intros Ht. unfold TimeWithinDay, MakeDate, msPerDay in *. Z.div_mod_to_equations. lia.
Qed.

Lemma TimeWithinDay_range (t : Z) : 0 <= TimeWithinDay t < msPerDay.
Proof. unfold TimeWithinDay, msPerDay. apply Z.mod_pos_bound. lia. Qed.

Lemma DayWithinYear_range (t : Z) :
  0 <= DayWithinYear t < DaysInYear (YearFromTime t).
Proof.
  unfold DayWithinYear, YearFromTime.
  pose proof (YearFromDay_spec (Day t)) as S.
  rewrite DayFromYear_succ in S. lia.
Qed.

Ltac decide_ltb :=
  repeat match goal with
         | |- context [?a <? ?b] => destruct (Z.ltb_spec a b); try lia
         end.

Ltac each_month m :=
  let Hm := fresh "Hm" in
  assert (Hm : m = 0 \/ m = 1 \/ m = 2 \/ m = 3 \/ m = 4 \/ m = 5 \/ m = 6
               \/ m = 7 \/ m = 8 \/ m = 9 \/ m = 10 \/ m = 11) by lia;
  repeat destruct Hm as [Hm|Hm]; subst m.

(** The month and the date of a time value are read off the day within
    its year. *)
Lemma MonthDate_of_day (t y m D : Z) :
  YearFromTime t = y ->
  DayWithinYear t = daysBeforeMonth (if isLeapYear y then 1 else 0) m + D - 1 ->
  0 <= m <= 11 -> 1 <= D <= DaysInMonth y m ->
  MonthFromTime t = m /\ DateFromTime t = D.
Proof.
  intros HY Hd Hm HD.
  assert (HM : MonthFromTime t = m).
  { unfold MonthFromTime, InLeapYear. rewrite HY, Hd. cbv zeta. clear Hd HY.
    each_month m; cbn [daysBeforeMonth DaysInMonth] in *;
      destruct (isLeapYear y); decide_ltb; lia. }
  split; [exact HM|]. unfold DateFromTime, InLeapYear. rewrite HM, HY, Hd. cbv zeta.
  clear HM Hd HY.
  each_month m; cbn [daysBeforeMonth DaysInMonth] in *; destruct (isLeapYear y); lia.
Qed.

(** A date of the calendar, as a day number, has the fields it was made
    from. *)
Lemma fields_of_MakeDate (y m D time : Z) :
  0 <= m <= 11 -> 1 <= D <= DaysInMonth y m -> 0 <= time < msPerDay ->
  YearFromTime (MakeDate (MakeDay y m D) time) = y
  /\ MonthFromTime (MakeDate (MakeDay y m D) time) = m
  /\ DateFromTime (MakeDate (MakeDay y m D) time) = D
  /\ TimeWithinDay (MakeDate (MakeDay y m D) time) = time.
Proof.
  intros Hm HD Ht.
  assert (Hday : MakeDay y m D
                 = DayFromYear y + daysBeforeMonth (if isLeapYear y then 1 else 0) m
                   + D - 1).
  { unfold MakeDay. cbv zeta.
    replace (y + m / 12) with y by (Z.div_mod_to_equations; lia).
    replace (m mod 12) with m by (Z.div_mod_to_equations; lia). reflexivity. }
  assert (Hin : 0 <= daysBeforeMonth (if isLeapYear y then 1 else 0) m + D - 1
                < DaysInYear y).
  { unfold DaysInYear. clear Hday.
    each_month m; cbn [daysBeforeMonth DaysInMonth] in *; destruct (isLeapYear y); lia. }
  assert (HY : YearFromTime (MakeDate (MakeDay y m D) time) = y).
  { unfold YearFromTime. rewrite Day_MakeDate by exact Ht.
    apply YearFromDay_unique. rewrite DayFromYear_succ, Hday. lia. }
  assert (Hd : DayWithinYear (MakeDate (MakeDay y m D) time)
               = daysBeforeMonth (if isLeapYear y then 1 else 0) m + D - 1).
  { unfold DayWithinYear. rewrite HY, Day_MakeDate by exact Ht. rewrite Hday. lia. }
  destruct (MonthDate_of_day _ y m D HY Hd Hm HD) as [HM HDt].
  repeat split; try assumption. now apply TimeWithinDay_MakeDate.
Qed.

(** The fields of every time value form a date of the calendar. *)
Lemma fields_valid (t : Z) :
  0 <= MonthFromTime t <= 11
  /\ 1 <= DateFromTime t <= DaysInMonth (YearFromTime t) (MonthFromTime t).
Proof.
  pose proof (DayWithinYear_range t) as R. unfold DaysInYear in R.
  unfold DateFromTime, MonthFromTime, InLeapYear. cbv zeta.
  destruct (isLeapYear (YearFromTime t)) eqn:L;
    decide_ltb; cbn [DaysInMonth]; rewrite ?L; lia.
Qed.

(** Counting the month after [m] with [MakeDay] carries December into the
    next year. *)
Lemma MakeDay_following (y m D : Z) :
  0 <= m <= 11 ->
  MakeDay y (m + 1) D
  = MakeDay (fst (following_month y m)) (snd (following_month y m)) D.
Proof.
  intros Hm. unfold following_month, MakeDay. cbv zeta.
  destruct (Z.eqb_spec m 11) as [->|Hne]; cbn [fst snd].
  - change ((11 + 1) / 12) with 1. change ((11 + 1) mod 12) with 0.
    change (0 / 12) with 0. change (0 mod 12) with 0.
    cbn [daysBeforeMonth]. rewrite !Z.add_0_r. reflexivity.
  - replace (m / 12) with 0 by (Z.div_mod_to_equations; lia).
    replace (m mod 12) with m by (Z.div_mod_to_equations; lia).
    replace ((m + 1) / 12) with 0 by (Z.div_mod_to_equations; lia).
    replace ((m + 1) mod 12) with (m + 1) by (Z.div_mod_to_equations; lia).
    replace (y + 0) with y by lia. reflexivity.
Qed.

Lemma following_month_range (y m : Z) :
  0 <= m <= 11 -> 0 <= snd (following_month y m) <= 11.
Proof.
  intros Hm. unfold following_month. destruct (Z.eqb_spec m 11); cbn [snd]; lia.
Qed.

(** *** Adding a month *)

Section SetMonth.
Context `{HostTimeZone}.

(** When the day of the month exists in the following month,
    [setMonth(getMonth() + 1)] is "plus one calendar month" on the local
    time. *)
Lemma setMonth_plus_one (tv : Z) :
  DateFromTime (LocalTime tv)
  <= DaysInMonth (fst (following_month (YearFromTime (LocalTime tv))
                                       (MonthFromTime (LocalTime tv))))
                 (snd (following_month (YearFromTime (LocalTime tv))
                                       (MonthFromTime (LocalTime tv)))) ->
  setMonth tv (getMonth tv + 1)
  = TimeClip (UTC (plus_one_calendar_month (LocalTime tv))).
Proof.
  intros Hfits. unfold setMonth, getMonth, plus_one_calendar_month. cbv zeta.
  destruct (fields_valid (LocalTime tv)) as [Hm _].
  rewrite (MakeDay_following _ _ _ Hm).
  destruct (following_month _ _) as [y' m']. cbn [fst snd] in *.
  now rewrite Z.min_l.
Qed.

End SetMonth.

(** "Plus one calendar month" lands in the following month, on the same
    day when the month has it and on its last day otherwise, at the same
    time of day. *)
Lemma plus_one_calendar_month_fields (t : Z) :
  let y' := fst (following_month (YearFromTime t) (MonthFromTime t)) in
  let m' := snd (following_month (YearFromTime t) (MonthFromTime t)) in
  YearFromTime (plus_one_calendar_month t) = y'
  /\ MonthFromTime (plus_one_calendar_month t) = m'
  /\ DateFromTime (plus_one_calendar_month t) = Z.min (DateFromTime t) (DaysInMonth y' m')
  /\ TimeWithinDay (plus_one_calendar_month t) = TimeWithinDay t.
Proof.
  cbv zeta. unfold plus_one_calendar_month.
  destruct (fields_valid t) as [Hm [HD _]].
  pose proof (following_month_range (YearFromTime t) _ Hm) as Hm'.
  destruct (following_month _ _) as [y' m']. cbn [fst snd] in *.
  apply fields_of_MakeDate; [exact Hm' | | apply TimeWithinDay_range].
  assert (28 <= DaysInMonth y' m').
  { unfold DaysInMonth. each_month m'; destruct (isLeapYear y'); lia. }
  lia.
Qed.

(** *** The text of a date *)

Lemma digit_not_T (n : Z) : Ascii.eqb (digit n) "T" = false.
Proof.
  unfold digit. pose proof (Z.mod_pos_bound n 10 ltac:(lia)) as B.
  assert (Hn : (Z.to_nat (n mod 10) < 10)%nat) by lia.
  destruct (Z.to_nat (n mod 10)) as [|k]; [reflexivity|].
  do 9 (destruct k as [|k]; [reflexivity|]).
  exfalso. lia.
Qed.

Lemma sql_text_shape (y1 y2 y3 y4 m1 m2 d1 d2 h1 h2 n1 n2 s1 s2 : ascii)
      (rest : string) :
  Forall (fun c => Ascii.eqb c "T" = false) [y1; y2; y3; y4; m1; m2; d1; d2] ->
  JsString.replace "T" " "
    (JsString.slice0 19
       (String y1 (String y2 (String y3 (String y4 (String "-"
       (String m1 (String m2 (String "-" (String d1 (String d2 (String "T"
       (String h1 (String h2 (String ":" (String n1 (String n2 (String ":"
       (String s1 (String s2 rest))))))))))))))))))))
  = String y1 (String y2 (String y3 (String y4 (String "-"
    (String m1 (String m2 (String "-" (String d1 (String d2 (String " "
    (String h1 (String h2 (String ":" (String n1 (String n2 (String ":"
    (String s1 (String s2 "")))))))))))))))))).
Proof.
  intros Hall.
  repeat match goal with
         | Hf : Forall _ (_ :: _) |- _ => inversion Hf; subst; clear Hf
         end.
  unfold JsString.slice0. simpl.
  repeat (match goal with
          | Hc : Ascii.eqb ?c _ = false |- context [Ascii.eqb ?c _] => rewrite Hc
          end; simpl).
  destruct rest; reflexivity.
Qed.

(** For a year written with four digits, [toSqlDatetime] is the DATETIME
    text of the UTC fields: no T and no zone designator. *)
Lemma toSqlDatetime_text (r : Z) :
  0 <= YearFromTime r <= 9999 ->
  DbAuth.toSqlDatetime (Some r) = Returned (sql_datetime_text r).
Proof.
  intros Hy. unfold DbAuth.toSqlDatetime, toISOString, isoString, isoYear,
               sql_datetime_text.
  assert (E : (0 <=? YearFromTime r) && (YearFromTime r <=? 9999) = true).
  { apply andb_true_intro. split; apply Z.leb_le; lia. }
  rewrite E. unfold pad4, pad3, pad2. cbn [String.append].
  f_equal. apply sql_text_shape.
  repeat constructor; apply digit_not_T.
Qed.

End JsDateFacts.

(** ** The renewal date of a new subscription *)

Section Renewal.
Context `{Collation} `{JsDate.HostTimeZone}.

(** The row and the result of an INSERT that passes every check. *)
Lemma createSubscription_with_success
      (renewal : Z -> option Z) (sqlText isoText : option Z -> Outcome string)
      (w : World) (u : string) (p : Plan) (text iso : string) :
  sqlText (renewal (w_now w)) = Returned text ->
  isoText (renewal (w_now w)) = Returned iso ->
  id_taken (w_rand w (w_next w)) (map sub_id (subscriptions (w_db w))) = false ->
  active_rows u (subscriptions (w_db w)) = [] ->
  id_taken u (map user_id (users (w_db w))) = true ->
  createSubscription_with renewal sqlText isoText (Some u) p w
  = (Returned {| subscription_id := w_rand w (w_next w); subscription_plan := p;
                 subscription_status := Active; renewal_date := Some iso |},
     with_db (with_subscriptions
                (subscriptions (w_db w)
                 ++ [{| sub_id := w_rand w (w_next w); sub_user_id := u;
                        sub_plan := p; sub_status := Active;
                        sub_renewal_date := Some text;
                        sub_start_date := (w_now w / 1000)%Z |}])
                (w_db w))
             (after_draws 1 w)).
Proof.
  intros Htext Hiso Hid Hnone Huser. unfold id_taken in *.
  unfold createSubscription_with, DbAuth.insert_subscriptions, DbAuth.lift,
    randomUUID, random_draw, Date_now, bind, ret. simpl.
  rewrite Htext, Hid. simpl.
  assert (E : existsb (sub_key_eqb (u, Active)) (map sub_key (subscriptions (w_db w)))
              = false).
  { rewrite existsb_map. apply existsb_false_all. intros x Hx.
    destruct (sub_key_eqb _ _) eqn:K; [|reflexivity]. exfalso.
    apply sub_key_eqb_true in K. simpl in K. destruct K as [Ku Ks].
    assert (Hin : In x (active_rows u (subscriptions (w_db w)))).
    { apply active_rows_In. repeat split; [exact Hx | now rewrite coll_sym | now symmetry]. }
    rewrite Hnone in Hin. exact Hin. }
  unfold sub_key at 1. simpl. rewrite E, Huser. simpl. rewrite Hiso. reflexivity.
Qed.

(** Where the code does store the date one calendar month later: for a
    creation instant whose day of the month (in the host's local
    calendar) exists in the following month, [createSubscription] stores
    as renewal_date the instant with the same day of the month and the
    same time of day in the following month, written as the DATETIME text
    of its UTC fields, without a zone designator (for a year of four
    digits). *)
Lemma renewal_date_one_month_later (w : World) (u : string) (p : Plan) (r : Z) :
  let lt := JsDate.LocalTime (w_now w) in
  let y' := fst (following_month (JsDate.YearFromTime lt) (JsDate.MonthFromTime lt)) in
  let m' := snd (following_month (JsDate.YearFromTime lt) (JsDate.MonthFromTime lt)) in
  (JsDate.DateFromTime lt <= JsDate.DaysInMonth y' m')%Z ->
  JsDate.TimeClip (JsDate.UTC (plus_one_calendar_month lt)) = Some r ->
  (0 <= JsDate.YearFromTime r <= 9999)%Z ->
  id_taken (w_rand w (w_next w)) (map sub_id (subscriptions (w_db w))) = false ->
  active_rows u (subscriptions (w_db w)) = [] ->
  id_taken u (map user_id (users (w_db w))) = true ->
  (fst (DbAuth.createSubscription (Some u) p w)
   = Returned {| subscription_id := w_rand w (w_next w); subscription_plan := p;
                 subscription_status := Active;
                 renewal_date := Some (JsDate.isoString r) |}
   /\ subscriptions (w_db (snd (DbAuth.createSubscription (Some u) p w)))
      = subscriptions (w_db w)
        ++ [{| sub_id := w_rand w (w_next w); sub_user_id := u; sub_plan := p;
               sub_status := Active;
               sub_renewal_date := Some (sql_datetime_text r);
               sub_start_date := (w_now w / 1000)%Z |}])
  /\ (JsDate.YearFromTime (plus_one_calendar_month lt) = y'
      /\ JsDate.MonthFromTime (plus_one_calendar_month lt) = m'
      /\ JsDate.DateFromTime (plus_one_calendar_month lt) = JsDate.DateFromTime lt
      /\ JsDate.TimeWithinDay (plus_one_calendar_month lt) = JsDate.TimeWithinDay lt).
Proof.
  cbv zeta. intros Hfits Hr Hyear Hid Hnone Huser. split.
  - rewrite createSubscription_as_with.
    rewrite (createSubscription_with_success
               (fun now => JsDate.setMonth now (JsDate.getMonth now + 1))
               DbAuth.toSqlDatetime JsDate.toISOString w u p
               (sql_datetime_text r) (JsDate.isoString r)); auto.
    + rewrite (JsDateFacts.setMonth_plus_one _ Hfits), Hr.
      now apply JsDateFacts.toSqlDatetime_text.
    + rewrite (JsDateFacts.setMonth_plus_one _ Hfits), Hr. reflexivity.
  - destruct (JsDateFacts.plus_one_calendar_month_fields (JsDate.LocalTime (w_now w)))
      as (HY & HM & HD & HT).
    repeat split; try assumption. rewrite HD. now apply Z.min_l.
Qed.

End Renewal.

(** Bob subscribes at noon (UTC) of 15 January 2025 on a host in India:
    the stored renewal date is noon of 15 February. *)
Lemma renewal_date_mid_month :
  let w := Example.world Example.two_users Example.jan15_noon in
  sql_datetime_text (w_now w) = "2025-01-15 12:00:00"
  /\ map sub_renewal_date
         (subscriptions
            (w_db (snd (@DbAuth.createSubscription binary Example.ist
                          (Some "u-bob") Pro w))))
     = [Some "2025-02-15 12:00:00"].
Proof.
  intros w. split; [vm_compute; reflexivity|].
  destruct (@renewal_date_one_month_later binary Example.ist w "u-bob" Pro
              1739620800000%Z) as [[_ Hrow] _].
  - vm_compute. discriminate.
  - vm_compute. reflexivity.
  - vm_compute. split; discriminate.
  - reflexivity.
  - reflexivity.
  - reflexivity.
  - rewrite Hrow. vm_compute. reflexivity.
Defined.

(** C6.  At the end of a month the stored date is not one calendar month
    after the creation.  Bob subscribes at noon (UTC) of 31 January 2025.
    One calendar month later is 28 February, the last day of the
    following month; [setMonth(getMonth() + 1)] keeps day 31, which
    February lacks, and the stored renewal date is 3 March. *)
Theorem renewal_date_month_end :
  let now := Example.jan31_noon in
  let stored :=
    map sub_renewal_date
        (subscriptions
           (w_db (snd (@DbAuth.createSubscription binary Example.utc
                         (Some "u-bob") Pro Example.start)))) in
  sql_datetime_text now = "2025-01-31 12:00:00"
  /\ sql_datetime_text
       (@JsDate.UTC Example.utc
          (plus_one_calendar_month (@JsDate.LocalTime Example.utc now)))
     = "2025-02-28 12:00:00"
  /\ stored = [Some "2025-03-03 12:00:00"]
  /\ stored <> [Some (sql_datetime_text
                        (@JsDate.UTC Example.utc
                           (plus_one_calendar_month
                              (@JsDate.LocalTime Example.utc now))))].
Proof.
  intros now stored.
  assert (Hs : stored = [Some "2025-03-03 12:00:00"]) by (vm_compute; reflexivity).
  assert (Hp : sql_datetime_text
                 (@JsDate.UTC Example.utc
                    (plus_one_calendar_month (@JsDate.LocalTime Example.utc now)))
               = "2025-02-28 12:00:00") by (vm_compute; reflexivity).
  split; [vm_compute; reflexivity|]. split; [exact Hp|]. split; [exact Hs|].
  rewrite Hs, Hp. discriminate.
Qed.

(** ** Feature lists survive the trip through their JSON text *)

Module JSONFacts.
Import JSON.

Lemma append_assoc (a b c : string) : ((a ++ b) ++ c = a ++ (b ++ c))%string.
Proof. induction a as [|x a IH]; simpl; [reflexivity | now rewrite IH]. Qed.

Lemma append_empty_r (a : string) : (a ++ "" = a)%string.
Proof. induction a as [|x a IH]; simpl; [reflexivity | now rewrite IH]. Qed.

(** Inside a string literal, the escape sequence of a character reads
    back as that character. *)
Lemma lex_escape_char (c : ascii) (acc rest : string) (out : list token) :
  lex (LString acc) (escape_char c ++ rest) out = lex (LString (snoc acc c)) rest out.
Proof.
  destruct c as [b0 b1 b2 b3 b4 b5 b6 b7].
  destruct b0, b1, b2, b3, b4, b5, b6, b7; reflexivity.
Qed.

Lemma lex_escape (s acc rest : string) (out : list token) :
  lex (LString acc) (escape s ++ String dquote rest) out
  = lex LStart rest (out ++ [TStr (acc ++ s)]).
Proof.
  revert acc. induction s as [|c s IH]; intros acc.
  - simpl. now rewrite append_empty_r.
  - cbn [escape]. rewrite append_assoc, lex_escape_char, IH.
    unfold snoc. now rewrite append_assoc.
Qed.

Lemma lex_quote (s rest : string) (out : list token) :
  lex LStart (quote s ++ rest) out = lex LStart rest (out ++ [TStr s]).
Proof.
  unfold quote. cbn [append]. rewrite append_assoc. cbn [append].
  change (lex LStart (String dquote ?r) out) with (lex (LString "") r out).
  apply lex_escape.
Qed.

Lemma join_quote (s : string) (l : list string) :
  join "," (map quote (s :: l)) = (quote s ++ more_text l)%string.
Proof.
  revert s. induction l as [|t l IH]; intros s.
  - simpl. now rewrite append_empty_r.
  - change (join "," (map quote (s :: t :: l)))
      with (quote s ++ "," ++ join "," (map quote (t :: l)))%string.
    rewrite IH. reflexivity.
Qed.

Lemma lex_more (l : list string) (rest : string) (out : list token) :
  lex LStart (more_text l ++ rest) out = lex LStart rest (out ++ more_tokens l).
Proof.
  revert out. induction l as [|s l IH]; intros out.
  - simpl. now rewrite app_nil_r.
  - cbn [more_text fold_right more_tokens flat_map].
    change (lex LStart (("," ++ ?r) ++ rest) out)
      with (lex LStart (r ++ rest) (out ++ [TComma])).
    rewrite append_assoc, lex_quote.
    change (fold_right _ "" l) with (more_text l). rewrite IH.
    change (flat_map _ l) with (more_tokens l).
    now rewrite <- !app_assoc.
Qed.

Lemma parse_more (l : list string) (done : list json) :
  parse_tokens (PArrAfter done, []) (more_tokens l ++ [TRBracket])
  = Some (JArr (done ++ map JStr l)).
Proof.
  revert done. induction l as [|s l IH]; intros done.
  - simpl. now rewrite app_nil_r.
  - simpl. change (flat_map _ l) with (more_tokens l).
    rewrite IH. now rewrite <- app_assoc.
Qed.

(** What [JSON.stringify] writes for an array of strings, [JSON.parse]
    reads back as that array. *)
Lemma parse_stringify_strings (l : list string) :
  parse (stringify (of_strings l)) = Some (of_strings l).
Proof.
  unfold of_strings, parse. cbn [stringify]. rewrite map_map.
  change (map (fun x => stringify (JStr x)) l) with (map quote l).
  change (lex LStart ("[" ++ ?r) []) with (lex LStart r [TLBracket]).
  destruct l as [|s l].
  - reflexivity.
  - rewrite join_quote, append_assoc, lex_quote, lex_more.
    cbn [lex app]. simpl. apply (parse_more l [JStr s]).
Qed.

End JSONFacts.

(** ** The package catalog *)

From Stdlib Require Import Sorted Permutation.

Section Catalog.
Context `{Collation}.

Lemma read_features_stringify (l : list string) :
  DbAuth.read_features (Some (JSON.stringify (JSON.of_strings l))) = JSON.of_strings l.
Proof.
  unfold DbAuth.read_features, DbAuth.or_null.
  change (String.eqb (JSON.stringify (JSON.of_strings l)) "") with false.
  cbv iota. now rewrite JSONFacts.parse_stringify_strings.
Qed.

Lemma filter_key_fresh {R} (key : R -> string) (k : string) (t : list R) :
  id_taken k (map key t) = false ->
  filter (fun r => coll_eqb (key r) k) t = [].
Proof.
  unfold id_taken. rewrite existsb_key_sym. apply existsb_false_filter.
Qed.

(** X9.  A package that [createPackage] has stored is found again under the id
    and under the name it returned, with the name, price, currency,
    display order and the feature list that were given: the features come
    back from their JSON text unchanged, whatever characters they
    hold. *)
Theorem createPackage_then_getPackageById (w : World) (data : DbAuth.CreatePackageData) :
  id_taken (w_rand w (w_next w)) (map package_id (packages (w_db w))) = false ->
  id_taken (DbAuth.cp_name data) (map package_name (packages (w_db w))) = false ->
  exists pkg w' stored,
    DbAuth.createPackage data w = (Returned pkg, w')
    /\ DbAuth.getPackageById (DbAuth.pkg_id pkg) w' = (Returned (Some stored), w')
    /\ DbAuth.getPackageByName (DbAuth.cp_name data) w' = (Returned (Some stored), w')
    /\ DbAuth.pkg_id stored = DbAuth.pkg_id pkg
    /\ DbAuth.pkg_name stored = DbAuth.cp_name data
    /\ DbAuth.pkg_price stored = DbAuth.cp_price data
    /\ DbAuth.pkg_currency stored = DbAuth.pkg_currency pkg
    /\ DbAuth.pkg_display_order stored = DbAuth.pkg_display_order pkg
    /\ DbAuth.pkg_active stored = true
    /\ DbAuth.pkg_features stored = Some (JSON.of_strings (features_given data)).
Proof.
  intros Hid Hname. rewrite createPackage_run, Hid, Hname. cbn [orb].
  do 3 eexists. split; [reflexivity|].
  unfold DbAuth.getPackageById, DbAuth.getPackageByName, get_db, bind, ret.
  cbn [w_db with_db with_packages packages new_package DbAuth.pkg_id].
  rewrite !filter_app, (filter_key_fresh package_id _ _ Hid),
    (filter_key_fresh package_name _ _ Hname).
  cbn [filter app new_package_row package_id package_name]. rewrite !coll_refl.
  split; [reflexivity|]. split; [reflexivity|].
  repeat (split; [reflexivity|]).
  cbn [DbAuth.pkg_features DbAuth.package_of_row new_package_row package_features].
  unfold features_given. destruct (DbAuth.cp_features data) as [l|]; cbn [option_map].
  - now rewrite read_features_stringify.
  - reflexivity.
Qed.

Lemma listed_before_order (a b : PackageRow) :
  DbAuth.listed_before a b = true <-> catalog_order a b.
Proof.
  unfold DbAuth.listed_before, catalog_order.
  rewrite orb_true_iff, andb_true_iff, Z.ltb_lt, Z.eqb_eq, Z.leb_le. tauto.
Qed.

Lemma listed_before_total (a b : PackageRow) :
  DbAuth.listed_before a b = false -> catalog_order b a.
Proof.
  unfold DbAuth.listed_before, catalog_order. intros E.
  apply orb_false_elim in E. destruct E as [E1 E2].
  apply Z.ltb_ge in E1. apply andb_false_elim in E2.
  destruct E2 as [E2|E2]; [apply Z.eqb_neq in E2 | apply Z.leb_gt in E2]; lia.
Qed.

Lemma catalog_order_trans (a b c : PackageRow) :
  catalog_order a b -> catalog_order b c -> catalog_order a c.
Proof. unfold catalog_order. lia. Qed.

Lemma order_insert_perm (x : PackageRow) (l : list PackageRow) :
  Permutation (DbAuth.order_insert x l) (x :: l).
Proof.
  induction l as [|y l IH]; simpl; [reflexivity|].
  destruct (DbAuth.listed_before x y); [reflexivity|].
  rewrite IH. apply perm_swap.
Qed.

Lemma order_insert_sorted (x : PackageRow) (l : list PackageRow) :
  Sorted catalog_order l -> Sorted catalog_order (DbAuth.order_insert x l).
Proof.
  induction l as [|y l IH]; simpl; intros S.
  - repeat constructor.
  - destruct (DbAuth.listed_before x y) eqn:E.
    + constructor; [exact S|]. constructor. now apply listed_before_order.
    + inversion S as [|? ? S' Hd]; subst. constructor; [now apply IH|].
      destruct l as [|z l]; simpl.
      * constructor. now apply listed_before_total.
      * destruct (DbAuth.listed_before x z).
        -- constructor. now apply listed_before_total.
        -- inversion Hd; subst. now constructor.
Qed.

(** X10.  [getAllPackages] returns the packages that the listing selects (all
    of them, or the active ones), each once, in the order of ORDER BY
    display_order ASC, created_at DESC: of any two packages returned, the
    earlier one has the smaller display order, or the same display order
    and a creation time that is not older. *)
Theorem getAllPackages_sorted (activeOnly : bool) (w : World) :
  exists rows,
    DbAuth.getAllPackages activeOnly w
    = (Returned (map DbAuth.package_of_row rows), w)
    /\ Permutation rows (selected_packages activeOnly (w_db w))
    /\ StronglySorted catalog_order rows.
Proof.
  exists (DbAuth.order_by_display (selected_packages activeOnly (w_db w))).
  split; [reflexivity|].
  generalize (selected_packages activeOnly (w_db w)) as l. intros l. split.
  - induction l as [|x l IH]; simpl; [reflexivity|].
    now rewrite order_insert_perm, IH.
  - apply Sorted_StronglySorted.
    + intros a b c. apply catalog_order_trans.
    + induction l as [|x l IH]; simpl; [constructor|].
      now apply order_insert_sorted.
Qed.

Lemma package_updates_empty (data : DbAuth.PackagePatch) :
  Nat.eqb (List.length (package_updates data)) 0 = empty_package_patch data.
Proof.
  destruct data as [n d p c f a o]. destruct n, d, p, c, f, a, o; reflexivity.
Qed.

Lemma package_updates_apply (data : DbAuth.PackagePatch) (now : Z) (r : PackageRow) :
  fold_left DbAuth.assign_package
            (package_updates data ++ [DbAuth.SetPackageUpdatedAt now]) r
  = patched_package now data r.
Proof.
  destruct data as [n d p c f a o]. destruct n, d, p, c, f, a, o; reflexivity.
Qed.

Lemma getPackageById_run (id : string) (w : World) :
  DbAuth.getPackageById id w
  = (Returned (option_map DbAuth.package_of_row
                 (first_or_null (filter (fun r => coll_eqb (package_id r) id)
                                        (packages (w_db w))))), w).
Proof.
  unfold DbAuth.getPackageById, get_db, bind, ret. cbn.
  destruct (filter _ _); reflexivity.
Qed.

(** How [updatePackage] runs with a patch that names a field. *)
Lemma updatePackage_run (w : World) (id : string) (data : DbAuth.PackagePatch) :
  empty_package_patch data = false ->
  DbAuth.updatePackage id data w
  = if distinct coll_eqb
         (map package_name
              (packages_after_update (w_now w / 1000) id data (packages (w_db w))))
    then DbAuth.getPackageById id
           (with_db (with_packages
                       (packages_after_update (w_now w / 1000) id data
                                              (packages (w_db w)))
                       (w_db w)) w)
    else (Thrown (JsError "A package with this name already exists"), w).
Proof.
  intros Hne. unfold DbAuth.updatePackage.
  change (DbAuth.push_if (DbAuth.pp_display_order data) _ _) with (package_updates data).
  rewrite package_updates_empty, Hne.
  unfold bind, NOW, try_catch, DbAuth.update_packages, packages_after_update.
  cbn [w_db w_now].
  rewrite (map_ext
             (fun r => if coll_eqb (package_id r) id
                       then fold_left DbAuth.assign_package
                              (package_updates data
                               ++ [DbAuth.SetPackageUpdatedAt (w_now w / 1000)]) r
                       else r)
             (fun r => if coll_eqb (package_id r) id
                       then patched_package (w_now w / 1000) data r else r)).
  - destruct (distinct coll_eqb _); [|reflexivity].
    now rewrite getPackageById_run.
  - intros r. now rewrite package_updates_apply.
Qed.

Lemma filter_unique {R} (key : R -> string) (t : list R) (r : R) (k : string) :
  distinct coll_eqb (map key t) = true -> In r t -> coll_eqb (key r) k = true ->
  filter (fun x => coll_eqb (key x) k) t = [r].
Proof.
  intros D Hin E.
  pose proof (distinct_filter_le_1 key t k D) as L.
  assert (Hf : In r (filter (fun x => coll_eqb (key x) k) t))
    by (apply filter_In; now split).
  destruct (filter (fun x => coll_eqb (key x) k) t) as [|a [|b l]]; simpl in *.
  - contradiction.
  - destruct Hf as [->|[]]. reflexivity.
  - lia.
Qed.

Lemma filter_map_key {R} (key : R -> string) (f : R -> R) (k : string) (t : list R) :
  (forall r, key (f r) = key r) ->
  filter (fun x => coll_eqb (key x) k) (map f t)
  = map f (filter (fun x => coll_eqb (key x) k) t).
Proof.
  intros Hf. induction t as [|r t IH]; simpl; [reflexivity|].
  rewrite Hf. destruct (coll_eqb (key r) k); simpl; now rewrite IH.
Qed.

Lemma packages_after_update_id (now : Z) (id : string) (data : DbAuth.PackagePatch)
      (r : PackageRow) :
  package_id (if coll_eqb (package_id r) id then patched_package now data r else r)
  = package_id r.
Proof. destruct (coll_eqb (package_id r) id); reflexivity. Qed.

Lemma with_packages_same (w : World) : with_db (with_packages (packages (w_db w)) (w_db w)) w = w.
Proof. destruct w as [[] ? ? ?]; reflexivity. Qed.

Lemma packages_after_update_none (now : Z) (id : string) (data : DbAuth.PackagePatch)
      (t : list PackageRow) :
  filter (fun r => coll_eqb (package_id r) id) t = [] ->
  packages_after_update now id data t = t.
Proof.
  unfold packages_after_update. induction t as [|r t IH]; simpl; [reflexivity|].
  destruct (coll_eqb (package_id r) id); [discriminate|].
  intros E. now rewrite IH.
Qed.

(** X11.  Renaming a package to the name of another package fails with "A
    package with this name already exists", whatever else the patch
    holds, and nothing is changed. *)
Theorem updatePackage_name_conflict (w : World) (id newName : string)
        (data : DbAuth.PackagePatch) (target other : PackageRow) :
  DbAuth.pp_name data = Some newName ->
  In target (packages (w_db w)) -> coll_eqb (package_id target) id = true ->
  In other (packages (w_db w)) -> coll_eqb (package_id other) id = false ->
  coll_eqb (package_name other) newName = true ->
  DbAuth.updatePackage id data w
  = (Thrown (JsError "A package with this name already exists"), w).
Proof.
  intros Hname Ht Et Ho Eo En. rewrite updatePackage_run.
  2:{ unfold empty_package_patch. now rewrite Hname. }
  destruct (distinct coll_eqb _) eqn:D; [exfalso|reflexivity].
  unfold packages_after_update in D.
  assert (E : patched_package (w_now w / 1000) data target = other).
  { apply (distinct_key_inj package_name _ _ _ D).
    - apply in_map_iff. exists target. now rewrite Et.
    - apply in_map_iff. exists other. now rewrite Eo.
    - cbn [patched_package package_name]. rewrite Hname, coll_sym. exact En. }
  assert (Eid : package_id target = package_id other) by now rewrite <- E.
  rewrite Eid in Et. congruence.
Qed.

(** X12.  An update that names a field and does not rename cannot fail: the
    package comes back with the fields of the patch replaced, the others
    kept and [updated_at] stamped; a feature list in the patch reads back
    as that list; the packages under other ids are left as they were. *)
Theorem updatePackage_without_rename (w : World) (id : string)
        (data : DbAuth.PackagePatch) (r : PackageRow) :
  packages_ok (packages (w_db w)) = true ->
  DbAuth.pp_name data = None ->
  empty_package_patch data = false ->
  In r (packages (w_db w)) -> coll_eqb (package_id r) id = true ->
  let r' := patched_package (w_now w / 1000) data r in
  exists w',
    DbAuth.updatePackage id data w = (Returned (Some (DbAuth.package_of_row r')), w')
    /\ DbAuth.getPackageById id w' = (Returned (Some (DbAuth.package_of_row r')), w')
    /\ packages (w_db w')
       = map (fun x => if coll_eqb (package_id x) id then r' else x) (packages (w_db w))
    /\ (forall l, DbAuth.pp_features data = Some l ->
                  DbAuth.pkg_features (DbAuth.package_of_row r')
                  = Some (JSON.of_strings l)).
Proof.
  intros Hok Hname Hne Hin Eid r'. unfold packages_ok in Hok.
  apply andb_prop in Hok. destruct Hok as [Dids Dnames].
  rewrite updatePackage_run by exact Hne.
  assert (Names : map package_name
                      (packages_after_update (w_now w / 1000) id data (packages (w_db w)))
                  = map package_name (packages (w_db w))).
  { unfold packages_after_update. rewrite map_map. apply map_ext. intros x.
    destruct (coll_eqb (package_id x) id); [|reflexivity].
    cbn [patched_package package_name]. now rewrite Hname. }
  rewrite Names, Dnames.
  assert (Same : packages_after_update (w_now w / 1000) id data (packages (w_db w))
                 = map (fun x => if coll_eqb (package_id x) id then r' else x)
                       (packages (w_db w))).
  { unfold packages_after_update. apply map_ext_in. intros x Hx.
    destruct (coll_eqb (package_id x) id) eqn:Ex; [|reflexivity].
    assert (x = r) as ->; [|reflexivity].
    apply (distinct_key_inj package_id _ _ _ Dids Hx Hin).
    rewrite (coll_eqb_congr _ _ _ Ex), coll_sym. exact Eid. }
  assert (Get : forall w', packages (w_db w')
                           = packages_after_update (w_now w / 1000) id data
                                                   (packages (w_db w)) ->
                           DbAuth.getPackageById id w'
                           = (Returned (Some (DbAuth.package_of_row r')), w')).
  { intros w' E. rewrite getPackageById_run, E. unfold packages_after_update.
    rewrite (filter_map_key package_id) by apply packages_after_update_id.
    rewrite (filter_unique package_id _ r id Dids Hin Eid). cbn [map first_or_null].
    now rewrite Eid. }
  eexists. split; [apply Get; reflexivity|]. split; [apply Get; reflexivity|].
  split; [exact Same|].
  intros l El. subst r'.
  cbn [DbAuth.pkg_features DbAuth.package_of_row patched_package package_features].
  now rewrite El, read_features_stringify.
Qed.

(** X13.  After [deletePackage], no package is found under the id, and the
    lookup under any other id gives what it gave before. *)
Theorem deletePackage_then_getPackageById (w : World) (id : string) :
  exists w',
    DbAuth.deletePackage id w = (Returned tt, w')
    /\ DbAuth.getPackageById id w' = (Returned None, w')
    /\ (forall j, coll_eqb j id = false ->
                  fst (DbAuth.getPackageById j w') = fst (DbAuth.getPackageById j w))
    /\ (forall r, In r (packages (w_db w')) <->
                  In r (packages (w_db w)) /\ coll_eqb (package_id r) id = false).
Proof.
  eexists. split; [reflexivity|].
  cbn [w_db with_db with_packages packages].
  split; [|split].
  - rewrite getPackageById_run. cbn [w_db with_db with_packages packages].
    rewrite filter_all_false; [reflexivity|].
    intros x Hx. apply filter_In in Hx. destruct Hx as [_ Hx].
    now apply negb_true_iff in Hx.
  - intros j Hj. rewrite !getPackageById_run. cbn [fst w_db with_db with_packages packages].
    do 3 f_equal. induction (packages (w_db w)) as [|x t IH]; simpl; [reflexivity|].
    destruct (coll_eqb (package_id x) id) eqn:Ex; simpl.
    + rewrite (coll_eqb_congr _ _ _ Ex), coll_sym, Hj. exact IH.
    + now rewrite IH.
  - intros r. rewrite filter_In, negb_true_iff. tauto.
Qed.

End Catalog.

(** A package whose features hold a quote, a backslash and a line break
    is stored and read back with the same features. *)
Lemma createPackage_then_getPackageById_witness :
  let data := {| DbAuth.cp_name := "Hybrid"; DbAuth.cp_description := None;
                 DbAuth.cp_price := 7999%Z; DbAuth.cp_currency := None;
                 DbAuth.cp_features := Some Sample.awkward_features;
                 DbAuth.cp_display_order := None; DbAuth.cp_created_by := None |} in
  exists pkg w' stored,
    @DbAuth.createPackage binary data Sample.world = (Returned pkg, w')
    /\ @DbAuth.getPackageById binary (DbAuth.pkg_id pkg) w' = (Returned (Some stored), w')
    /\ @DbAuth.getPackageByName binary "Hybrid" w' = (Returned (Some stored), w')
    /\ DbAuth.pkg_id stored = DbAuth.pkg_id pkg
    /\ DbAuth.pkg_name stored = "Hybrid"
    /\ DbAuth.pkg_price stored = 7999%Z
    /\ DbAuth.pkg_currency stored = DbAuth.pkg_currency pkg
    /\ DbAuth.pkg_display_order stored = DbAuth.pkg_display_order pkg
    /\ DbAuth.pkg_active stored = true
    /\ DbAuth.pkg_features stored = Some (JSON.of_strings Sample.awkward_features).
Proof.
  intros data.
  apply (@createPackage_then_getPackageById binary Sample.world data);
    vm_compute; reflexivity.
Defined.

(** With a collation that ignores case, "server" is the name of the
    package Server: renaming Desktop to it is refused. *)
Lemma updatePackage_name_conflict_witness :
  let data := {| DbAuth.pp_name := Some "server"; DbAuth.pp_description := None;
                 DbAuth.pp_price := Some 1%Z; DbAuth.pp_currency := None;
                 DbAuth.pp_features := None; DbAuth.pp_active := None;
                 DbAuth.pp_display_order := None |} in
  @DbAuth.updatePackage ascii_ci "p-1" data Sample.world
  = (Thrown (JsError "A package with this name already exists"), Sample.world).
Proof.
  intros data.
  apply (@updatePackage_name_conflict ascii_ci Sample.world "p-1" "server" data
           Sample.desktop Sample.server);
    vm_compute; auto.
Defined.

(** Desktop gets a new price and new features and keeps its name. *)
Lemma updatePackage_without_rename_witness :
  let data := {| DbAuth.pp_name := None; DbAuth.pp_description := Some "";
                 DbAuth.pp_price := Some 100%Z; DbAuth.pp_currency := None;
                 DbAuth.pp_features := Some Sample.awkward_features;
                 DbAuth.pp_active := None; DbAuth.pp_display_order := None |} in
  let r' := patched_package Sample.now_seconds data Sample.desktop in
  package_price r' = 100%Z /\ package_description r' = None
  /\ package_name r' = "Desktop"
  /\ exists w',
      @DbAuth.updatePackage binary "p-1" data Sample.world
      = (Returned (Some (DbAuth.package_of_row r')), w')
      /\ @DbAuth.getPackageById binary "p-1" w'
         = (Returned (Some (DbAuth.package_of_row r')), w')
      /\ packages (w_db w')
         = map (fun x => if @coll_eqb binary (package_id x) "p-1" then r' else x)
               (packages (w_db Sample.world))
      /\ (forall l, DbAuth.pp_features data = Some l ->
                    DbAuth.pkg_features (DbAuth.package_of_row r')
                    = Some (JSON.of_strings l)).
Proof.
  intros data r'. split; [reflexivity|]. split; [reflexivity|]. split; [reflexivity|].
  apply (@updatePackage_without_rename binary Sample.world "p-1" data Sample.desktop);
    vm_compute; auto.
Defined.

(** ** Accounts: lookups, updates and deletion *)

Section AccountsMore.
Context `{Collation} `{Bcrypt}.

Lemma user_updates_empty (data : UserPatch) :
  Nat.eqb (List.length (user_updates data)) 0 = empty_user_patch data.
Proof. destruct data as [n e p s]. destruct n, e, p, s; reflexivity. Qed.

Lemma user_updates_apply (data : UserPatch) (r : UserRow) :
  fold_left assign_user (user_updates data) r = patched_user data r.
Proof.
  destruct data as [n e p s]. destruct r. destruct n, e, p, s; reflexivity.
Qed.

Lemma updateUser_run (w : World) (i : SqlStr) (data : UserPatch) :
  DbAuth.updateUser i data w
  = if empty_user_patch data then (Returned tt, w)
    else
      let t' := map (fun r => if sql_eqb (user_id r) i then patched_user data r else r)
                    (users (w_db w)) in
      if distinct coll_eqb (map user_email t')
      then (Returned tt, with_db (with_users t' (w_db w)) w)
      else (Thrown (MysqlError ER_DUP_ENTRY "email"), w).
Proof.
  unfold DbAuth.updateUser.
  change (DbAuth.push_if (patch_status data) _ _) with (user_updates data).
  rewrite user_updates_empty. destruct (empty_user_patch data); [reflexivity|].
  unfold DbAuth.update_users. cbv zeta.
  rewrite (map_ext
             (fun r => if sql_eqb (user_id r) i
                       then fold_left assign_user (user_updates data) r else r)
             (fun r => if sql_eqb (user_id r) i then patched_user data r else r)).
  - reflexivity.
  - intros r. now rewrite user_updates_apply.
Qed.


(** X2.  Changing the email of an account to the email of another account
    fails with the duplicate-entry error of the driver as it is (the data
    layer does not turn it into "Email already exists" here), and
    nothing of the patch is applied. *)
Theorem updateUser_email_conflict (w : World) (i e : string) (data : UserPatch)
        (target other : UserRow) :
  patch_email data = Some e ->
  In target (users (w_db w)) -> coll_eqb (user_id target) i = true ->
  In other (users (w_db w)) -> coll_eqb (user_id other) i = false ->
  coll_eqb (user_email other) e = true ->
  DbAuth.updateUser (Some i) data w = (Thrown (MysqlError ER_DUP_ENTRY "email"), w).
Proof.
  intros He Ht Et Ho Eo En. rewrite updateUser_run.
  replace (empty_user_patch data) with false
    by (unfold empty_user_patch; rewrite He; now destruct (patch_name data)).
  cbv zeta. destruct (distinct coll_eqb _) eqn:D; [exfalso|reflexivity].
  assert (E : patched_user data target = other).
  { apply (distinct_key_inj user_email _ _ _ D).
    - apply in_map_iff. exists target. unfold sql_eqb. now rewrite Et.
    - apply in_map_iff. exists other. unfold sql_eqb. now rewrite Eo.
    - cbn [patched_user user_email]. rewrite He, coll_sym. exact En. }
  assert (Eid : user_id target = user_id other) by now rewrite <- E.
  rewrite Eid in Et. congruence.
Qed.

(** X3.  However it ends, [updateUser] leaves the id, the role, the password
    hash and the last login of every account as they were, in the same
    order, every account under another id untouched, and every other table
    alone. *)
Theorem updateUser_keeps_identity (w : World) (i : SqlStr) (data : UserPatch) :
  let w' := snd (DbAuth.updateUser i data w) in
  map user_identity (users (w_db w')) = map user_identity (users (w_db w))
  /\ (forall r, In r (users (w_db w)) -> sql_eqb (user_id r) i = false ->
                In r (users (w_db w')))
  /\ admins (w_db w') = admins (w_db w)
  /\ subscriptions (w_db w') = subscriptions (w_db w)
  /\ user_sessions (w_db w') = user_sessions (w_db w)
  /\ audit_logs (w_db w') = audit_logs (w_db w)
  /\ packages (w_db w') = packages (w_db w).
Proof.
  rewrite updateUser_run.
  destruct (empty_user_patch data); [cbn; tauto|]. cbv zeta.
  destruct (distinct coll_eqb _); [|cbn; tauto].
  cbn [snd w_db with_db with_users users admins subscriptions user_sessions
       audit_logs packages].
  split; [|split; [|tauto]].
  - rewrite map_map. apply map_ext. intros r.
    destruct (sql_eqb (user_id r) i); reflexivity.
  - intros r Hin Hr. apply in_map_iff. exists r. now rewrite Hr.
Qed.

Lemma with_users_same (w : World) : with_db (with_users (users (w_db w)) (w_db w)) w = w.
Proof. destruct w as [[] ? ? ?]; reflexivity. Qed.

(** [updateUser] reports nothing when there is nothing to do: with a
    patch that names no field, or under an id that no account has, it
    returns and the world is as it was. *)
Theorem updateUser_nothing_to_do (w : World) (i : SqlStr) (data : UserPatch) :
  distinct coll_eqb (map user_email (users (w_db w))) = true ->
  empty_user_patch data = true
  \/ filter (fun r => sql_eqb (user_id r) i) (users (w_db w)) = [] ->
  DbAuth.updateUser i data w = (Returned tt, w).
Proof.
  intros D Hcase. rewrite updateUser_run.
  destruct (empty_user_patch data); [reflexivity|].
  destruct Hcase as [Hcase|Hcase]; [discriminate|]. cbv zeta.
  assert (Same : map (fun r => if sql_eqb (user_id r) i then patched_user data r else r)
                     (users (w_db w)) = users (w_db w)).
  { induction (users (w_db w)) as [|r t IH]; simpl in *; [reflexivity|].
    destruct (sql_eqb (user_id r) i); [discriminate|].
    apply andb_prop in D. now rewrite IH. }
  now rewrite Same, D, with_users_same.
Qed.

(** With an account under the id, the rows that go with it are those
    that refer to that id. *)
Lemma gone_with (t : list UserRow) (i uid : string) (r : UserRow) :
  In r t -> coll_eqb (user_id r) i = true ->
  existsb (fun u => coll_eqb (user_id u) i && coll_eqb (user_id u) uid) t
  = coll_eqb uid i.
Proof.
  intros Hin Er. destruct (coll_eqb uid i) eqn:E.
  - apply existsb_exists. exists r. split; [exact Hin|]. rewrite Er. cbn [andb].
    rewrite (coll_eqb_congr _ _ _ Er), coll_sym. exact E.
  - apply existsb_false_all. intros u _.
    destruct (coll_eqb (user_id u) i) eqn:Eu; [cbn [andb]|reflexivity].
    rewrite (coll_eqb_congr _ _ _ Eu), coll_sym. exact E.
Qed.

(** X4.  [deleteUser] takes with the account everything that belongs to it:
    afterwards no account is found under the id, no subscription and no
    session of that user is left, and the others are all still there; the
    audit trail keeps every entry with what it recorded, and no entry
    still refers to the deleted user. *)
Theorem deleteUser_cascade (w : World) (i : string) (r : UserRow) :
  In r (users (w_db w)) -> coll_eqb (user_id r) i = true ->
  exists w',
    DbAuth.deleteUser i w = (Returned tt, w')
    /\ DbAuth.getUserById (Some i) w' = (Returned None, w')
    /\ DbAuth.getSubscription (Some i) w' = (Returned None, w')
    /\ (forall u, In u (users (w_db w')) <->
                  In u (users (w_db w)) /\ coll_eqb (user_id u) i = false)
    /\ (forall s, In s (subscriptions (w_db w')) <->
                  In s (subscriptions (w_db w)) /\ coll_eqb (sub_user_id s) i = false)
    /\ (forall s, In s (user_sessions (w_db w')) <->
                  In s (user_sessions (w_db w)) /\ coll_eqb (session_user_id s) i = false)
    /\ map audit_record (audit_logs (w_db w')) = map audit_record (audit_logs (w_db w))
    /\ (forall a u, In a (audit_logs (w_db w')) -> audit_user_id a = Some u ->
                    coll_eqb u i = false).
Proof.
  intros Hin Er. exists (snd (DbAuth.deleteUser i w)). split; [reflexivity|].
  unfold DbAuth.deleteUser, get_db, put_db, bind.
  cbn [snd w_db with_db users subscriptions user_sessions audit_logs].
  split; [|split; [|split; [|split; [|split; [|split]]]]].
  - unfold DbAuth.getUserById, DbAuth.select_users_by_id, get_db, bind, ret, sql_eqb.
    cbn [w_db with_db users]. rewrite filter_all_false; [reflexivity|].
    intros u Hu. apply filter_In in Hu. destruct Hu as [_ Hu].
    now apply negb_true_iff in Hu.
  - unfold DbAuth.getSubscription, get_db, bind, ret, sql_eqb.
    cbn [w_db with_db subscriptions]. rewrite filter_all_false; [reflexivity|].
    intros s Hs. apply filter_In in Hs. destruct Hs as [_ Hs].
    rewrite (gone_with _ _ _ r Hin Er) in Hs. apply negb_true_iff in Hs.
    now rewrite Hs.
  - intros u. rewrite filter_In, negb_true_iff. tauto.
  - intros s. rewrite filter_In, negb_true_iff, (gone_with _ _ _ r Hin Er). tauto.
  - intros s. rewrite filter_In, negb_true_iff, (gone_with _ _ _ r Hin Er). tauto.
  - rewrite map_map. apply map_ext. intros a.
    destruct (audit_user_id a) as [u|]; [|reflexivity].
    destruct (existsb _ _); reflexivity.
  - intros a u Ha Eu. apply in_map_iff in Ha. destruct Ha as (a0 & Ea & _).
    destruct (audit_user_id a0) as [u0|] eqn:E0.
    + rewrite (gone_with _ _ _ r Hin Er) in Ea.
      destruct (coll_eqb u0 i) eqn:E1; subst a; cbn in Eu; [discriminate|].
      congruence.
    + subst a. congruence.
Qed.


End AccountsMore.


(** Alice cannot take Bob's email, in whatever case it is written. *)
Lemma updateUser_email_conflict_witness :
  let data := {| patch_name := Some "Alice B."; patch_email := Some "BOB@X.COM";
                 patch_plan := None; patch_status := None |} in
  @DbAuth.updateUser ascii_ci (Some "u-alice") data Sample.world
  = (Thrown (MysqlError ER_DUP_ENTRY "email"), Sample.world).
Proof.
  intros data.
  apply (@updateUser_email_conflict ascii_ci Sample.world "u-alice" "BOB@X.COM" data
           Example.alice Example.bob);
    vm_compute; auto.
Defined.

(** Bob is deleted: his subscription and his session go with him. *)
Lemma deleteUser_cascade_witness :
  exists w',
    @DbAuth.deleteUser binary "u-bob" Sample.world = (Returned tt, w')
    /\ @DbAuth.getUserById binary (Some "u-bob") w' = (Returned None, w')
    /\ @DbAuth.getSubscription binary (Some "u-bob") w' = (Returned None, w')
    /\ (forall u, In u (users (w_db w')) <->
                  In u (users (w_db Sample.world))
                  /\ @coll_eqb binary (user_id u) "u-bob" = false)
    /\ (forall s, In s (subscriptions (w_db w')) <->
                  In s (subscriptions (w_db Sample.world))
                  /\ @coll_eqb binary (sub_user_id s) "u-bob" = false)
    /\ (forall s, In s (user_sessions (w_db w')) <->
                  In s (user_sessions (w_db Sample.world))
                  /\ @coll_eqb binary (session_user_id s) "u-bob" = false)
    /\ map audit_record (audit_logs (w_db w'))
       = map audit_record (audit_logs (w_db Sample.world))
    /\ (forall a u, In a (audit_logs (w_db w')) -> audit_user_id a = Some u ->
                    @coll_eqb binary u "u-bob" = false).
Proof.
  apply (@deleteUser_cascade binary Sample.world "u-bob" Example.bob);
    vm_compute; auto.
Defined.


(** ** Sessions *)

Section Sessions.
Context `{Collation}.

Lemma filter_filter_In {A} (p q : A -> bool) (l : list A) :
  (forall x, In x l -> p x = true -> q x = true) ->
  filter p (filter q l) = filter p l.
Proof.
  induction l as [|a l IH]; simpl; intros Hpq; [reflexivity|].
  destruct (q a) eqn:Eq; simpl.
  - rewrite IH; [reflexivity|]. intros x Hx. apply Hpq. now right.
  - destruct (p a) eqn:Ep.
    + rewrite (Hpq a (or_introl eq_refl) Ep) in Eq. discriminate.
    + apply IH. intros x Hx. apply Hpq. now right.
Qed.

Lemma getSessionByToken_run (token : string) (w : World) :
  DbAuth.getSessionByToken token w
  = (Returned
       (first_or_null
          (map (fun r => {| DbAuth.info_id := session_id r;
                            DbAuth.info_user_id := session_user_id r;
                            DbAuth.info_expires_at := session_expires_at r |})
               (filter (fun r => coll_eqb (session_token r) token
                                 && DbAuth.not_expired (w_now w / 1000) r)
                       (user_sessions (w_db w))))), w).
Proof. reflexivity. Qed.


(** [createSession] stores nothing under a token that is in use, and
    nothing for a user id that is not registered: the error of the driver
    reaches the caller (a duplicate entry, or a missing referenced row),
    and the tables are as they were. *)
Theorem createSession_refused
        (w : World) (userId sessionToken : string) (expiresAt : Z)
        (userAgent ipAddress : string) :
  id_taken sessionToken (map session_token (user_sessions (w_db w))) = true
  \/ id_taken userId (map user_id (users (w_db w))) = false ->
  exists code key w',
    DbAuth.createSession userId sessionToken expiresAt (Some userAgent)
      (Some ipAddress) w
    = (Thrown (MysqlError code key), w')
    /\ w_db w' = w_db w
    /\ (code = ER_DUP_ENTRY \/ code = ER_NO_REFERENCED_ROW_2).
Proof.
  unfold id_taken. intros Hcase.
  unfold DbAuth.createSession, DbAuth.insert_user_sessions, randomUUID, random_draw,
    bind, ret.
  cbn [w_db w_now w_rand w_next session_id session_token session_user_id].
  destruct (existsb (coll_eqb (w_rand w (w_next w))) _).
  { do 3 eexists. split; [reflexivity|]. split; [reflexivity|]. now left. }
  destruct (existsb (coll_eqb sessionToken) _).
  { do 3 eexists. split; [reflexivity|]. split; [reflexivity|]. now left. }
  destruct Hcase as [Hcase|Hcase]; [discriminate|]. rewrite Hcase. cbn [negb].
  do 3 eexists. split; [reflexivity|]. split; [reflexivity|]. now right.
Qed.

(** X7.  [deleteExpiredSessions] removes the sessions whose expiry has come
    and only those, so no lookup by token sees a difference: for every
    token, [getSessionByToken] gives afterwards what it gave before. *)
Theorem deleteExpiredSessions_unseen (w : World) :
  exists w',
    DbAuth.deleteExpiredSessions w = (Returned tt, w')
    /\ (forall token, fst (DbAuth.getSessionByToken token w')
                      = fst (DbAuth.getSessionByToken token w))
    /\ (forall s, In s (user_sessions (w_db w')) <->
                  In s (user_sessions (w_db w))
                  /\ (forall e, session_expires_at s = Some e -> (w_now w / 1000 < e)%Z)).
Proof.
  exists (snd (DbAuth.deleteExpiredSessions w)). split; [reflexivity|].
  unfold DbAuth.deleteExpiredSessions, get_db, put_db, NOW, bind.
  cbn [snd]. split.
  - intros token. rewrite !getSessionByToken_run.
    cbn [fst w_db w_now with_db DbAuth.with_user_sessions user_sessions].
    rewrite filter_filter_In; [reflexivity|].
    intros x _. unfold DbAuth.not_expired.
    destruct (session_expires_at x) as [e|]; [|reflexivity].
    rewrite andb_true_iff, Z.ltb_lt, negb_true_iff, Z.leb_gt. tauto.
  - intros s. cbn [w_db with_db DbAuth.with_user_sessions user_sessions].
    rewrite filter_In. split; intros [Hin Hs]; (split; [exact Hin|]).
    + intros e Ee. rewrite Ee in Hs. apply negb_true_iff, Z.leb_gt in Hs. exact Hs.
    + destruct (session_expires_at s) as [e|]; [|reflexivity].
      apply negb_true_iff, Z.leb_gt. now apply Hs.
Qed.

(** After [deleteSession], the token of the deleted session finds
    nothing, and the token of every other session finds what it found
    before. *)
Theorem deleteSession_then_getSessionByToken (w : World) (sessionId : string)
        (s : SessionRow) :
  sessions_ok (user_sessions (w_db w)) = true ->
  In s (user_sessions (w_db w)) ->
  exists w',
    DbAuth.deleteSession sessionId w = (Returned tt, w')
    /\ (coll_eqb (session_id s) sessionId = true ->
        DbAuth.getSessionByToken (session_token s) w' = (Returned None, w'))
    /\ (coll_eqb (session_id s) sessionId = false ->
        fst (DbAuth.getSessionByToken (session_token s) w')
        = fst (DbAuth.getSessionByToken (session_token s) w)).
Proof.
  unfold sessions_ok. intros D Hin.
  exists (snd (DbAuth.deleteSession sessionId w)). split; [reflexivity|].
  unfold DbAuth.deleteSession, get_db, put_db, bind. cbn [snd].
  assert (Only : forall x, In x (user_sessions (w_db w)) ->
                           coll_eqb (session_token x) (session_token s) = true -> x = s).
  { intros x Hx E. exact (distinct_key_inj session_token _ _ _ D Hx Hin E). }
  split.
  - intros Es. rewrite getSessionByToken_run.
    cbn [w_db with_db DbAuth.with_user_sessions user_sessions].
    rewrite filter_all_false; [reflexivity|].
    intros x Hx. apply filter_In in Hx. destruct Hx as [Hx Nx].
    destruct (coll_eqb (session_token x) (session_token s)) eqn:E; [|reflexivity].
    rewrite (Only x Hx E), Es in Nx. discriminate.
  - intros Es. rewrite !getSessionByToken_run.
    cbn [fst w_db w_now with_db DbAuth.with_user_sessions user_sessions].
    rewrite filter_filter_In; [reflexivity|].
    intros x Hx Ex. apply andb_prop in Ex. destruct Ex as [Ex _].
    now rewrite (Only x Hx Ex), Es.
Qed.

End Sessions.


(** Alice's session is deleted; Bob's token finds what it found before
    (nothing: his session has expired). *)
Lemma deleteSession_then_getSessionByToken_witness :
  exists w',
    @DbAuth.deleteSession binary "s-1" Sample.world = (Returned tt, w')
    /\ (@coll_eqb binary (session_id Sample.alice_session) "s-1" = true ->
        @DbAuth.getSessionByToken binary (session_token Sample.alice_session) w'
        = (Returned None, w'))
    /\ (@coll_eqb binary (session_id Sample.alice_session) "s-1" = false ->
        fst (@DbAuth.getSessionByToken binary (session_token Sample.alice_session) w')
        = fst (@DbAuth.getSessionByToken binary (session_token Sample.alice_session)
                 Sample.world)).
Proof.
  apply (@deleteSession_then_getSessionByToken binary Sample.world "s-1"
           Sample.alice_session);
    vm_compute; auto.
Defined.

(** ** Authorization of the server actions *)

Section Authorization.
Context `{Collation} `{Bcrypt} `{JwtLib} `{JsDate.HostTimeZone} `{JsDate.DateParser}.

Lemma verifyAdminRole_run (token : string) (w : World) :
  Actions.verifyAdminRole token w
  = (match token_payload w token with
     | Some (Some p) => if admin_payload p then Returned (jwt_userId p)
                        else Thrown (JsError "Unauthorized or insufficient permissions")
     | Some None => Thrown (JsError "Unauthorized or insufficient permissions")
     | None => if String.eqb token "" then Thrown (JsError "No token provided")
               else Thrown (JsError "Invalid token")
     end, w).
Proof.
  unfold Actions.verifyAdminRole, token_payload, admin_payload, verifyJWT, try_catch,
    bind, ret, throw.
  destruct (String.eqb token ""); [reflexivity|].
  destruct (verifyJWT_at (w_now w) token) as [[p|]|e]; [|reflexivity|reflexivity].
  destruct (String.eqb (jwt_role p) "admin" || String.eqb (jwt_role p) "superadmin");
    reflexivity.
Qed.

Lemma verifyAdminRole_refuses (token : string) (w : World) :
  admin_token w token = false ->
  exists e, refusal e /\ Actions.verifyAdminRole token w = (Thrown e, w).
Proof.
  unfold admin_token, refusal. intros Hno. rewrite verifyAdminRole_run.
  destruct (token_payload w token) as [[p|]|].
  - rewrite Hno. eauto 6.
  - eauto 6.
  - destruct (String.eqb token ""); eauto 6.
Qed.

(** X14.  Without the token of an admin (no token, a token that [verifyJWT]
    rejects, or the token of an ordinary user) every admin action is
    turned away before it reads or writes anything: it throws, and the
    world is as it was. *)
Theorem admin_actions_require_admin (w : World) (token : string) :
  admin_token w token = false ->
  exists e,
    refusal e
    /\ (forall data, Actions.addUser token data w = (Thrown e, w))
    /\ (forall userId data, Actions.updateUserAction token userId data w = (Thrown e, w))
    /\ (forall userId, Actions.deleteUserAction token userId w = (Thrown e, w))
    /\ (forall newPassword,
           Actions.changeAdminPassword token newPassword w = (Thrown e, w))
    /\ Actions.seedDefaultPackagesAction token w = (Thrown e, w)
    /\ (forall data, Actions.createPackageAction token data w = (Thrown e, w))
    /\ (forall packageId data,
           Actions.updatePackageAction token packageId data w = (Thrown e, w))
    /\ (forall packageId, Actions.deletePackageAction token packageId w = (Thrown e, w)).
Proof.
  intros Hno. destruct (verifyAdminRole_refuses token w Hno) as (e & He & Hv).
  exists e. split; [exact He|].
  unfold Actions.addUser, Actions.updateUserAction, Actions.deleteUserAction,
    Actions.changeAdminPassword, Actions.seedDefaultPackagesAction,
    Actions.createPackageAction, Actions.updatePackageAction,
    Actions.deletePackageAction, bind.
  rewrite Hv. repeat split.
Qed.

Lemma verifyAdminRole_accepts (token : string) (w : World) :
  admin_token w token = true ->
  exists admin, Actions.verifyAdminRole token w = (Returned admin, w).
Proof.
  unfold admin_token. intros Hyes. rewrite verifyAdminRole_run.
  destruct (token_payload w token) as [[p|]|]; try discriminate.
  rewrite Hyes. eauto.
Qed.

(** For an id that no package has, an admin's update and an admin's
    deletion both fail with "Package not found"; nothing is written, not
    even an audit entry. *)
Theorem package_actions_missing_package
        (w : World) (token packageId : string) (data : DbAuth.PackagePatch) :
  admin_token w token = true ->
  packages_ok (packages (w_db w)) = true ->
  filter (fun r => coll_eqb (package_id r) packageId) (packages (w_db w)) = [] ->
  Actions.updatePackageAction token packageId data w
  = (Thrown (JsError "Package not found"), w)
  /\ Actions.deletePackageAction token packageId w
     = (Thrown (JsError "Package not found"), w).
Proof.
  intros Hadmin Hok Hnone. destruct (verifyAdminRole_accepts token w Hadmin) as (a & Hv).
  unfold packages_ok in Hok. apply andb_prop in Hok. destruct Hok as [_ Dnames].
  assert (Hget : DbAuth.getPackageById packageId w = (Returned None, w)).
  { rewrite getPackageById_run, Hnone. reflexivity. }
  assert (Hupd : DbAuth.updatePackage packageId data w = (Returned None, w)).
  { destruct (empty_package_patch data) eqn:E.
    - unfold DbAuth.updatePackage.
      change (DbAuth.push_if (DbAuth.pp_display_order data) _ _)
        with (package_updates data).
      rewrite package_updates_empty, E. exact Hget.
    - rewrite updatePackage_run by exact E.
      rewrite packages_after_update_none by exact Hnone.
      rewrite Dnames, with_packages_same. exact Hget. }
  split.
  - unfold Actions.updatePackageAction, bind. now rewrite Hv, Hupd.
  - unfold Actions.deletePackageAction, bind. now rewrite Hv, Hget.
Qed.

(** *** The subscription actions act for the caller only *)

Lemma others_untouched_refl (u : string) (d : Db) : others_untouched u d d.
Proof. unfold others_untouched. tauto. Qed.

Lemma others_untouched_trans (u : string) (d1 d2 d3 : Db) :
  others_untouched u d1 d2 -> others_untouched u d2 d3 -> others_untouched u d1 d3.
Proof.
  unfold others_untouched. intros (A1 & A2 & A3 & A4 & A5) (B1 & B2 & B3 & B4 & B5).
  repeat split; congruence.
Qed.

(** A statement after which nothing has changed for the others keeps
    "nothing has changed for the others since [d0]". *)
Lemma others_step {A} (u : string) (d0 : Db) (m : M A) :
  (forall w, others_untouched u (w_db w) (w_db (snd (m w)))) ->
  preserves (others_untouched u d0) m.
Proof. intros Hm w Hw. exact (others_untouched_trans u _ _ _ Hw (Hm w)). Qed.

Lemma filter_others_map {R} (key : R -> string) (f : R -> R) (u : string) (t : list R) :
  (forall r, key (f r) = key r) ->
  (forall r, coll_eqb (key r) u = false -> f r = r) ->
  filter (fun r => negb (coll_eqb (key r) u)) (map f t)
  = filter (fun r => negb (coll_eqb (key r) u)) t.
Proof.
  intros Hkey Hid. induction t as [|r t IH]; simpl; [reflexivity|].
  rewrite Hkey, IH. destruct (coll_eqb (key r) u) eqn:E; simpl; [reflexivity|].
  now rewrite Hid.
Qed.

Lemma updateUser_others (u : string) (data : UserPatch) (w : World) :
  others_untouched u (w_db w) (w_db (snd (DbAuth.updateUser (Some u) data w))).
Proof.
  rewrite updateUser_run. destruct (empty_user_patch data);
    [apply others_untouched_refl|]. cbv zeta.
  destruct (distinct coll_eqb _); [|apply others_untouched_refl].
  unfold others_untouched. cbn [snd w_db with_db with_users users subscriptions admins
                                 user_sessions packages].
  split; [|tauto]. apply (filter_others_map user_id).
  - intros r. destruct (sql_eqb (user_id r) (Some u)); reflexivity.
  - intros r E. unfold sql_eqb. now rewrite E.
Qed.

Lemma logAuditAction_others (u : string) (data : DbAuth.AuditData) (w : World) :
  others_untouched u (w_db w) (w_db (snd (DbAuth.logAuditAction data w))).
Proof.
  destruct (logAuditAction_frame w data) as (Fu & Fa & Fs & Fss & Fp).
  unfold others_untouched. rewrite Fu, Fa, Fs, Fss, Fp. tauto.
Qed.

Lemma createSubscription_others (u : string) (p : Plan) (w : World) :
  others_untouched u (w_db w) (w_db (snd (DbAuth.createSubscription (Some u) p w))).
Proof.
  unfold DbAuth.createSubscription, DbAuth.insert_subscriptions, DbAuth.lift,
    randomUUID, random_draw, Date_now, bind, ret.
  cbn [w_db w_now w_rand w_next].
  destruct (DbAuth.toSqlDatetime _) as [text|e]; [|apply others_untouched_refl].
  repeat match goal with
         | |- context [if ?c then _ else _] =>
             destruct c; [try apply others_untouched_refl|]
         end; try apply others_untouched_refl.
  destruct (JsDate.toISOString _);
    unfold others_untouched;
    cbn [snd w_db with_db with_subscriptions users subscriptions admins
         user_sessions packages];
    rewrite filter_app; cbn [filter sub_user_id]; rewrite coll_refl; cbn [negb];
    rewrite app_nil_r; tauto.
Qed.

Lemma filter_others_map_In {R} (key : R -> string) (f : R -> R) (u : string)
      (t : list R) :
  (forall r, key (f r) = key r) ->
  (forall r, In r t -> coll_eqb (key r) u = false -> f r = r) ->
  filter (fun r => negb (coll_eqb (key r) u)) (map f t)
  = filter (fun r => negb (coll_eqb (key r) u)) t.
Proof.
  intros Hkey Hid. induction t as [|r t IH]; simpl; [reflexivity|].
  rewrite Hkey, IH by (intros x Hx; apply Hid; now right).
  destruct (coll_eqb (key r) u) eqn:E; simpl; [reflexivity|].
  rewrite Hid; [reflexivity | now left | exact E].
Qed.

(** Cancelling under an id whose rows all belong to [u]. *)
Lemma cancel_others (u subscriptionId : string) (w : World) :
  (forall r, In r (subscriptions (w_db w)) ->
             coll_eqb (sub_id r) subscriptionId = true ->
             coll_eqb (sub_user_id r) u = true) ->
  others_untouched u (w_db w)
    (w_db (snd (DbAuth.updateSubscription subscriptionId
                  {| DbAuth.patch_sub_plan := None;
                     DbAuth.patch_sub_status := Some Cancelled;
                     DbAuth.patch_renewal_date := None |} w))).
Proof.
  intros Hown. unfold DbAuth.updateSubscription, DbAuth.update_subscriptions,
    DbAuth.push_if. cbn [DbAuth.patch_sub_plan DbAuth.patch_sub_status
                         DbAuth.patch_renewal_date app List.length Nat.eqb].
  destruct (distinct sub_key_eqb _); [|apply others_untouched_refl].
  unfold others_untouched.
  cbn [snd w_db with_db with_subscriptions users subscriptions admins
       user_sessions packages].
  split; [reflexivity|]. split; [|tauto].
  apply (filter_others_map_In sub_user_id).
  - intros r. destruct (coll_eqb (sub_id r) subscriptionId); reflexivity.
  - intros r Hr E. destruct (coll_eqb (sub_id r) subscriptionId) eqn:Ei; [|reflexivity].
    rewrite (Hown r Hr Ei) in E. discriminate.
Qed.

(** X15.  [activateSubscription] and [cancelSubscription] act for the user of
    the token and for nobody else: however the call ends, the accounts and
    the subscriptions of all other users are the rows they were, and the
    admins, the sessions and the packages are untouched. *)
Theorem subscription_actions_own_rows_only (w : World) (token u : string) :
  Actions.getCurrentUserId token w = (Returned (Some u), w) ->
  distinct coll_eqb (map sub_id (subscriptions (w_db w))) = true ->
  (forall planName,
      others_untouched u (w_db w)
        (w_db (snd (Actions.activateSubscription token planName w))))
  /\ (forall subscriptionId,
         others_untouched u (w_db w)
           (w_db (snd (Actions.cancelSubscription token subscriptionId w)))).
Proof.
  intros Hid Dids. split.
  - intros planName. unfold Actions.activateSubscription, bind at 1. rewrite Hid.
    match goal with
    | |- others_untouched _ _ (w_db (snd (?m w))) =>
        assert (P : preserves (others_untouched u (w_db w)) m)
    end.
    { apply preserves_bind; [apply others_step, createSubscription_others|].
      intros s. apply preserves_bind; [apply others_step, updateUser_others|].
      intros _. apply preserves_bind; [apply others_step, logAuditAction_others|].
      intros _. apply preserves_ret. }
    apply P, others_untouched_refl.
  - intros subscriptionId. unfold Actions.cancelSubscription, bind at 1. rewrite Hid.
    unfold bind at 1. rewrite getSubscription_run.
    destruct (active_rows u (subscriptions (w_db w))) as [|x rest] eqn:F;
      [apply others_untouched_refl|].
    cbn [hd_error option_map DbAuth.subscription_of_row subscription_id].
    destruct (String.eqb_spec (sub_id x) subscriptionId) as [E|E];
      [|apply others_untouched_refl].
    cbn [negb].
    assert (Hx : In x (active_rows u (subscriptions (w_db w)))) by (rewrite F; now left).
    apply active_rows_In in Hx. destruct Hx as (Hin & Hu & _).
    assert (Hown : forall r, In r (subscriptions (w_db w)) ->
                             coll_eqb (sub_id r) subscriptionId = true ->
                             coll_eqb (sub_user_id r) u = true).
    { intros r Hr Er. rewrite <- E in Er.
      now rewrite (distinct_key_inj sub_id _ _ _ Dids Hr Hin Er). }
    pose proof (cancel_others u subscriptionId w Hown) as Step.
    unfold bind at 1.
    destruct (DbAuth.updateSubscription subscriptionId _ w) as [[[]|e] w1];
      [|exact Step].
    cbn [snd] in Step.
    match goal with
    | |- others_untouched _ _ (w_db (snd (?m w1))) =>
        assert (P : preserves (others_untouched u (w_db w)) m)
    end.
    { apply preserves_bind; [apply others_step, updateUser_others|].
      intros _. apply others_step, logAuditAction_others. }
    apply P, Step.
Qed.

End Authorization.

(** Alice's token is a valid token of an ordinary user: no admin action
    accepts it. *)
Lemma admin_actions_require_admin_witness :
  let w := Sample.world in
  let token := "token-alice" in
  exists e,
    refusal e
    /\ (forall data,
           @Actions.addUser binary Example.plain_bcrypt Sample.tokens token data w
           = (Thrown e, w))
    /\ (forall userId data,
           @Actions.updateUserAction binary Sample.tokens token userId data w
           = (Thrown e, w))
    /\ (forall userId,
           @Actions.deleteUserAction binary Sample.tokens token userId w = (Thrown e, w))
    /\ (forall newPassword,
           @Actions.changeAdminPassword binary Example.plain_bcrypt Sample.tokens token
             newPassword w = (Thrown e, w))
    /\ @Actions.seedDefaultPackagesAction binary Sample.tokens token w = (Thrown e, w)
    /\ (forall data,
           @Actions.createPackageAction binary Sample.tokens token data w = (Thrown e, w))
    /\ (forall packageId data,
           @Actions.updatePackageAction binary Sample.tokens token packageId data w
           = (Thrown e, w))
    /\ (forall packageId,
           @Actions.deletePackageAction binary Sample.tokens token packageId w
           = (Thrown e, w)).
Proof.
  intros w token.
  apply (@admin_actions_require_admin binary Example.plain_bcrypt Sample.tokens w token).
  vm_compute. reflexivity.
Defined.

(** Whatever Bob activates or cancels, nothing changes for Alice and
    Carol. *)
Lemma subscription_actions_own_rows_only_witness :
  let w := Sample.world in
  (forall planName,
      @others_untouched binary "u-bob" (w_db w)
        (w_db (snd (@Actions.activateSubscription binary Sample.tokens Example.utc
                      "token-bob" planName w))))
  /\ (forall subscriptionId,
         @others_untouched binary "u-bob" (w_db w)
           (w_db (snd (@Actions.cancelSubscription binary Sample.tokens Example.no_parser
                         "token-bob" subscriptionId w)))).
Proof.
  intros w.
  apply (@subscription_actions_own_rows_only binary Sample.tokens Example.utc
           Example.no_parser w "token-bob" "u-bob");
    vm_compute; reflexivity.
Defined.

(** ** The token verification routes *)

Section Routes.
Context `{Collation} `{JwtLib}.

Lemma substring_all (s : string) : substring 0 (String.length s) s = s.
Proof. induction s as [|c s IH]; simpl; [reflexivity | now rewrite IH]. Qed.

Lemma slice_from_bearer (token : string) :
  slice_from 7 ("Bearer " ++ token) = token.
Proof. unfold slice_from. cbn. rewrite Nat.sub_0_r. apply substring_all. Qed.

Lemma prefix_bearer (token : string) : String.prefix "Bearer " ("Bearer " ++ token) = true.
Proof. apply prefix_correct. cbn. destruct token; reflexivity. Qed.

Lemma getUserById_run (i : string) (w : World) :
  DbAuth.getUserById (Some i) w
  = (Returned (first_or_null
                 (map user_public
                      (filter (fun r => coll_eqb (user_id r) i) (users (w_db w))))), w).
Proof. reflexivity. Qed.

(** X18.  The two routes only read: whatever the request, each of them
    answers (it never throws) and leaves the world as it was. *)
Theorem token_routes_read_only (w : World) :
  (forall request, exists response,
        VerifyRoute.GET request w = (Returned response, w))
  /\ (forall request, exists response,
         CurrentUserRoute.GET request w = (Returned response, w)).
Proof.
  split; intros [auth].
  - unfold VerifyRoute.GET, VerifyRoute.json_response, try_catch, bind, ret, verifyJWT.
    cbn [VerifyRoute.authorization].
    destruct (DbAuth.or_null _) as [token|]; [|eauto].
    destruct (verifyJWT_at (w_now w) token) as [[p|]|e]; [|eauto|eauto].
    rewrite getUserById_run. destruct (first_or_null _); eauto.
  - unfold CurrentUserRoute.GET, CurrentUserRoute.json_response, try_catch, bind, ret,
      verifyJWT.
    cbn [CurrentUserRoute.authorization].
    destruct (DbAuth.or_null auth) as [authHeader|]; [|eauto].
    destruct (String.prefix "Bearer " authHeader); cbn [negb]; [|eauto].
    destruct (verifyJWT_at (w_now w) _) as [[p|]|e]; [|eauto|eauto].
    rewrite getUserById_run. destruct (first_or_null _) as [u|]; [|eauto].
    rewrite getSubscription_run. eauto.
Qed.

(** X19.  With a token that [verifyJWT] accepts for an account that exists,
    the current-user route answers 200 with the public profile of that
    account (name, email, role, plan and status, and no password hash) and
    with its Active subscription, if it has one. *)
Theorem CurrentUserRoute_GET_profile (w : World) (token : string) (p : JwtPayload)
        (r : UserRow) :
  verifyJWT_at (w_now w) token = Returned (Some p) ->
  distinct coll_eqb (map user_id (users (w_db w))) = true ->
  In r (users (w_db w)) -> coll_eqb (user_id r) (jwt_userId p) = true ->
  CurrentUserRoute.GET {| CurrentUserRoute.authorization := bearer token |} w
  = (Returned {| CurrentUserRoute.response_status := 200;
                 CurrentUserRoute.response_body :=
                   CurrentUserRoute.UserBody (user_public r)
                     (active_subscription (user_id r) (w_db w)) |}, w).
Proof.
  intros Hjwt D Hin Er.
  unfold CurrentUserRoute.GET, CurrentUserRoute.json_response, try_catch, bind, ret,
    verifyJWT, bearer.
  cbn [CurrentUserRoute.authorization DbAuth.or_null].
  change (String.eqb ("Bearer " ++ token) "") with false. cbv iota.
  rewrite prefix_bearer. cbn [negb].
  rewrite slice_from_bearer, Hjwt, getUserById_run.
  rewrite (filter_unique user_id _ r _ D Hin Er).
  cbn [map first_or_null user_public id]. rewrite getSubscription_run. reflexivity.
Qed.

(** The same for the route that only verifies: 200 with the public
    profile. *)
Theorem VerifyRoute_GET_profile (w : World) (token : string) (p : JwtPayload)
        (r : UserRow) :
  token <> "" ->
  verifyJWT_at (w_now w) token = Returned (Some p) ->
  distinct coll_eqb (map user_id (users (w_db w))) = true ->
  In r (users (w_db w)) -> coll_eqb (user_id r) (jwt_userId p) = true ->
  VerifyRoute.GET {| VerifyRoute.authorization := bearer token |} w
  = (Returned {| VerifyRoute.response_status := 200;
                 VerifyRoute.response_body := VerifyRoute.UserBody (user_public r) |}, w).
Proof.
  intros Hne Hjwt D Hin Er.
  unfold VerifyRoute.GET, VerifyRoute.json_response, try_catch, bind, ret,
    verifyJWT, bearer.
  cbn [VerifyRoute.authorization DbAuth.or_null].
  change (String.eqb ("Bearer " ++ token) "") with false. cbv iota.
  rewrite prefix_bearer.
  rewrite slice_from_bearer. cbn [DbAuth.or_null].
  destruct (String.eqb_spec token ""); [contradiction|].
  rewrite Hjwt, getUserById_run.
  rewrite (filter_unique user_id _ r _ D Hin Er). reflexivity.
Qed.

(** X20.  A token outlives its account: once the account is deleted, both
    routes answer a token that [verifyJWT] still accepts with 404 "User
    not found". *)
Theorem deleted_user_token_not_found (w : World) (token : string) (p : JwtPayload) :
  token <> "" ->
  verifyJWT_at (w_now w) token = Returned (Some p) ->
  let w' := snd (DbAuth.deleteUser (jwt_userId p) w) in
  fst (VerifyRoute.GET {| VerifyRoute.authorization := bearer token |} w')
  = Returned {| VerifyRoute.response_status := 404;
                VerifyRoute.response_body := VerifyRoute.ErrorBody "User not found" |}
  /\ fst (CurrentUserRoute.GET {| CurrentUserRoute.authorization := bearer token |} w')
     = Returned {| CurrentUserRoute.response_status := 404;
                   CurrentUserRoute.response_body :=
                     CurrentUserRoute.ErrorBody "User not found" |}.
Proof.
  intros Hne Hjwt w'.
  assert (Hnow : w_now w' = w_now w) by reflexivity.
  assert (Hget : DbAuth.getUserById (Some (jwt_userId p)) w' = (Returned None, w')).
  { rewrite getUserById_run. subst w'.
    unfold DbAuth.deleteUser, get_db, put_db, bind. cbn [snd w_db with_db users].
    rewrite filter_all_false; [reflexivity|].
    intros x Hx. apply filter_In in Hx. destruct Hx as [_ Hx].
    now apply negb_true_iff in Hx. }
  split.
  - unfold VerifyRoute.GET, VerifyRoute.json_response, try_catch, bind, ret,
      verifyJWT, bearer.
    cbn [VerifyRoute.authorization DbAuth.or_null].
    change (String.eqb ("Bearer " ++ token) "") with false. cbv iota.
    rewrite prefix_bearer.
    rewrite slice_from_bearer. cbn [DbAuth.or_null].
    destruct (String.eqb_spec token ""); [contradiction|].
    rewrite Hnow, Hjwt, Hget. reflexivity.
  - unfold CurrentUserRoute.GET, CurrentUserRoute.json_response, try_catch, bind, ret,
      verifyJWT, bearer.
    cbn [CurrentUserRoute.authorization DbAuth.or_null].
    change (String.eqb ("Bearer " ++ token) "") with false. cbv iota.
    rewrite prefix_bearer. cbn [negb].
    rewrite slice_from_bearer, Hnow, Hjwt, Hget. reflexivity.
Qed.

End Routes.

(** Bob asks who he is: his profile and his Active subscription. *)
Lemma CurrentUserRoute_GET_profile_witness :
  @CurrentUserRoute.GET binary Sample.tokens
    {| CurrentUserRoute.authorization := Some "Bearer token-bob" |} Sample.world
  = (Returned
       {| CurrentUserRoute.response_status := 200;
          CurrentUserRoute.response_body :=
            CurrentUserRoute.UserBody
              {| id := "u-bob"; email := "bob@x.com"; name := "Bob"; role := RoleUser;
                 plan := Pro; status := AccountActive |}
              (Some {| subscription_id := "s-bob"; subscription_plan := Pro;
                       subscription_status := Active;
                       renewal_date := Some "2025-02-20 09:00:00" |}) |},
     Sample.world).
Proof.
  apply (@CurrentUserRoute_GET_profile binary Sample.tokens Sample.world "token-bob"
           {| jwt_userId := "u-bob"; jwt_email := "bob@x.com"; jwt_role := "user" |}
           Example.bob);
    vm_compute; auto.
Defined.

Lemma VerifyRoute_GET_profile_witness :
  @VerifyRoute.GET binary Sample.tokens
    {| VerifyRoute.authorization := Some "Bearer token-bob" |} Sample.world
  = (Returned
       {| VerifyRoute.response_status := 200;
          VerifyRoute.response_body :=
            VerifyRoute.UserBody
              {| id := "u-bob"; email := "bob@x.com"; name := "Bob"; role := RoleUser;
                 plan := Pro; status := AccountActive |} |},
     Sample.world).
Proof.
  apply (@VerifyRoute_GET_profile binary Sample.tokens Sample.world "token-bob"
           {| jwt_userId := "u-bob"; jwt_email := "bob@x.com"; jwt_role := "user" |}
           Example.bob);
    vm_compute; auto; discriminate.
Defined.

(** Bob is deleted and still holds his token. *)
Lemma deleted_user_token_not_found_witness :
  let w' := snd (@DbAuth.deleteUser binary "u-bob" Sample.world) in
  fst (@VerifyRoute.GET binary Sample.tokens
         {| VerifyRoute.authorization := bearer "token-bob" |} w')
  = Returned {| VerifyRoute.response_status := 404;
                VerifyRoute.response_body := VerifyRoute.ErrorBody "User not found" |}
  /\ fst (@CurrentUserRoute.GET binary Sample.tokens
            {| CurrentUserRoute.authorization := bearer "token-bob" |} w')
     = Returned {| CurrentUserRoute.response_status := 404;
                   CurrentUserRoute.response_body :=
                     CurrentUserRoute.ErrorBody "User not found" |}.
Proof.
  apply (@deleted_user_token_not_found binary Sample.tokens Sample.world "token-bob"
           {| jwt_userId := "u-bob"; jwt_email := "bob@x.com"; jwt_role := "user" |});
    [discriminate | vm_compute; reflexivity].
Defined.

(** ** Logging in as an admin *)

Section LoginMore.
Context `{Collation} `{Bcrypt} `{JwtLib}.

Lemma touch_admin_run (i : string) (w : World) :
  exists t, AdminLogin.touch_admin i w = (Returned tt, with_db (with_admins t (w_db w)) w)
            /\ map AdminLogin.of_admin t = map AdminLogin.of_admin (admins (w_db w)).
Proof.
  eexists. split; [reflexivity|]. rewrite map_map. apply map_ext. intros r.
  destruct (coll_eqb (admin_id r) i); reflexivity.
Qed.

Lemma updateLastLogin_run (i : string) (w : World) :
  exists o t, DbAuth.updateLastLogin i w = (o, with_db (with_users t (w_db w)) w)
              /\ map user_account t = map user_account (users (w_db w)).
Proof.
  unfold DbAuth.updateLastLogin, DbAuth.update_users, NOW, bind.
  cbn [w_db w_now]. destruct (distinct coll_eqb _).
  - do 2 eexists. split; [reflexivity|]. rewrite map_map. apply map_ext. intros r.
    destruct (sql_eqb (user_id r) (Some i)); reflexivity.
  - exists (Thrown (MysqlError ER_DUP_ENTRY "email")), (users (w_db w)).
    now rewrite with_users_same.
Qed.

(** The route from the point where the account is found and the password
    checked. *)
Lemma POST_success (w : World) (request : AdminLogin.Request) (e pw : string)
      (account : AdminLogin.LoginUser) :
  DbAuth.or_null (AdminLogin.body_email request) = Some e ->
  AdminLogin.body_password request = AdminLogin.Text pw -> pw <> "" ->
  address_fits (AdminLogin.x_forwarded_for request) = true ->
  login_account (w_db w) e = Some account ->
  bcrypt_compare pw (AdminLogin.lu_password_hash account) = true ->
  AdminLogin.lu_role account <> RoleUser ->
  AdminLogin.lu_status account <> AccountCancelled ->
  id_taken (w_rand w (w_next w)) (map audit_id (audit_logs (w_db w))) = false ->
  exists w',
    AdminLogin.POST request w
    = (Returned {| AdminLogin.response_status := 200;
                   AdminLogin.response_body :=
                     login_body account (createJWT_at (w_now w) (login_payload account)) |},
       w')
    /\ map audit_action (audit_logs (w_db w'))
       = map audit_action (audit_logs (w_db w)) ++ ["admin_login"]
    /\ map user_account (users (w_db w')) = map user_account (users (w_db w))
    /\ map AdminLogin.of_admin (admins (w_db w'))
       = map AdminLogin.of_admin (admins (w_db w)).
Proof.
  intros He Hp Hne Hip Hacc Hpw Hrole Hstatus Hfresh.
  apply client_ip_fits in Hip.
  assert (Hname : String.eqb (Role_name (AdminLogin.lu_role account)) "admin"
                  || String.eqb (Role_name (AdminLogin.lu_role account)) "superadmin"
                  = true)
    by (destruct (AdminLogin.lu_role account); [contradiction | reflexivity | reflexivity]).
  unfold login_account in Hacc.
  unfold AdminLogin.POST. rewrite He, Hp, (truthy_text pw Hne).
  cbv [bind ret try_catch AdminLogin.select_admins_by_email
       DbAuth.select_users_by_email get_db AdminLogin.verify_body_password
       DbAuth.verifyPassword AdminLogin.audit AdminLogin.json_response createJWT].
  destruct (filter (fun r => coll_eqb (admin_email r) e) (admins (w_db w)))
    as [|a rest] eqn:Fa.
  - (* the account is in users *)
    rewrite Hacc, Hpw. cbn [negb]. rewrite Hname. cbn [negb List.length Nat.ltb Nat.leb].
    destruct (updateLastLogin_run (AdminLogin.lu_id account) w) as (o & t & Hrun & Ht).
    destruct (AdminLogin.lu_status account) eqn:Es; [|contradiction|];
      rewrite Hrun; destruct o as [[]|err];
      rewrite logAuditAction_run by (first [exact Hip | exact Hfresh]);
      (eexists; split; [unfold login_body; rewrite Es; reflexivity|]);
      cbn [w_db with_db with_audit_logs with_users after_draws audit_logs users admins];
      rewrite map_app; repeat split; exact Ht.
  - (* the account is in admins *)
    inversion Hacc as [Hacc']. rewrite Hacc', Hpw. cbn [negb]. rewrite Hname.
    cbn [negb List.length Nat.ltb Nat.leb].
    destruct (touch_admin_run (AdminLogin.lu_id account) w) as (t & Hrun & Ht).
    destruct (AdminLogin.lu_status account) eqn:Es; [|contradiction|];
      rewrite Hrun;
      rewrite logAuditAction_run by (first [exact Hip | exact Hfresh]);
      (eexists; split; [unfold login_body; rewrite Es; reflexivity|]);
      cbn [w_db with_db with_audit_logs with_admins after_draws audit_logs users admins];
      rewrite map_app; repeat split; exact Ht.
Qed.

Lemma or_null_some (s : string) : s <> "" -> DbAuth.or_null (Some s) = Some s.
Proof. intros Hs. unfold DbAuth.or_null. now destruct (String.eqb_spec s ""). Qed.

(** X21.  An account that is found under the email, with the password that
    matches its hash and the role admin or superadmin, is let in unless its
    status is Cancelled (a Suspended admin is let in), provided the
    x-forwarded-for header fits the column [ip_address] (45 characters) or
    is missing: the answer is 200 with the profile and a token signed for
    its id, email and role.  The login adds the audit entry "admin_login"
    and changes nothing of any account but the time of the last login. *)
Theorem admin_login_success (w : World) (request : AdminLogin.Request) (e pw : string)
        (account : AdminLogin.LoginUser) :
  DbAuth.or_null (AdminLogin.body_email request) = Some e ->
  AdminLogin.body_password request = AdminLogin.Text pw -> pw <> "" ->
  address_fits (AdminLogin.x_forwarded_for request) = true ->
  login_account (w_db w) e = Some account ->
  bcrypt_compare pw (AdminLogin.lu_password_hash account) = true ->
  AdminLogin.lu_role account <> RoleUser ->
  AdminLogin.lu_status account <> AccountCancelled ->
  id_taken (w_rand w (w_next w)) (map audit_id (audit_logs (w_db w))) = false ->
  exists w',
    AdminLogin.POST request w
    = (Returned {| AdminLogin.response_status := 200;
                   AdminLogin.response_body :=
                     login_body account (createJWT_at (w_now w) (login_payload account)) |},
       w')
    /\ map audit_action (audit_logs (w_db w'))
       = map audit_action (audit_logs (w_db w)) ++ ["admin_login"]
    /\ map user_account (users (w_db w')) = map user_account (users (w_db w))
    /\ map AdminLogin.of_admin (admins (w_db w'))
       = map AdminLogin.of_admin (admins (w_db w)).
Proof. apply POST_success. Qed.

(** X22.  With the right password, an account that is not an admin is turned
    away with 403 "Not authorized as admin" and the audit entry
    "admin_login_forbidden", provided the x-forwarded-for header fits the
    column [ip_address] (45 characters) or is missing; an admin whose
    status is Cancelled is turned away with 403 "Account has been
    cancelled", and of that attempt nothing is recorded. *)
Theorem admin_login_turned_away (w : World) (request : AdminLogin.Request) (e pw : string)
        (account : AdminLogin.LoginUser) :
  DbAuth.or_null (AdminLogin.body_email request) = Some e ->
  AdminLogin.body_password request = AdminLogin.Text pw -> pw <> "" ->
  login_account (w_db w) e = Some account ->
  bcrypt_compare pw (AdminLogin.lu_password_hash account) = true ->
  (AdminLogin.lu_role account = RoleUser ->
   address_fits (AdminLogin.x_forwarded_for request) = true ->
   id_taken (w_rand w (w_next w)) (map audit_id (audit_logs (w_db w))) = false ->
   exists w',
     AdminLogin.POST request w
     = (Returned {| AdminLogin.response_status := 403;
                    AdminLogin.response_body :=
                      AdminLogin.ErrorBody "Not authorized as admin" |}, w')
     /\ map audit_action (audit_logs (w_db w'))
        = map audit_action (audit_logs (w_db w)) ++ ["admin_login_forbidden"])
  /\ (AdminLogin.lu_role account <> RoleUser ->
      AdminLogin.lu_status account = AccountCancelled ->
      AdminLogin.POST request w
      = (Returned {| AdminLogin.response_status := 403;
                     AdminLogin.response_body :=
                       AdminLogin.ErrorBody "Account has been cancelled" |}, w)).
Proof.
  intros He Hp Hne Hacc Hpw. unfold login_account in Hacc.
  unfold AdminLogin.POST. rewrite He, Hp, (truthy_text pw Hne).
  cbv [bind ret try_catch AdminLogin.select_admins_by_email
       DbAuth.select_users_by_email get_db AdminLogin.verify_body_password
       DbAuth.verifyPassword AdminLogin.audit AdminLogin.json_response createJWT].
  destruct (filter (fun r => coll_eqb (admin_email r) e) (admins (w_db w)))
    as [|a rest] eqn:Fa;
    [rewrite Hacc | inversion Hacc as [Hacc']; rewrite Hacc'];
    rewrite Hpw; cbn [negb]; split.
  - intros Hrole Hip Hfresh. apply client_ip_fits in Hip. rewrite Hrole.
    cbn [Role_name String.eqb Ascii.eqb Bool.eqb orb negb andb].
    rewrite logAuditAction_run by (first [exact Hip | exact Hfresh]).
    eexists. split; [reflexivity|].
    cbn [w_db with_db with_audit_logs after_draws audit_logs]. now rewrite map_app.
  - intros Hrole Hstatus. rewrite Hstatus.
    destruct (AdminLogin.lu_role account); [contradiction|reflexivity|reflexivity].
  - intros Hrole Hip Hfresh. apply client_ip_fits in Hip. rewrite Hrole.
    cbn [Role_name String.eqb Ascii.eqb Bool.eqb orb negb andb].
    rewrite logAuditAction_run by (first [exact Hip | exact Hfresh]).
    eexists. split; [reflexivity|].
    cbn [w_db with_db with_audit_logs after_draws audit_logs]. now rewrite map_app.
  - intros Hrole Hstatus. rewrite Hstatus.
    destruct (AdminLogin.lu_role account); [contradiction|reflexivity|reflexivity].
Qed.

(** *** Changing the password of an admin *)

Lemma updatePassword_run (w : World) (uid pw : string) :
  6 <= JsString.length pw ->
  distinct coll_eqb (map user_email (users (w_db w))) = true ->
  DbAuth.updatePassword uid pw w
  = (Returned tt,
     with_db (with_users
                (users_with_hash uid
                   (bcrypt_hash pw (w_rand w (w_next w)) DbAuth.BCRYPT_ROUNDS)
                   (users (w_db w)))
                (w_db w))
             (after_draws 1 w)).
Proof.
  intros Hlen D. unfold DbAuth.updatePassword.
  replace (String.eqb pw "" || Nat.ltb (JsString.length pw) 6) with false.
  2:{ symmetry. apply orb_false_intro.
      - apply length_pos_not_empty. lia.
      - apply Nat.ltb_ge. exact Hlen. }
  unfold DbAuth.hashPassword, DbAuth.update_users, random_draw, bind, ret, sql_eqb.
  cbn [w_db w_rand w_next]. rewrite map_email_update by reflexivity. rewrite D.
  reflexivity.
Qed.

Lemma users_with_hash_none (uid h : string) (t : list UserRow) :
  filter (fun r => coll_eqb (user_id r) uid) t = [] -> users_with_hash uid h t = t.
Proof.
  unfold users_with_hash. induction t as [|r t IH]; simpl; [reflexivity|].
  destruct (coll_eqb (user_id r) uid); [discriminate|]. intros E. f_equal. now apply IH.
Qed.

Lemma token_payload_admin (w : World) (token : string) (p : JwtPayload) :
  token_payload w token = Some (Some p) -> admin_payload p = true ->
  Actions.verifyAdminRole token w = (Returned (jwt_userId p), w).
Proof. intros Hp Ha. now rewrite verifyAdminRole_run, Hp, Ha. Qed.

(** X23.  [changeAdminPassword] writes to [users] only.  For an admin of the
    separate [admins] table, whose id no row of [users] carries, and a new
    password of 6 characters or more (as [newPassword.length] counts
    them), it reports "Password changed successfully" although no
    password was changed: [users] and [admins] are as they were, and the
    only trace is the audit entry. *)
Theorem changeAdminPassword_separate_admin
        (w : World) (token newPassword : string) (p : JwtPayload) :
  token_payload w token = Some (Some p) -> admin_payload p = true ->
  6 <= JsString.length newPassword ->
  distinct coll_eqb (map user_email (users (w_db w))) = true ->
  filter (fun r => coll_eqb (user_id r) (jwt_userId p)) (users (w_db w)) = [] ->
  id_taken (w_rand w (1 + w_next w)) (map audit_id (audit_logs (w_db w))) = false ->
  exists w',
    Actions.changeAdminPassword token newPassword w = (Returned password_changed, w')
    /\ users (w_db w') = users (w_db w)
    /\ admins (w_db w') = admins (w_db w)
    /\ map audit_action (audit_logs (w_db w'))
       = map audit_action (audit_logs (w_db w)) ++ ["admin_password_changed"].
Proof.
  intros Hp Ha Hlen D Hnone Hfresh.
  unfold Actions.changeAdminPassword, bind at 1.
  rewrite (token_payload_admin w token p Hp Ha).
  unfold bind at 1. rewrite (updatePassword_run w _ _ Hlen D).
  rewrite users_with_hash_none by exact Hnone.
  unfold bind at 1. rewrite logAuditAction_run by (first [reflexivity | exact Hfresh]).
  eexists. split; [reflexivity|].
  cbn [w_db with_db with_audit_logs with_users after_draws audit_logs users admins].
  rewrite map_app. repeat split.
Qed.

(** X24.  For an admin whose account is a row of [users] and a new password
    of 6 characters or more (as [newPassword.length] counts them), the
    change takes effect at once: the next login under the email of the
    account succeeds with the new password, and a password that the new
    hash does not match gets 401. *)
Theorem changeAdminPassword_then_login
        (w : World) (token newPassword : string) (p : JwtPayload) (r : UserRow) :
  token_payload w token = Some (Some p) -> admin_payload p = true ->
  6 <= JsString.length newPassword ->
  users_ok (users (w_db w)) = true ->
  In r (users (w_db w)) -> coll_eqb (user_id r) (jwt_userId p) = true ->
  user_role r <> RoleUser -> user_status r <> AccountCancelled ->
  user_email r <> "" ->
  filter (fun a => coll_eqb (admin_email a) (user_email r)) (admins (w_db w)) = [] ->
  bcrypt_compare newPassword
    (bcrypt_hash newPassword (w_rand w (w_next w)) DbAuth.BCRYPT_ROUNDS) = true ->
  id_taken (w_rand w (1 + w_next w)) (map audit_id (audit_logs (w_db w))) = false ->
  id_taken (w_rand w (2 + w_next w))
           (map audit_id (audit_logs (w_db w)) ++ [w_rand w (1 + w_next w)]) = false ->
  exists w1,
    Actions.changeAdminPassword token newPassword w = (Returned password_changed, w1)
    /\ (exists jwt w2,
          AdminLogin.POST (login_request (user_email r) newPassword) w1
          = (Returned {| AdminLogin.response_status := 200;
                         AdminLogin.response_body :=
                           AdminLogin.LoginBody (user_id r) (user_email r) (user_name r)
                             (user_role r) (Some (user_plan r)) (user_status r) jwt |},
             w2))
    /\ (forall other,
          other <> "" ->
          bcrypt_compare other
            (bcrypt_hash newPassword (w_rand w (w_next w)) DbAuth.BCRYPT_ROUNDS) = false ->
          fst (AdminLogin.POST (login_request (user_email r) other) w1)
          = Returned invalid_credentials).
Proof.
  intros Hp Ha Hlen Hok Hin Er Hrole Hstatus Hemail Hnoadmin Hcompare F1 F2.
  unfold users_ok in Hok. apply andb_prop in Hok. destruct Hok as [Dids Demails].
  assert (Hne : newPassword <> "") by (intros ->; cbn in Hlen; lia).
  unfold id_taken in F2. rewrite existsb_app_single in F2.
  apply orb_false_elim in F2. destruct F2 as [F2 F21].
  set (h := bcrypt_hash newPassword (w_rand w (w_next w)) DbAuth.BCRYPT_ROUNDS) in *.
  set (r' := assign_user r (SetPasswordHash h)).
  assert (Run : exists w1,
             Actions.changeAdminPassword token newPassword w = (Returned password_changed, w1)
             /\ users (w_db w1) = users_with_hash (jwt_userId p) h (users (w_db w))
             /\ admins (w_db w1) = admins (w_db w)
             /\ audit_logs (w_db w1)
                = audit_logs (w_db w)
                  ++ [new_audit_row (w_rand w (1 + w_next w))
                        (with_users (users_with_hash (jwt_userId p) h (users (w_db w)))
                                    (w_db w))
                        {| DbAuth.ad_userId := Some (jwt_userId p);
                           DbAuth.ad_action := "admin_password_changed";
                           DbAuth.ad_entityType := Some "user";
                           DbAuth.ad_entityId := Some (jwt_userId p);
                           DbAuth.ad_changes :=
                             Some (JSON.JObj [("password_updated", JSON.JBool true)]);
                           DbAuth.ad_ipAddress := None |}]
             /\ w_rand w1 = w_rand w /\ w_next w1 = 2 + w_next w /\ w_now w1 = w_now w).
  { unfold Actions.changeAdminPassword, bind at 1.
    rewrite (token_payload_admin w token p Hp Ha).
    unfold bind at 1. rewrite (updatePassword_run w _ _ Hlen Demails).
    unfold bind at 1. rewrite logAuditAction_run by (first [reflexivity | exact F1]).
    eexists. split; [reflexivity|]. repeat split. }
  destruct Run as (w1 & Hrun & Hu & Had & Haud & Hrand & Hnext & Hnow).
  exists w1. split; [exact Hrun|].
  assert (Hacc : login_account (w_db w1) (user_email r) = Some (AdminLogin.of_user r')).
  { unfold login_account. rewrite Had, Hnoadmin, Hu. unfold users_with_hash.
    rewrite (filter_map_key user_email).
    2:{ intros x. destruct (coll_eqb (user_id x) (jwt_userId p)); reflexivity. }
    rewrite (filter_unique user_email _ r _ Demails Hin (coll_refl _)).
    cbn [map first_or_null option_map]. now rewrite Er. }
  assert (Hfresh : id_taken (w_rand w1 (w_next w1)) (map audit_id (audit_logs (w_db w1)))
                   = false).
  { unfold id_taken. rewrite Hrand, Hnext, Haud, map_app.
    cbn [map new_audit_row audit_id]. rewrite existsb_app_single.
    now rewrite F2, F21. }
  split.
  - destruct (POST_success w1 (login_request (user_email r) newPassword)
                (user_email r) newPassword (AdminLogin.of_user r'))
      as (w2 & Hpost & _); try assumption; try reflexivity.
    + now apply or_null_some.
    + exists (createJWT_at (w_now w1) (login_payload (AdminLogin.of_user r'))), w2.
      exact Hpost.
  - intros other Hother Hwrong.
    apply (POST_wrong_password w1 _ (user_email r) other (AdminLogin.of_user r'));
      try assumption; try reflexivity. now apply or_null_some.
Qed.

End LoginMore.

(** Root, a suspended superadmin of the separate table, logs in through
    a proxy. *)
Lemma admin_login_success_witness :
  exists w',
    @AdminLogin.POST binary Example.plain_bcrypt Sample.tokens
      (login_attempt "root@x.com" (AdminLogin.Text "root-pw1") (Some "203.0.113.195"))
      Sample.world
    = (Returned {| AdminLogin.response_status := 200;
                   AdminLogin.response_body :=
                     AdminLogin.LoginBody "a-root" "root@x.com" "Root" RoleSuperadmin
                       None AccountSuspended "jwt.a-root.superadmin" |}, w')
    /\ map audit_action (audit_logs (w_db w'))
       = map audit_action (audit_logs (w_db Sample.world)) ++ ["admin_login"]
    /\ map user_account (users (w_db w')) = map user_account (users (w_db Sample.world))
    /\ map AdminLogin.of_admin (admins (w_db w'))
       = map AdminLogin.of_admin (admins (w_db Sample.world)).
Proof.
  apply (@admin_login_success binary Example.plain_bcrypt Sample.tokens Sample.world
           (login_attempt "root@x.com" (AdminLogin.Text "root-pw1")
              (Some "203.0.113.195"))
           "root@x.com" "root-pw1" (AdminLogin.of_admin Sample.root));
    first [reflexivity | discriminate | vm_compute; reflexivity
           | vm_compute; discriminate].
Defined.

(** Bob knows his password and is no admin. *)
Lemma admin_login_turned_away_witness :
  exists w',
    @AdminLogin.POST binary Example.plain_bcrypt Sample.tokens
      (login_request "bob@x.com" "hunter22") Sample.world
    = (Returned {| AdminLogin.response_status := 403;
                   AdminLogin.response_body :=
                     AdminLogin.ErrorBody "Not authorized as admin" |}, w')
    /\ map audit_action (audit_logs (w_db w'))
       = map audit_action (audit_logs (w_db Sample.world)) ++ ["admin_login_forbidden"].
Proof.
  apply (@admin_login_turned_away binary Example.plain_bcrypt Sample.tokens Sample.world
           (login_request "bob@x.com" "hunter22") "bob@x.com" "hunter22"
           (AdminLogin.of_user Example.bob));
    first [reflexivity | discriminate | vm_compute; reflexivity
           | vm_compute; discriminate].
Defined.

(** Root changes the password and is told it worked; nothing was
    stored. *)
Lemma changeAdminPassword_separate_admin_witness :
  exists w',
    @Actions.changeAdminPassword binary Example.plain_bcrypt Sample.tokens
      "token-root" "new-secret" Sample.world = (Returned password_changed, w')
    /\ users (w_db w') = users (w_db Sample.world)
    /\ admins (w_db w') = admins (w_db Sample.world)
    /\ map audit_action (audit_logs (w_db w'))
       = map audit_action (audit_logs (w_db Sample.world)) ++ ["admin_password_changed"].
Proof.
  apply (@changeAdminPassword_separate_admin binary Example.plain_bcrypt Sample.tokens
           Sample.world "token-root" "new-secret"
           {| jwt_userId := "a-root"; jwt_email := "root@x.com";
              jwt_role := "superadmin" |});
    try (vm_compute; reflexivity); try (vm_compute; discriminate); vm_compute; lia.
Defined.

(** Carol, an admin in [users], changes her password and logs in with
    it; the old one is refused. *)
Lemma changeAdminPassword_then_login_witness :
  exists w1,
    @Actions.changeAdminPassword binary Example.plain_bcrypt Sample.tokens
      "token-carol" "new-secret" Sample.world = (Returned password_changed, w1)
    /\ (exists jwt w2,
          @AdminLogin.POST binary Example.plain_bcrypt Sample.tokens
            (login_request "carol@x.com" "new-secret") w1
          = (Returned {| AdminLogin.response_status := 200;
                         AdminLogin.response_body :=
                           AdminLogin.LoginBody "u-carol" "carol@x.com" "Carol"
                             RoleAdmin (Some Pro) AccountActive jwt |}, w2))
    /\ (forall other,
          other <> "" ->
          @bcrypt_compare Example.plain_bcrypt other "r0$new-secret" = false ->
          fst (@AdminLogin.POST binary Example.plain_bcrypt Sample.tokens
                 (login_request "carol@x.com" other) w1)
          = Returned invalid_credentials).
Proof.
  apply (@changeAdminPassword_then_login binary Example.plain_bcrypt Sample.tokens
           Sample.world "token-carol" "new-secret"
           {| jwt_userId := "u-carol"; jwt_email := "carol@x.com"; jwt_role := "admin" |}
           Sample.carol);
    try (vm_compute; reflexivity); try (vm_compute; discriminate);
    try (vm_compute; lia); vm_compute; auto.
Defined.

(** ** The script that creates an admin *)

Section CreateAdmin.
Context `{Collation} `{Bcrypt} `{JwtLib}.


(** How the script runs when it has an email and a password. *)
Lemma main_run (w : World) (env : CreateAdminScript.Env) (e pw : string) :
  DbAuth.or_null (CreateAdminScript.ADMIN_EMAIL env) = Some e ->
  DbAuth.or_null (CreateAdminScript.ADMIN_PASSWORD env) = Some pw ->
  CreateAdminScript.main env w
  = (Returned SeedScript.Finished,
     if CreateAdminScript.useSeparate env then
       if id_taken (w_rand w (w_next w)) (map admin_id (admins (w_db w)))
          || id_taken e (map admin_email (admins (w_db w)))
       then after_draws 2 w
       else with_db (with_admins
                       (admins (w_db w)
                        ++ [script_admin_row w e pw (script_admin_name env)])
                       (w_db w)) (after_draws 2 w)
     else
       if id_taken (w_rand w (w_next w)) (map user_id (users (w_db w)))
          || email_taken e (users (w_db w))
       then after_draws 2 w
       else with_db (with_users
                       (users (w_db w)
                        ++ [script_user_row w e pw (script_admin_name env)])
                       (w_db w)) (after_draws 2 w)).
Proof.
  intros He Hp. unfold CreateAdminScript.main. rewrite He, Hp.
  unfold CreateAdminScript.insert_admins, DbAuth.insert_users, randomUUID, random_draw,
    try_catch, bind, ret, id_taken, email_taken, script_admin_row, script_user_row,
    script_admin_name.
  cbn [w_db w_rand w_next admin_id admin_email user_id user_email].
  destruct (CreateAdminScript.useSeparate env).
  - destruct (existsb (coll_eqb (w_rand w (w_next w))) (map admin_id _));
      [reflexivity|].
    destruct (existsb (coll_eqb e) (map admin_email _)); reflexivity.
  - destruct (existsb (coll_eqb (w_rand w (w_next w))) (map user_id _));
      [reflexivity|].
    destruct (existsb (coll_eqb e) (map user_email _)); reflexivity.
Qed.


(** X26.  The script reports a failure when the email or the password is
    missing or empty: it exits with code 1 and has written nothing.  When
    the INSERT is refused because the email is taken, the error is
    swallowed: the script ends as after a success and the tables are as
    they were. *)
Theorem create_admin_failures (w : World) (env : CreateAdminScript.Env) :
  (DbAuth.or_null (CreateAdminScript.ADMIN_EMAIL env) = None
   \/ DbAuth.or_null (CreateAdminScript.ADMIN_PASSWORD env) = None ->
   CreateAdminScript.main env w = (Returned (SeedScript.Exit 1), w))
  /\ (forall e pw,
         DbAuth.or_null (CreateAdminScript.ADMIN_EMAIL env) = Some e ->
         DbAuth.or_null (CreateAdminScript.ADMIN_PASSWORD env) = Some pw ->
         (if CreateAdminScript.useSeparate env
          then id_taken e (map admin_email (admins (w_db w)))
          else email_taken e (users (w_db w))) = true ->
         fst (CreateAdminScript.main env w) = Returned SeedScript.Finished
         /\ w_db (snd (CreateAdminScript.main env w)) = w_db w).
Proof.
  split.
  - unfold CreateAdminScript.main. intros [E|E]; rewrite E; [reflexivity|].
    now destruct (DbAuth.or_null (CreateAdminScript.ADMIN_EMAIL env)).
  - intros e pw He Hp Htaken. rewrite (main_run w env e pw He Hp).
    destruct (CreateAdminScript.useSeparate env); rewrite Htaken, orb_true_r;
      split; reflexivity.
Qed.

End CreateAdmin.


(** Run again for root@x.com, who is an admin already, the script ends
    as after a success and has stored nothing; without a password it exits
    with code 1. *)
Lemma create_admin_failures_witness :
  let again := {| CreateAdminScript.ADMIN_EMAIL := Some "root@x.com";
                  CreateAdminScript.ADMIN_PASSWORD := Some "another";
                  CreateAdminScript.ADMIN_NAME := Some "Root II";
                  CreateAdminScript.ADMIN_USE_SEPARATE := Some "true" |} in
  let incomplete := {| CreateAdminScript.ADMIN_EMAIL := Some "ops@x.com";
                       CreateAdminScript.ADMIN_PASSWORD := None;
                       CreateAdminScript.ADMIN_NAME := None;
                       CreateAdminScript.ADMIN_USE_SEPARATE := None |} in
  @CreateAdminScript.main binary Example.plain_bcrypt incomplete Sample.world
  = (Returned (SeedScript.Exit 1), Sample.world)
  /\ fst (@CreateAdminScript.main binary Example.plain_bcrypt again Sample.world)
     = Returned SeedScript.Finished
  /\ w_db (snd (@CreateAdminScript.main binary Example.plain_bcrypt again Sample.world))
     = w_db Sample.world.
Proof.
  intros again incomplete. split.
  - apply (proj1 (@create_admin_failures binary Example.plain_bcrypt Sample.world
                    incomplete)).
    right. reflexivity.
  - apply (proj2 (@create_admin_failures binary Example.plain_bcrypt Sample.world again)
             "root@x.com" "another"); reflexivity.
Defined.

(** ** Conditions that every operation keeps *)

Section EveryOperation.
Context `{Collation} `{Bcrypt} `{JwtLib} `{JsDate.HostTimeZone} `{JsDate.DateParser}.

(** A condition that the statements of the data layer keep (for
    [INSERT INTO users], as [createUser] sends it) is kept by every
    operation. *)
Variable P : Db -> Prop.
Hypothesis P_createUser : forall data, preserves P (DbAuth.createUser data).
Hypothesis P_update_users : forall sets i, preserves P (DbAuth.update_users sets i).
Hypothesis P_deleteUser : forall i, preserves P (DbAuth.deleteUser i).
Hypothesis P_insert_subscriptions :
  forall i u p s r, preserves P (DbAuth.insert_subscriptions i u p s r).
Hypothesis P_update_subscriptions :
  forall sets i, preserves P (DbAuth.update_subscriptions sets i).
Hypothesis P_insert_user_sessions : forall r, preserves P (DbAuth.insert_user_sessions r).
Hypothesis P_deleteSession : forall i, preserves P (DbAuth.deleteSession i).
Hypothesis P_deleteExpiredSessions : preserves P DbAuth.deleteExpiredSessions.
Hypothesis P_insert_audit_logs : forall r, preserves P (DbAuth.insert_audit_logs r).
Hypothesis P_insert_packages : forall r, preserves P (DbAuth.insert_packages r).
Hypothesis P_update_packages : forall sets i, preserves P (DbAuth.update_packages sets i).
Hypothesis P_deletePackage : forall i, preserves P (DbAuth.deletePackage i).
Hypothesis P_touch_admin : forall i, preserves P (AdminLogin.touch_admin i).

Create HintDb statements.

#[local] Hint Resolve P_createUser P_update_users P_deleteUser P_insert_subscriptions
  P_update_subscriptions P_insert_user_sessions P_deleteSession
  P_deleteExpiredSessions P_insert_audit_logs P_insert_packages P_update_packages
  P_deletePackage P_touch_admin : statements.

Ltac through_step :=
  first
    [ solve [auto with statements]
    | apply preserves_ret
    | apply preserves_throw
    | apply preserves_bind; [|intro]
    | apply preserves_try_catch; [|intro]
    | solve [apply preserves_reader; reflexivity]
    | match goal with
      | |- preserves _ (if ?c then _ else _) => destruct c
      | |- preserves _ (match ?x with _ => _ end) => destruct x
      end
    | progress cbv beta zeta ].

Ltac through := repeat through_step.

Lemma P_hashPassword (p : string) : preserves P (DbAuth.hashPassword p).
Proof. unfold DbAuth.hashPassword. through. Qed.
#[local] Hint Resolve P_hashPassword : statements.

Lemma P_updateUser (i : SqlStr) (data : UserPatch) : preserves P (DbAuth.updateUser i data).
Proof. unfold DbAuth.updateUser. through. Qed.

Lemma P_updateLastLogin (i : string) : preserves P (DbAuth.updateLastLogin i).
Proof. unfold DbAuth.updateLastLogin. through. Qed.

Lemma P_updatePassword (i p : string) : preserves P (DbAuth.updatePassword i p).
Proof. unfold DbAuth.updatePassword. through. Qed.

Lemma P_updateUserPassword (i p : string) : preserves P (DbAuth.updateUserPassword i p).
Proof. unfold DbAuth.updateUserPassword. through. Qed.

Lemma P_createSubscription (u : SqlStr) (p : Plan) :
  preserves P (DbAuth.createSubscription u p).
Proof. unfold DbAuth.createSubscription, randomUUID, DbAuth.lift. through. Qed.

Lemma P_updateSubscription (i : string) (data : DbAuth.SubscriptionPatch) :
  preserves P (DbAuth.updateSubscription i data).
Proof. unfold DbAuth.updateSubscription. through. Qed.

Lemma P_cancelSubscription (i : string) : preserves P (DbAuth.cancelSubscription i).
Proof. unfold DbAuth.cancelSubscription. through. Qed.

Lemma P_getSubscription (u : SqlStr) : preserves P (DbAuth.getSubscription u).
Proof. apply preserves_reader. reflexivity. Qed.

Lemma P_logAuditAction (data : DbAuth.AuditData) : preserves P (DbAuth.logAuditAction data).
Proof.
  unfold DbAuth.logAuditAction, randomUUID, DbAuth.select_users_by_id. through.
Qed.

Lemma P_createPackage (data : DbAuth.CreatePackageData) :
  preserves P (DbAuth.createPackage data).
Proof. unfold DbAuth.createPackage, randomUUID. through. Qed.

Lemma P_getPackageById (i : string) : preserves P (DbAuth.getPackageById i).
Proof. apply preserves_reader. intros w. now rewrite getPackageById_run. Qed.

#[local] Hint Resolve P_updateUser P_updateLastLogin P_updatePassword
  P_updateUserPassword P_createSubscription P_updateSubscription
  P_cancelSubscription P_getSubscription P_logAuditAction P_createPackage
  P_getPackageById : statements.

Lemma P_updatePackage (i : string) (data : DbAuth.PackagePatch) :
  preserves P (DbAuth.updatePackage i data).
Proof. unfold DbAuth.updatePackage. through. Qed.

Lemma P_createSession (u t : string) (e : Z) (a i : option string) :
  preserves P (DbAuth.createSession u t e a i).
Proof. unfold DbAuth.createSession, randomUUID. through. Qed.

Lemma P_getCurrentUserId (token : string) : preserves P (Actions.getCurrentUserId token).
Proof. unfold Actions.getCurrentUserId, verifyJWT. through. Qed.

Lemma P_verifyAdminRole (token : string) : preserves P (Actions.verifyAdminRole token).
Proof. unfold Actions.verifyAdminRole, verifyJWT. through. Qed.

#[local] Hint Resolve P_updatePackage P_createSession P_getCurrentUserId
  P_verifyAdminRole : statements.

Lemma P_create_each (todo : list DbAuth.CreatePackageData)
      (created : list DbAuth.Package) :
  preserves P (Actions.create_each todo created).
Proof. revert created. induction todo as [|d todo IH]; intros created; simpl; through. Qed.

Lemma P_insert_each (todo : list SeedScript.SeedPackage) :
  preserves P (SeedScript.insert_each todo).
Proof.
  induction todo as [|d todo IH]; simpl; unfold SeedScript.insert_package; through.
Qed.

#[local] Hint Resolve P_create_each P_insert_each : statements.

Lemma perform_through (c : Call) (w : World) : P (w_db w) -> P (w_db (perform c w)).
Proof.
  revert w. destruct c; unfold perform;
    match goal with
    | |- forall w, _ -> P (w_db (snd (?m w))) => change (preserves P m)
    end;
    try solve [auto with statements].
  - unfold Actions.activateSubscription. through.
  - unfold Actions.cancelSubscription. through.
  - unfold Actions.addUser. through.
  - unfold Actions.updateUserAction. through.
  - unfold Actions.deleteUserAction. through.
  - unfold Actions.changeAdminPassword. through.
  - unfold Actions.seedDefaultPackagesAction, DbAuth.getAllPackages. through.
  - unfold AdminLogin.POST, AdminLogin.audit, AdminLogin.json_response,
      AdminLogin.select_admins_by_email, DbAuth.select_users_by_email,
      AdminLogin.verify_body_password, DbAuth.verifyPassword, createJWT. through.
  - unfold SeedScript.seedPackages. through.
Qed.

Lemma run_through (o : Operation) (w : World) : P (w_db w) -> P (w_db (run o w)).
Proof.
  destruct o as [c| | | | | | | | |]; [apply perform_through|..];
    revert w; unfold run;
    match goal with
    | |- forall w, _ -> P (w_db (snd (?m w))) => change (preserves P m)
    end;
    try solve [auto with statements].
  - unfold DbAuth.updatePackageDisplayOrder. through.
  - unfold Actions.createPackageAction. through.
  - unfold Actions.updatePackageAction. through.
  - unfold Actions.deletePackageAction. through.
Qed.

End EveryOperation.

Section WhatOperationsKeep.
Context `{Collation} `{Bcrypt} `{JwtLib} `{JsDate.HostTimeZone} `{JsDate.DateParser}.

(** A statement that fails or appends to, filters or rewrites one table:
    take it apart down to the tables it leaves behind. *)
Ltac statement :=
  let w := fresh "w" in
  let Hw := fresh "Hw" in
  intros w Hw;
  unfold DbAuth.insert_users, DbAuth.update_users, DbAuth.deleteUser,
    DbAuth.insert_subscriptions, DbAuth.update_subscriptions,
    DbAuth.insert_user_sessions, DbAuth.deleteSession, DbAuth.deleteExpiredSessions,
    DbAuth.insert_audit_logs, DbAuth.insert_packages, DbAuth.update_packages,
    DbAuth.deletePackage, AdminLogin.touch_admin, get_db, put_db, NOW, bind;
  repeat match goal with
         | |- context [varchar_or_null ?n ?v] => destruct (varchar_or_null n v)
         | |- context [match ?u with Some _ => _ | None => _ end] =>
             is_var u; destruct u
         | |- context [if ?c then _ else _] => destruct c eqn:?
         end;
  try exact Hw;
  cbn [snd w_db with_db with_users with_admins with_subscriptions with_audit_logs
       with_packages DbAuth.with_user_sessions users admins subscriptions
       user_sessions audit_logs packages] in *.

Lemma createUser_effect (data : CreateUserData) (w : World) :
  let d' := w_db (snd (DbAuth.createUser data w)) in
  (users d' = users (w_db w) \/ users d' = users (w_db w) ++ [new_user_row w data])
  /\ admins d' = admins (w_db w) /\ subscriptions d' = subscriptions (w_db w)
  /\ user_sessions d' = user_sessions (w_db w) /\ audit_logs d' = audit_logs (w_db w)
  /\ packages d' = packages (w_db w).
Proof.
  rewrite createUser_run. destruct (_ || _); cbn; tauto.
Qed.

Lemma assign_user_identity (sets : list UserAssign) (r : UserRow) :
  user_id (fold_left assign_user sets r) = user_id r
  /\ user_role (fold_left assign_user sets r) = user_role r.
Proof.
  revert r. induction sets as [|a sets IH]; intros r; [split; reflexivity|].
  cbn [fold_left]. destruct (IH (assign_user r a)) as [-> ->].
  destruct a; split; reflexivity.
Qed.

(** *** No operation makes an admin *)

Lemma no_new_admin_refl (d : Db) : no_new_admin d d.
Proof. intros r Hr _. exists r. repeat split. exact Hr. Qed.

(** X27.  No operation of the application creates an account with the role of
    an admin or promotes an account: every account of [users] that is not
    an ordinary user after the operation was in [users] before, under the
    same id and with the same role. *)
Theorem operations_make_no_admin (o : Operation) (w : World) :
  no_new_admin (w_db w) (w_db (run o w)).
Proof.
  apply (run_through (no_new_admin (w_db w))); [..|apply no_new_admin_refl];
    clear o; unfold no_new_admin.
  - intros data w1 Hw r Hr Hrole.
    destruct (createUser_effect data w1) as ([E|E] & _); rewrite E in Hr.
    + now apply Hw.
    + apply in_app_or in Hr. destruct Hr as [Hr|[<-|[]]]; [now apply Hw|].
      now contradiction Hrole.
  - intros sets i. statement. intros r Hr Hrole. apply in_map_iff in Hr.
    destruct Hr as (r0 & E & Hr0).
    destruct (assign_user_identity sets r0) as [Eid Erole].
    destruct (sql_eqb (user_id r0) i); subst r.
    + rewrite Erole in Hrole. destruct (Hw r0 Hr0 Hrole) as (x & Hx & Ex & Rx).
      exists x. rewrite Eid, Erole. tauto.
    + now apply Hw.
  - intros i. statement. intros r Hr. apply filter_In in Hr. now apply Hw.
  - intros i u p s r. statement.
  - intros sets i. statement.
  - intros r. statement.
  - intros i. statement.
  - statement.
  - intros r. statement.
  - intros r. statement.
  - intros sets i. statement.
  - intros i. statement.
  - intros i. statement.
Qed.

(** *** No operation touches the accounts of the admins *)

(** X28.  No operation of the application adds, removes or changes an account
    of [admins]: whatever is run, the table holds the same accounts with
    the same email, password hash, name, role and status; only the time of
    the last login moves. *)
Theorem operations_keep_admins (o : Operation) (w : World) :
  same_admins (w_db w) (w_db (run o w)).
Proof.
  apply (run_through (same_admins (w_db w))); [..|reflexivity];
    clear o; unfold same_admins.
  - intros data w1 Hw. destruct (createUser_effect data w1) as (_ & E & _).
    now rewrite E.
  - intros sets i. statement.
  - intros i. statement.
  - intros i u p s r. statement.
  - intros sets i. statement.
  - intros r. statement.
  - intros i. statement.
  - statement.
  - intros r. statement.
  - intros r. statement.
  - intros sets i. statement.
  - intros i. statement.
  - intros i. statement. rewrite <- Hw, map_map. apply map_ext. intros r.
    destruct (coll_eqb (admin_id r) i); reflexivity.
Qed.

(** *** No operation leaves a row without its user *)

Lemma id_taken_app (k : string) (l1 l2 : list string) :
  id_taken k l1 = true -> id_taken k (l1 ++ l2) = true.
Proof. unfold id_taken. intros E. now rewrite existsb_app, E. Qed.

Lemma map_user_id_update (sets : list UserAssign) (c : UserRow -> bool)
      (t : list UserRow) :
  map user_id (map (fun r => if c r then fold_left assign_user sets r else r) t)
  = map user_id t.
Proof.
  rewrite map_map. apply map_ext. intros r. destruct (c r); [|reflexivity].
  apply assign_user_identity.
Qed.

(** A row that stays when the rows of user [i] go still has its user. *)
Lemma stays_with_user (i uid : string) (t : list UserRow) :
  id_taken uid (map user_id t) = true ->
  existsb (fun u => coll_eqb (user_id u) i && coll_eqb (user_id u) uid) t = false ->
  id_taken uid (map user_id (filter (fun u => negb (coll_eqb (user_id u) i)) t)) = true.
Proof.
  unfold id_taken. rewrite !existsb_map. intros Hin Hgone.
  apply existsb_exists in Hin. destruct Hin as (u & Hu & E).
  apply existsb_exists. exists u. split; [|exact E].
  apply filter_In. split; [exact Hu|].
  pose proof (proj1 (existsb_false_all _ _) Hgone u Hu) as G. cbv beta in G.
  rewrite (coll_sym (user_id u) uid), E, andb_true_r in G. now rewrite G.
Qed.

(** X29.  The two foreign keys on [users(id)] hold after every operation if
    they held before: a subscription or a session is never left without
    the account it belongs to. *)
Theorem operations_keep_references (o : Operation) (w : World) :
  references_ok (w_db w) -> references_ok (w_db (run o w)).
Proof.
  apply (run_through references_ok); clear o w; unfold references_ok.
  - intros data w Hw. destruct (createUser_effect data w) as (Eu & _ & Es & Ess & _).
    rewrite Es, Ess. destruct Eu as [-> | ->]; [exact Hw|].
    rewrite map_app. destruct Hw as [R1 R2].
    split; intros s Hs; apply id_taken_app; auto.
  - intros sets i. statement. now rewrite map_user_id_update.
  - intros i. statement. destruct Hw as [R1 R2].
    split; intros s Hs; apply filter_In in Hs; destruct Hs as [Hs Hk];
      apply negb_true_iff in Hk; apply stays_with_user; auto.
  - intros i u p s r. statement. destruct Hw as [R1 R2]. split; [|exact R2].
    intros x Hx. apply in_app_or in Hx. destruct Hx as [Hx|[<-|[]]]; [now apply R1|].
    cbn [sub_user_id]. unfold id_taken.
    match goal with E : negb _ = false |- _ => apply negb_false_iff in E; exact E end.
  - intros sets i. statement. destruct Hw as [R1 R2]. split; [|exact R2].
    intros x Hx. apply in_map_iff in Hx. destruct Hx as (x0 & <- & Hx0).
    replace (sub_user_id (if coll_eqb (sub_id x0) i
                          then fold_left DbAuth.assign_subscription sets x0 else x0))
      with (sub_user_id x0); [now apply R1|].
    destruct (coll_eqb (sub_id x0) i); [|reflexivity].
    clear. revert x0. induction sets as [|a sets IH]; intros x0; [reflexivity|].
    cbn [fold_left]. rewrite <- IH. now destruct a.
  - intros r. statement. destruct Hw as [R1 R2]. split; [exact R1|].
    intros x Hx. apply in_app_or in Hx. destruct Hx as [Hx|[<-|[]]]; [now apply R2|].
    unfold id_taken.
    match goal with E : negb _ = false |- _ => apply negb_false_iff in E; exact E end.
  - intros i. statement. destruct Hw as [R1 R2]. split; [exact R1|].
    intros x Hx. apply filter_In in Hx. now apply R2.
  - statement. destruct Hw as [R1 R2]. split; [exact R1|].
    intros x Hx. apply filter_In in Hx. now apply R2.
  - intros r. statement.
  - intros r. statement.
  - intros sets i. statement.
  - intros i. statement.
  - intros i. statement.
Qed.

(** *** No operation breaks a key *)

Lemma distinct_fresh (l : list string) (x : string) :
  distinct coll_eqb l = true -> existsb (coll_eqb x) l = false ->
  distinct coll_eqb (l ++ [x]) = true.
Proof.
  intros D E. now rewrite (distinct_snoc coll_eqb coll_sym), D, E.
Qed.

Lemma assign_subscription_id (sets : list DbAuth.SubscriptionAssign) (r : SubscriptionRow) :
  sub_id (fold_left DbAuth.assign_subscription sets r) = sub_id r.
Proof.
  revert r. induction sets as [|a sets IH]; intros r; [reflexivity|].
  cbn [fold_left]. rewrite IH. now destruct a.
Qed.

Lemma assign_package_id (sets : list DbAuth.PackageAssign) (r : PackageRow) :
  package_id (fold_left DbAuth.assign_package sets r) = package_id r.
Proof.
  revert r. induction sets as [|a sets IH]; intros r; [reflexivity|].
  cbn [fold_left]. now rewrite IH.
Qed.

Lemma map_key_update {R} (key : R -> string) (f : R -> R) (c : R -> bool) (t : list R) :
  (forall r, key (f r) = key r) ->
  map key (map (fun r => if c r then f r else r) t) = map key t.
Proof.
  intros Hf. rewrite map_map. apply map_ext. intros r. destruct (c r); [apply Hf|reflexivity].
Qed.

(** X30.  The primary keys and the unique keys of [users], [subscriptions],
    [user_sessions] and [packages] hold after every operation if they held
    before, however the operation ends. *)
Theorem operations_keep_keys (o : Operation) (w : World) :
  keys_ok (w_db w) -> keys_ok (w_db (run o w)).
Proof.
  apply (run_through keys_ok); clear o w;
    unfold keys_ok, users_ok, subscriptions_ok, sessions_ok, packages_ok.
  - intros data w Hw. rewrite createUser_run.
    destruct (id_taken _ _) eqn:Ei; [exact Hw|].
    destruct (email_taken _ _) eqn:Ee; [exact Hw|].
    cbn [orb snd w_db with_db with_users users subscriptions user_sessions packages].
    destruct Hw as (Ku & Rest). split; [|exact Rest].
    apply andb_prop in Ku. destruct Ku as [Kid Kemail].
    rewrite !map_app. cbn [map new_user_row user_id user_email].
    now rewrite (distinct_fresh _ _ Kid Ei), (distinct_fresh _ _ Kemail Ee).
  - intros sets i. statement. destruct Hw as (Ku & Rest). split; [|exact Rest].
    apply andb_prop in Ku. destruct Ku as [Kid _].
    rewrite (map_key_update user_id) by (intros r; apply assign_user_identity).
    rewrite Kid. cbn [andb]. assumption.
  - intros i. statement. destruct Hw as (Ku & Ks & Ksi & Kst & Kp).
    apply andb_prop in Ku. destruct Ku as [Kid Kemail].
    apply andb_prop in Ks. destruct Ks as [Ksid Kkey].
    rewrite !distinct_filter by assumption. repeat split. exact Kp.
  - intros i u p s r. statement. destruct Hw as (Ku & Ks & Rest).
    split; [exact Ku|]. split; [|exact Rest].
    apply andb_prop in Ks. destruct Ks as [Ksid Kkey].
    rewrite !map_app. cbn [map sub_id].
    rewrite distinct_fresh by assumption.
    rewrite (distinct_snoc sub_key_eqb sub_key_eqb_sym), Kkey. cbn [andb].
    apply negb_true_iff. assumption.
  - intros sets i. statement. destruct Hw as (Ku & Ks & Rest).
    split; [exact Ku|]. split; [|exact Rest].
    apply andb_prop in Ks. destruct Ks as [Ksid _].
    rewrite (map_key_update sub_id) by (intros r; apply assign_subscription_id).
    rewrite Ksid. cbn [andb]. assumption.
  - intros r. statement. destruct Hw as (Ku & Ks & Ksi & Kst & Kp).
    repeat split; try assumption; rewrite map_app; cbn [map];
      apply distinct_fresh; assumption.
  - intros i. statement. destruct Hw as (Ku & Ks & Ksi & Kst & Kp).
    rewrite !distinct_filter by assumption. tauto.
  - statement. destruct Hw as (Ku & Ks & Ksi & Kst & Kp).
    rewrite !distinct_filter by assumption. tauto.
  - intros r. statement.
  - intros r. statement. destruct Hw as (Ku & Ks & Ksi & Kst & Kp).
    repeat split; try assumption.
    apply andb_prop in Kp. destruct Kp as [Kid Kname].
    rewrite !map_app. cbn [map].
    now rewrite !distinct_fresh by assumption.
  - intros sets i. statement. destruct Hw as (Ku & Ks & Ksi & Kst & Kp).
    repeat split; try assumption.
    apply andb_prop in Kp. destruct Kp as [Kid _].
    rewrite (map_key_update package_id) by (intros r; apply assign_package_id).
    rewrite Kid. cbn [andb]. assumption.
  - intros i. statement. destruct Hw as (Ku & Ks & Ksi & Kst & Kp).
    repeat split; try assumption.
    apply andb_prop in Kp. destruct Kp as [Kid Kname].
    now rewrite !distinct_filter by assumption.
  - intros i. statement.
Qed.

End WhatOperationsKeep.

(** In the sample installation the keys and the references hold, and an
    admin who deletes Bob leaves them holding. *)
Lemma operations_keep_references_witness :
  @references_ok binary
    (w_db (@run binary Example.plain_bcrypt Sample.tokens Example.utc Example.no_parser
             (OfCall (CallDeleteUserAction "token-carol" "u-bob")) Sample.world)).
Proof.
  apply (@operations_keep_references binary Example.plain_bcrypt Sample.tokens
           Example.utc Example.no_parser).
  split; intros s Hs; vm_compute in Hs;
    repeat (destruct Hs as [<-|Hs]; [vm_compute; reflexivity|]); contradiction.
Defined.

Lemma operations_keep_keys_witness :
  @keys_ok binary
    (w_db (@run binary Example.plain_bcrypt Sample.tokens Example.utc Example.no_parser
             (OpCreateSession "u-alice" "tok-2" Sample.now_seconds (Some "Safari")
                (Some "10.0.0.7"))
             Sample.world)).
Proof.
  apply (@operations_keep_keys binary Example.plain_bcrypt Sample.tokens
           Example.utc Example.no_parser).
  repeat split; vm_compute; reflexivity.
Defined.

(** ** The renewal date at every day of the month *)

Module RenewalFacts.
Import JsDate JsDateFacts.
Local Open Scope Z_scope.

Lemma DayWithinYear_fields (t : Z) :
  DayWithinYear t
  = daysBeforeMonth (InLeapYear t) (MonthFromTime t) + DateFromTime t - 1.
Proof.
  pose proof (DayWithinYear_range t) as R. unfold DaysInYear in R.
  unfold DateFromTime, MonthFromTime, InLeapYear. cbv zeta.
  destruct (isLeapYear (YearFromTime t)) eqn:L;
    decide_ltb; cbn [daysBeforeMonth]; lia.
Qed.

Lemma daysBeforeMonth_next (y m : Z) :
  0 <= m <= 10 ->
  daysBeforeMonth (if isLeapYear y then 1 else 0) (m + 1)
  = daysBeforeMonth (if isLeapYear y then 1 else 0) m + DaysInMonth y m.
Proof.
  intros Hm. each_month m; try lia; unfold DaysInMonth; destruct (isLeapYear y);
    reflexivity.
Qed.

(** Counting on to the same day of the month after is counting on by the
    length of the month. *)
Lemma MakeDay_next_month (t : Z) :
  MakeDay (YearFromTime t) (MonthFromTime t + 1) (DateFromTime t)
  = Day t + DaysInMonth (YearFromTime t) (MonthFromTime t).
Proof.
  pose proof (DayWithinYear_fields t) as F. unfold DayWithinYear, InLeapYear in F.
  destruct (fields_valid t) as [Hm _].
  unfold MakeDay. cbv zeta. revert F Hm.
  generalize (DateFromTime t) (Day t) (MonthFromTime t) (YearFromTime t).
  intros D d m y F Hm.
  destruct (Z.eqb_spec m 11) as [E|E].
  - subst m. change ((11 + 1) / 12) with 1. change ((11 + 1) mod 12) with 0.
    rewrite DayFromYear_succ. unfold DaysInYear.
    cbn [daysBeforeMonth DaysInMonth] in *.
    destruct (isLeapYear y), (isLeapYear (y + 1)); lia.
  - replace ((m + 1) / 12) with 0 by (Z.div_mod_to_equations; lia).
    replace ((m + 1) mod 12) with (m + 1) by (Z.div_mod_to_equations; lia).
    replace (y + 0) with y by lia.
    rewrite daysBeforeMonth_next by lia. lia.
Qed.

Lemma DaysInMonth_range (y m : Z) : 28 <= DaysInMonth y m <= 31.
Proof.
  unfold DaysInMonth. destruct m as [|q|q]; [lia| |lia].
  do 4 (try destruct q as [q|q|]); destruct (isLeapYear y); lia.
Qed.

Section SetMonth.
Context `{HostTimeZone}.

Lemma setMonth_next_month (tv : Z) :
  setMonth tv (getMonth tv + 1) = TimeClip (UTC (plus_month_length (LocalTime tv))).
Proof.
  unfold setMonth, getMonth, plus_month_length. cbv zeta. rewrite MakeDay_next_month.
  do 2 f_equal. unfold MakeDate, Day, TimeWithinDay, msPerDay.
  Z.div_mod_to_equations. lia.
Qed.

End SetMonth.

(** An instant that a TIMESTAMP holds has a year of four digits. *)
Lemma timestamp_year (t : Z) :
  in_timestamp_range t -> 1970 <= YearFromTime t <= 2038.
Proof.
  unfold in_timestamp_range. intros Ht.
  assert (Hd : 0 <= Day t <= 24855)
    by (unfold Day, msPerDay; Z.div_mod_to_equations; lia).
  unfold YearFromTime. destruct (JsDateFacts.YearFromDay_spec (Day t)) as [Hlo Hhi].
  split.
  - destruct (Z.le_gt_cases 1970 (YearFromDay (Day t))) as [Hy|Hy]; [exact Hy|].
    pose proof (JsDateFacts.DayFromYear_mono (YearFromDay (Day t) + 1) 1970
                  ltac:(lia)) as Hm.
    change (DayFromYear 1970) with 0 in Hm. lia.
  - destruct (Z.le_gt_cases (YearFromDay (Day t)) 2038) as [Hy|Hy]; [exact Hy|].
    pose proof (JsDateFacts.DayFromYear_mono 2039 (YearFromDay (Day t))
                  ltac:(lia)) as Hm.
    change (DayFromYear 2039) with 25202 in Hm. lia.
Qed.

End RenewalFacts.

Section RenewalMore.
Context `{Collation} `{JsDate.HostTimeZone}.

(** How [createSubscription] runs for a user without an Active
    subscription. *)
Lemma createSubscription_run (w : World) (u : string) (p : Plan) (r : Z) :
  JsDate.TimeClip (JsDate.UTC (plus_month_length (JsDate.LocalTime (w_now w)))) = Some r ->
  (0 <= JsDate.YearFromTime r <= 9999)%Z ->
  id_taken (w_rand w (w_next w)) (map sub_id (subscriptions (w_db w))) = false ->
  active_rows u (subscriptions (w_db w)) = [] ->
  id_taken u (map user_id (users (w_db w))) = true ->
  DbAuth.createSubscription (Some u) p w
  = (Returned {| subscription_id := w_rand w (w_next w); subscription_plan := p;
                 subscription_status := Active;
                 renewal_date := Some (JsDate.isoString r) |},
     with_db (with_subscriptions
                (subscriptions (w_db w)
                 ++ [new_subscription_row w u p (sql_datetime_text r)])
                (w_db w))
             (after_draws 1 w)).
Proof.
  intros Hr Hy Hid Hnone Huser.
  rewrite createSubscription_as_with.
  rewrite (createSubscription_with_success _ _ _ w u p (sql_datetime_text r)
             (JsDate.isoString r)); try assumption.
  - reflexivity.
  - rewrite RenewalFacts.setMonth_next_month, Hr.
    now apply JsDateFacts.toSqlDatetime_text.
  - now rewrite RenewalFacts.setMonth_next_month, Hr.
Qed.

(** X17.  Also at the end of a month, [createSubscription] stores as
    renewal date the creation time plus the length of the month in which
    the subscription was created (28 to 31 days, counted in the local
    calendar of the host), as the DATETIME text of its UTC fields, and
    returns it as ISO text.  This is stated for a user who exists and has
    no Active subscription, an id that is not yet in [subscriptions], and
    a renewal instant that a TIMESTAMP column holds (up to 19 January
    2038). *)
Theorem renewal_date_month_length (w : World) (u : string) (p : Plan) (r : Z) :
  JsDate.TimeClip (JsDate.UTC (plus_month_length (JsDate.LocalTime (w_now w)))) = Some r ->
  in_timestamp_range r ->
  id_taken (w_rand w (w_next w)) (map sub_id (subscriptions (w_db w))) = false ->
  active_rows u (subscriptions (w_db w)) = [] ->
  id_taken u (map user_id (users (w_db w))) = true ->
  fst (DbAuth.createSubscription (Some u) p w)
  = Returned {| subscription_id := w_rand w (w_next w); subscription_plan := p;
                subscription_status := Active;
                renewal_date := Some (JsDate.isoString r) |}
  /\ subscriptions (w_db (snd (DbAuth.createSubscription (Some u) p w)))
     = subscriptions (w_db w) ++ [new_subscription_row w u p (sql_datetime_text r)]
  /\ (28 <= JsDate.DaysInMonth (JsDate.YearFromTime (JsDate.LocalTime (w_now w)))
                               (JsDate.MonthFromTime (JsDate.LocalTime (w_now w)))
       <= 31)%Z.
Proof.
  intros Hr Hrange Hid Hnone Huser.
  assert (Hy : (0 <= JsDate.YearFromTime r <= 9999)%Z)
    by (pose proof (RenewalFacts.timestamp_year r Hrange); lia).
  rewrite (createSubscription_run w u p r Hr Hy Hid Hnone Huser).
  split; [reflexivity|]. split; [reflexivity|].
  apply RenewalFacts.DaysInMonth_range.
Qed.

End RenewalMore.

(** Alice subscribes on 31 January 2025 at noon (UTC): January has 31
    days, and the renewal date stored is 3 March at noon. *)
Lemma renewal_date_month_length_witness :
  fst (@DbAuth.createSubscription binary Example.utc (Some "u-alice") Expert Sample.world)
  = Returned {| subscription_id := "r0"; subscription_plan := Expert;
                subscription_status := Active;
                renewal_date := Some "2025-03-03T12:00:00.000Z" |}
  /\ subscriptions
       (w_db (snd (@DbAuth.createSubscription binary Example.utc (Some "u-alice") Expert
                     Sample.world)))
     = subscriptions (w_db Sample.world)
       ++ [new_subscription_row Sample.world "u-alice" Expert "2025-03-03 12:00:00"]
  /\ (28 <= JsDate.DaysInMonth 2025 0 <= 31)%Z.
Proof.
  apply (@renewal_date_month_length binary Example.utc Sample.world "u-alice" Expert
           1741003200000%Z);
    try (vm_compute; reflexivity).
  unfold in_timestamp_range. lia.
Defined.

(** ** Activating a plan *)

Section Activate.
Context `{Collation} `{Bcrypt} `{JwtLib} `{JsDate.HostTimeZone} `{JsDate.DateParser}.



End Activate.


(** ** The audit trail *)

Section Audit.
Context `{Collation}.

(** X8.  Whoever the actor is (a user, an admin of the separate table,
    nobody), [logAuditAction] writes its entry when the values fit their
    columns (the address, which the login route takes from a request
    header, within 45 characters), and no foreign key stands in the way:
    the entry refers to the actor exactly when a row of [users] carries
    the actor's id and holds NULL otherwise, it keeps the action, the
    entity and the address, and no other table changes. *)
Theorem logAuditAction_any_actor (w : World) (data : DbAuth.AuditData) :
  audit_data_fits data = true ->
  id_taken (w_rand w (w_next w)) (map audit_id (audit_logs (w_db w))) = false ->
  exists entry w',
    DbAuth.logAuditAction data w = (Returned tt, w')
    /\ audit_logs (w_db w') = audit_logs (w_db w) ++ [entry]
    /\ audit_action entry = DbAuth.ad_action data
    /\ audit_entity_type entry = DbAuth.or_null (DbAuth.ad_entityType data)
    /\ audit_entity_id entry = DbAuth.or_null (DbAuth.ad_entityId data)
    /\ audit_ip_address entry = DbAuth.or_null (DbAuth.ad_ipAddress data)
    /\ (forall u, audit_user_id entry = Some u <->
                  DbAuth.or_null (DbAuth.ad_userId data) = Some u
                  /\ id_taken u (map user_id (users (w_db w))) = true)
    /\ users (w_db w') = users (w_db w)
    /\ admins (w_db w') = admins (w_db w)
    /\ subscriptions (w_db w') = subscriptions (w_db w)
    /\ user_sessions (w_db w') = user_sessions (w_db w)
    /\ packages (w_db w') = packages (w_db w).
Proof.
  intros Hfits Hfresh. unfold audit_data_fits in Hfits.
  apply andb_prop in Hfits. destruct Hfits as [_ Hip].
  rewrite logAuditAction_run by (first [exact Hip | exact Hfresh]).
  do 2 eexists. split; [reflexivity|]. split; [reflexivity|].
  repeat (split; [reflexivity|]). split; [|repeat split].
  intros u. cbn [new_audit_row audit_user_id]. unfold id_taken.
  rewrite existsb_key_sym.
  destruct (DbAuth.or_null (DbAuth.ad_userId data)) as [x|].
  - destruct (existsb (fun r => coll_eqb (user_id r) x) (users (w_db w))) eqn:E.
    + split; [intros [= <-]; now split | intros [[= <-] _]; reflexivity].
    + split; [discriminate | intros [[= <-] E']; congruence].
  - split; [discriminate | intros [E _]; discriminate].
Qed.

End Audit.

(** Root, of the separate table, is the actor, behind a proxy: the entry
    is written and its reference to a user is NULL. *)
Lemma logAuditAction_any_actor_witness :
  let data := {| DbAuth.ad_userId := Some "a-root"; DbAuth.ad_action := "package_deleted";
                 DbAuth.ad_entityType := Some "package"; DbAuth.ad_entityId := Some "p-1";
                 DbAuth.ad_changes := None;
                 DbAuth.ad_ipAddress := Some "203.0.113.195" |} in
  exists entry w',
    @DbAuth.logAuditAction binary data Sample.world = (Returned tt, w')
    /\ audit_logs (w_db w') = audit_logs (w_db Sample.world) ++ [entry]
    /\ audit_action entry = "package_deleted"
    /\ audit_entity_type entry = Some "package"
    /\ audit_entity_id entry = Some "p-1"
    /\ audit_ip_address entry = Some "203.0.113.195"
    /\ (forall u, audit_user_id entry = Some u <->
                  Some "a-root" = Some u
                  /\ @id_taken binary u (map user_id (users (w_db Sample.world))) = true)
    /\ users (w_db w') = users (w_db Sample.world)
    /\ admins (w_db w') = admins (w_db Sample.world)
    /\ subscriptions (w_db w') = subscriptions (w_db Sample.world)
    /\ user_sessions (w_db w') = user_sessions (w_db Sample.world)
    /\ packages (w_db w') = packages (w_db Sample.world).
Proof.
  intros data.
  apply (@logAuditAction_any_actor binary Sample.world data);
    vm_compute; reflexivity.
Defined.
